(** * Healthcare multi-agent RAG system: embedding and verified properties

    The development follows the repository's layout.

    - [Str]: the string primitives the Python backend and the TypeScript
      routes rely on ([lower], [in], [split], [strip]), over strings whose
      characters are code points below 256.
    - [Py]: Python values, truthiness, exceptions.
    - [Guardrail]: [validate_healthcare_query] of the FastAPI backend.
    - [HospitalRag]: the hospital RAG functions and endpoint of the backend.
    - [HospitalLocations]: [extractHospitalDataFromRAG] of the Next.js
      hospital-locations route.
    - [Retrieval]: the document scorer, ranking engine and retrieval
      service.  The multi-agent route imports them from [@/lib/retrieval],
      a module that is not among the embedded sources; they are modelled
      from the specification, and say so.
    - [HealthcareChat]: the chat endpoint of the backend.
    - [JsRun], [CoordPattern]: JavaScript completions and text, and the
      coordinate patterns of the two Next.js routes.
    - [GeocodeRoute]: the geocode route.
    - [Geocoding], [MockHospitals], [HospitalLocationsRoute]: the rest
      of the hospital-locations route ([geocodeAddress], the mock
      generator, the handler).
    - [Wire], [Deployment]: the backend's answer as the route receives
      it, and the services as the repository wires them.

    Definitions come first; the lemmas and theorems follow. *)

From Stdlib Require Import Bool List String Ascii NArith ZArith QArith Qminmax Lia.
From Stdlib Require Import Floats DecimalString.
Import ListNotations.

Set Warnings "-inexact-float,-register-all".

Local Close Scope Q_scope.
Local Open Scope nat_scope.
Local Open Scope string_scope.
Local Open Scope list_scope.

(* ===================================================================== *)
(** * Part I: the embedding                                               *)
(* ===================================================================== *)

(** ** Strings *)

Module Str.

(** Code point of a character. *)
Definition code (c : ascii) : N := N_of_ascii c.

(** [str.lower()] / [toLowerCase()] on one character: A-Z and the
    Latin-1 capitals (C0-DE except the multiplication sign D7) move
    down by 32. *)
Definition lower_char (c : ascii) : ascii :=
  let n := code c in
  if (((65 <=? n) && (n <=? 90)) ||
      ((192 <=? n) && (n <=? 222) && negb (n =? 215)))%N
  then ascii_of_N (n + 32) else c.

Fixpoint lower (s : string) : string :=
  match s with
  | EmptyString => EmptyString
  | String c s' => String (lower_char c) (lower s')
  end.

(** [str.isspace()] on one character: TAB..CR, FS..US, space, NEL, NBSP. *)
Definition is_space (c : ascii) : bool :=
  let n := code c in
  (((9 <=? n) && (n <=? 13)) || ((28 <=? n) && (n <=? 32)) ||
   (n =? 133) || (n =? 160))%N.

(** Python's [needle in hay] on strings. *)
Fixpoint contains (needle hay : string) : bool :=
  String.prefix needle hay ||
  match hay with
  | EmptyString => false
  | String _ hay' => contains needle hay'
  end.

Definition is_empty (s : string) : bool :=
  match s with EmptyString => true | _ => false end.

(** [str.split()] without arguments: the maximal runs of non-space
    characters, in order.  [word] is the run being read. *)
Fixpoint split_from (word s : string) : list string :=
  match s with
  | EmptyString => if is_empty word then [] else [word]
  | String c s' =>
      if is_space c
      then (if is_empty word then split_from "" s' else word :: split_from "" s')
      else split_from (word ++ String c "") s'
  end.

Definition split (s : string) : list string := split_from "" s.

Fixpoint lstrip (s : string) : string :=
  match s with
  | EmptyString => EmptyString
  | String c s' => if is_space c then lstrip s' else s
  end.

Fixpoint rstrip (s : string) : string :=
  match s with
  | EmptyString => EmptyString
  | String c s' =>
      let r := rstrip s' in
      if is_space c && is_empty r then EmptyString else String c r
  end.

(** [str.strip()]. *)
Definition strip (s : string) : string := rstrip (lstrip s).

(** The string without its last character. *)
Fixpoint all_but_last (s : string) : string :=
  match s with
  | EmptyString => EmptyString
  | String c s' => if is_empty s' then EmptyString else String c (all_but_last s')
  end.

(** The double quote character, for texts that contain it. *)
Definition dquote : string := String (ascii_of_nat 34) "".

(** The line feed, the one character the regular expression dot
    refuses. *)
Definition is_newline (c : ascii) : bool := (code c =? 10)%N.

Fixpoint single_line (s : string) : bool :=
  match s with
  | EmptyString => true
  | String c s' => negb (is_newline c) && single_line s'
  end.

(** Only whitespace (or nothing at all). *)
Fixpoint blank (s : string) : bool :=
  match s with
  | EmptyString => true
  | String c s' => is_space c && blank s'
  end.

End Str.

(** ** Python values and exceptions *)

Module Py.

Inductive exn : Type :=
| ValueError (msg : string)
| TypeError
| AttributeError
| JSONDecodeError
| APIError (msg : string).

Inductive result (A : Type) : Type :=
| Ok (a : A)
| Raise (e : exn).
Arguments Ok {A} a.
Arguments Raise {A} e.

Definition bind {A B} (m : result A) (k : A -> result B) : result B :=
  match m with
  | Ok a => k a
  | Raise e => Raise e
  end.

(** [try: body  except Exception: handler]. *)
Definition try_except {A} (body : result A) (handler : exn -> A) : A :=
  match body with
  | Ok a => a
  | Raise e => handler e
  end.

(** The values [json.loads] produces. *)
Inductive value : Type :=
| VNone
| VBool (b : bool)
| VInt (z : Z)
| VFloat (f : float)
| VStr (s : string)
| VList (l : list value)
| VDict (items : list (string * value)).

(** [bool(v)]. *)
Definition truthy (v : value) : bool :=
  match v with
  | VNone => false
  | VBool b => b
  | VInt z => negb (z =? 0)%Z
  | VFloat f => negb (PrimFloat.eqb f 0%float)
  | VStr s => negb (Str.is_empty s)
  | VList l => match l with [] => false | _ => true end
  | VDict items => match items with [] => false | _ => true end
  end.

Definition is_str (key : string) (v : value) : bool :=
  match v with
  | VStr s => String.eqb s key
  | _ => false
  end.

(** [key in v] for a string [key]: dictionary key, substring of a
    string, element of a list; a [TypeError] on anything else. *)
Definition contains_key (key : string) (v : value) : result bool :=
  match v with
  | VDict items => Ok (existsb (fun kv => String.eqb (fst kv) key) items)
  | VStr s => Ok (Str.contains key s)
  | VList l => Ok (existsb (is_str key) l)
  | VNone | VBool _ | VInt _ | VFloat _ => Raise TypeError
  end.

(** [l[:m]]: a negative bound counts from the end. *)
Definition slice_to {A} (m : Z) (l : list A) : list A :=
  if (m <? 0)%Z
  then firstn (Z.to_nat (Z.of_nat (List.length l) + m)) l
  else firstn (Z.to_nat m) l.

End Py.

Notation "x <- m ;; k" := (Py.bind m (fun x => k))
  (at level 61, m at next level, right associativity).

(** ** The healthcare guardrail (FastAPI backend) *)

Module Guardrail.
Import Py.

Definition healthcare_keywords : list string :=
  [ "hospital"; "doctor"; "medical"; "health"; "injury"; "pain"; "sick"; "treatment";
    "emergency"; "clinic"; "nurse"; "medicine"; "symptom"; "fever"; "hurt"; "wound";
    "care"; "therapy"; "diagnosis"; "patient"; "healthcare"; "wellness"; "disease";
    "infection"; "surgery"; "prescription"; "urgent care"; "pharmacy"; "specialist" ].

Definition non_healthcare_indicators : list string :=
  [ "weather forecast"; "stock price"; "news"; "sports"; "entertainment";
    "cooking recipe"; "travel"; "shopping"; "politics"; "business";
    "technology review"; "movie"; "music"; "game"; "fashion" ].

Definition out_of_scope_message (indicator : string) : string :=
  "Healthcare System Alert: This system is specialized for healthcare and hospital evaluation only. Your query about '"
  ++ indicator ++
  "' is outside our scope. Please ask about hospitals, medical care, injuries, healthcare services, or weather-related health concerns.".

Definition missing_context_message : string :=
  "Healthcare System Alert: Please specify your healthcare-related question. This system helps with hospital evaluation, medical care, injuries, healthcare services, and weather-related health concerns. Please rephrase your query to include healthcare context.".

(** The [for indicator in non_healthcare_indicators] loop: raises at the
    first indicator found in the lowercased input. *)
Fixpoint check_indicators (indicators : list string) (user_input_lower : string)
  : result unit :=
  match indicators with
  | [] => Ok tt
  | indicator :: rest =>
      if Str.contains indicator user_input_lower
      then Raise (ValueError (out_of_scope_message indicator))
      else check_indicators rest user_input_lower
  end.

Definition validate_healthcare_query (user_input : string) : result string :=
  let user_input_lower := Str.lower user_input in
  _ <- check_indicators non_healthcare_indicators user_input_lower ;;
  let has_healthcare_content :=
    existsb (fun keyword => Str.contains keyword user_input_lower) healthcare_keywords in
  if negb has_healthcare_content && (3 <? List.length (Str.split user_input))%nat
  then Raise (ValueError missing_context_message)
  else Ok user_input.

(** What the chat endpoint answers when the guardrail raises. *)
Record Rejection : Type := mkRejection {
  rej_role : string;
  rej_content : string;
  rej_type : string;
  guardrail_triggered : bool;
  data_sources : list string
}.

(** The [try: validate_healthcare_query(...) except ValueError] block of
    [healthcare_chat]: [inl] is the early return, [inr] lets the handler
    go on (a non-[ValueError] exception would leave the block). *)
Definition guardrail_step (user_query : string) : result (Rejection + string) :=
  match validate_healthcare_query user_query with
  | Ok q => Ok (inr q)
  | Raise (ValueError msg) =>
      Ok (inl (mkRejection "assistant" msg "guardrail_rejection" true []))
  | Raise e => Raise e
  end.

(** The condition under which the guardrail rejects a query. *)
Definition rejected (q : string) : Prop :=
  (exists indicator,
      In indicator non_healthcare_indicators /\
      Str.contains indicator (Str.lower q) = true) \/
  ((forall keyword, In keyword healthcare_keywords ->
      Str.contains keyword (Str.lower q) = false) /\
   3 < List.length (Str.split q)).

End Guardrail.

(** ** The hospital RAG functions and endpoint (FastAPI backend) *)

Module HospitalRag.
Import Py.

(** *** The name pattern

    [re.search(r'(.*?(?:Hospital|Medical Center|Clinic|Care Center))',
    content, re.IGNORECASE)], as the backtracking matcher runs it. *)

Definition facility_suffixes : list string :=
  [ "Hospital"; "Medical Center"; "Clinic"; "Care Center" ].

(** A literal of the pattern at the start of [s], letter case ignored;
    the text it matched. *)
Fixpoint match_literal (pat s : string) : option string :=
  match pat with
  | EmptyString => Some EmptyString
  | String p pat' =>
      match s with
      | EmptyString => None
      | String c s' =>
          if Ascii.eqb (Str.lower_char p) (Str.lower_char c)
          then option_map (String c) (match_literal pat' s')
          else None
      end
  end.

(** The alternation at the start of [s]: the first alternative that
    matches. *)
Fixpoint match_alternation (alts : list string) (s : string) : option string :=
  match alts with
  | [] => None
  | alt :: rest =>
      match match_literal alt s with
      | Some m => Some m
      | None => match_alternation rest s
      end
  end.

(** The whole pattern anchored at the start of [s]: the lazy [.*?] first
    tries to stop, and only then takes one more character that is not a
    line feed. *)
Fixpoint match_here (s : string) : option string :=
  match match_alternation facility_suffixes s with
  | Some m => Some m
  | None =>
      match s with
      | EmptyString => None
      | String c s' =>
          if Str.is_newline c then None
          else option_map (String c) (match_here s')
      end
  end.

(** [re.search]: the match at the leftmost position that has one. *)
Fixpoint re_search (s : string) : option string :=
  match match_here s with
  | Some m => Some m
  | None =>
      match s with
      | EmptyString => None
      | String _ s' => re_search s'
      end
  end.

Definition unknown_hospital : string := "Unknown Hospital".

(** [name_match.group(1).strip() if name_match else "Unknown Hospital"]. *)
Definition hospital_name_of (content : string) : string :=
  match re_search content with
  | Some m => Str.strip m
  | None => unknown_hospital
  end.

(** [p] ends in one of the facility suffixes, letter case ignored (as
    the pattern matches them). *)
Definition ends_with_suffix_ci (p : string) : Prop :=
  exists pre t suffix,
    In suffix facility_suffixes /\ p = (pre ++ t)%string /\ Str.lower t = Str.lower suffix.

(** [p] ends in one of the facility suffixes as they are written. *)
Definition ends_with_suffix (p : string) : Prop :=
  exists pre suffix, In suffix facility_suffixes /\ p = (pre ++ suffix)%string.

(** The name as the specification words it: the longest leading
    substring of the content that ends in a facility suffix. *)
Definition longest_leading_name (content name : string) : Prop :=
  String.prefix name content = true /\
  ends_with_suffix name /\
  (forall p, String.prefix p content = true -> ends_with_suffix p ->
             String.length p <= String.length name).

(** *** Records *)

Record RagResult : Type := mkRagResult {
  content : string;
  metadata : list (string * value)
}.

Record Hospital : Type := mkHospital {
  name : string;
  address : string;
  phone : string;
  services : list string;
  rating : float;
  emergency : bool;
  urgent_care : bool;
  coordinates : option value;
  relevance_score : value
}.

Definition set_coordinates (h : Hospital) (coords : value) : Hospital :=
  mkHospital (name h) (address h) (phone h) (services h) (rating h)
             (emergency h) (urgent_care h) (Some coords) (relevance_score h).

(** [d.get(key, default)]. *)
Fixpoint dict_get (key : string) (items : list (string * value)) (default : value)
  : value :=
  match items with
  | [] => default
  | (k, v) :: rest => if String.eqb k key then v else dict_get key rest default
  end.

Definition mock_rag_results (location : string) : list RagResult :=
  [ mkRagResult
      ("Regional Medical Center near " ++ location ++
       " - Full-service hospital with emergency department, trauma center, and specialized care units. Located at downtown area with 24/7 availability.")
      [ ("relevance_score", VFloat 0.95); ("source", VStr "hospital_directory") ];
    mkRagResult
      ("City General Hospital in " ++ location ++
       " - Community hospital offering urgent care, family medicine, and surgical services. Known for excellent patient care and modern facilities.")
      [ ("relevance_score", VFloat 0.88); ("source", VStr "healthcare_database") ];
    mkRagResult
      ("Emergency Care Center near " ++ location ++
       " - Specialized emergency and urgent care facility with fast treatment times and expert medical staff.")
      [ ("relevance_score", VFloat 0.82); ("source", VStr "emergency_services") ] ].

Definition coordinates_prompt (hospital_name address location : string) : string :=
  "
        Extract the approximate latitude and longitude coordinates for this hospital:
        Hospital: " ++ hospital_name ++ "
        Address: " ++ address ++ "
        Location: " ++ location ++ "
        
        Respond with only a JSON object in this format:
        {" ++ Str.dquote ++ "lat" ++ Str.dquote ++ ": latitude_number, "
        ++ Str.dquote ++ "lng" ++ Str.dquote ++ ": longitude_number}
        
        If you cannot determine exact coordinates, provide approximate coordinates for the general area of "
        ++ location ++ ".
        ".

Record HospitalRagRequest : Type := mkRequest {
  req_location : string;
  req_injury_type : string;
  max_results : Z
}.

Record RagLocationsResponse : Type := mkResponse {
  success : bool;
  hospitals : list Hospital;
  resp_location : string;
  resp_injury_type : string;
  total_found : nat
}.

Section WithCollaborators.

(** The chat-completion service: what the [call]-th request, with the
    given prompt, does.  [Raise] is any exception on the way to
    [response.choices[0].message.content] (network failure, timeout,
    refused request, no choice); [Ok None] is a message without content. *)
Variable chat_completion : nat -> string -> result (option string).

(** [json.loads]; it raises [JSONDecodeError] on text that is not JSON. *)
Variable json_loads : string -> result value.

(** The [try] block of [extract_coordinates_with_openai]; [Ok None] is
    falling through the [if]. *)
Definition coordinates_attempt (call : nat) (hospital_name address location : string)
  : result (option value) :=
  message_content <- chat_completion call (coordinates_prompt hospital_name address location) ;;
  result_text <- match message_content with
                 | Some text => Ok (Str.strip text)
                 | None => Raise AttributeError
                 end ;;
  coords <- json_loads result_text ;;
  has_lat <- contains_key "lat" coords ;;
  if has_lat
  then (has_lng <- contains_key "lng" coords ;;
        Ok (if has_lng then Some coords else None))
  else Ok None.

Definition extract_coordinates_with_openai
    (call : nat) (hospital_name address location : string) : option value :=
  try_except (coordinates_attempt call hospital_name address location)
             (fun _ => None).

(** [bool(x)] of an optional value. *)
Definition option_truthy (v : option value) : bool :=
  match v with
  | Some x => truthy x
  | None => false
  end.

(** The [try] block of [parse_hospital_from_rag_content]. *)
Definition parse_attempt (call : nat) (content : string)
    (metadata : list (string * value)) (location : string) : result Hospital :=
  let hospital_name := hospital_name_of content in
  let hospital_info :=
    mkHospital hospital_name
               ("123 Healthcare Blvd, " ++ location)
               "(555) 123-4567"
               [ "Emergency Care"; "Urgent Care"; "General Medicine" ]
               4.2%float true true None
               (dict_get "relevance_score" metadata (VFloat 0.0)) in
  if negb (option_truthy (coordinates hospital_info))
  then
    let coords :=
      extract_coordinates_with_openai call hospital_name (address hospital_info) location in
    match coords with
    | Some c => Ok (if truthy c then set_coordinates hospital_info c else hospital_info)
    | None => Ok hospital_info
    end
  else Ok hospital_info.

Definition parse_hospital_from_rag_content (call : nat) (content : string)
    (metadata : list (string * value)) (location : string) : option Hospital :=
  try_except (hospital_info <- parse_attempt call content metadata location ;;
              Ok (Some hospital_info))
             (fun _ => None).

(** The [for result in mock_rag_results] loop, over any list of results:
    [hospitals] is the list built so far, and every entry spends one
    chat-completion request. *)
Fixpoint collect_hospitals (call : nat) (results : list RagResult)
    (location : string) (hospitals : list Hospital) : list Hospital :=
  match results with
  | [] => hospitals
  | result :: rest =>
      let hospital_info :=
        parse_hospital_from_rag_content call (content result) (metadata result) location in
      collect_hospitals (S call) rest location
        match hospital_info with
        | Some h => hospitals ++ [h]
        | None => hospitals
        end
  end.

(** The same loop without the accumulator: what it appends, in order. *)
Fixpoint hospitals_from (call : nat) (results : list RagResult) (location : string)
  : list Hospital :=
  match results with
  | [] => []
  | result :: rest =>
      match parse_hospital_from_rag_content call (content result) (metadata result) location with
      | Some h => [h]
      | None => []
      end ++ hospitals_from (S call) rest location
  end.

(** The ways coordinate resolution goes wrong at request [call]: the
    request raises (failure, timeout), the message has no content, the
    text is not JSON, or the JSON value lacks [lat] or [lng]. *)
Definition resolution_fails (call : nat) (hospital_name address location : string)
  : Prop :=
  let answer := chat_completion call (coordinates_prompt hospital_name address location) in
  (exists e, answer = Raise e) \/
  answer = Ok None \/
  (exists text e, answer = Ok (Some text) /\ json_loads (Str.strip text) = Raise e) \/
  (exists text coords,
      answer = Ok (Some text) /\ json_loads (Str.strip text) = Ok coords /\
      (contains_key "lat" coords <> Ok true \/ contains_key "lng" coords <> Ok true)).

(** The [try] block of [extract_hospital_locations_from_rag]. *)
Definition extract_attempt (call : nat) (location injury_type : string)
  : result (list Hospital) :=
  Ok (collect_hospitals call (mock_rag_results location) location []).

Definition extract_hospital_locations_from_rag
    (call : nat) (location injury_type : string) : list Hospital :=
  try_except (extract_attempt call location injury_type) (fun _ => []).

(** The endpoint [POST /api/hospitals/rag-locations]: its body cannot
    raise, so the [HTTPException] branch is never taken. *)
Definition get_hospitals_from_rag (call : nat) (request : HospitalRagRequest)
  : RagLocationsResponse :=
  let found :=
    extract_hospital_locations_from_rag call (req_location request)
                                        (req_injury_type request) in
  mkResponse true
             (slice_to (max_results request) found)
             (req_location request)
             (req_injury_type request)
             (List.length found).

End WithCollaborators.

(** *** Collaborators for the examples below

    A chat-completion service that answers the first request with
    coordinates, times out on the second, answers the third with prose
    and then sends messages without content; and a parser that knows the
    one JSON text. *)

Definition example_coordinates_text : string :=
  "{" ++ Str.dquote ++ "lat" ++ Str.dquote ++ ": 42.36, "
      ++ Str.dquote ++ "lng" ++ Str.dquote ++ ": -71.06}".

Definition example_chat (call : nat) (prompt : string) : result (option string) :=
  match call with
  | 0 => Ok (Some example_coordinates_text)
  | 1 => Raise (APIError "Request timed out.")
  | 2 => Ok (Some "I cannot determine the coordinates.")
  | _ => Ok None
  end.

Definition example_json_loads (text : string) : result value :=
  if String.eqb text example_coordinates_text
  then Ok (VDict [ ("lat", VFloat 42.36); ("lng", VFloat (-71.06)) ])
  else Raise JSONDecodeError.

End HospitalRag.

(** ** JavaScript values *)

Module Js.

Inductive value : Type :=
| Undefined
| Null
| Bool (b : bool)
| Num (f : float)
| Text (s : string)
| Arr (items : list value)
| Obj (fields : list (string * value)).

Inductive outcome (A : Type) : Type :=
| Return (a : A)
| ThrowTypeError.
Arguments Return {A} a.
Arguments ThrowTypeError {A}.

Definition bind {A B} (m : outcome A) (k : A -> outcome B) : outcome B :=
  match m with
  | Return a => k a
  | ThrowTypeError => ThrowTypeError
  end.

(** A number is falsy when it is [0], [-0] or [NaN]. *)
Definition num_truthy (f : float) : bool :=
  negb (PrimFloat.eqb f 0%float) && PrimFloat.eqb f f.

(** [ToBoolean]. *)
Definition truthy (v : value) : bool :=
  match v with
  | Undefined | Null => false
  | Bool b => b
  | Num f => num_truthy f
  | Text s => negb (Str.is_empty s)
  | Arr _ | Obj _ => true
  end.

Fixpoint lookup (key : string) (fields : list (string * value)) : value :=
  match fields with
  | [] => Undefined
  | (k, v) :: rest => if String.eqb k key then v else lookup key rest
  end.

(** [v.key] for the property names the route reads ([hospitals], [lat],
    [id], ...): none of them lives on a prototype, so only an object can
    have one; reading a property of [undefined] or [null] throws. *)
Definition get (v : value) (key : string) : outcome value :=
  match v with
  | Undefined | Null => ThrowTypeError
  | Obj fields => Return (lookup key fields)
  | Bool _ | Num _ | Text _ | Arr _ => Return Undefined
  end.

(** [a || b]. *)
Definition or_else (a b : value) : value := if truthy a then a else b.

Fixpoint chars (s : string) : list value :=
  match s with
  | EmptyString => []
  | String c s' => Text (String c "") :: chars s'
  end.

(** What [for (const x of v)] iterates over: the elements of an array,
    the characters of a string; anything else is not iterable. *)
Definition iterate (v : value) : outcome (list value) :=
  match v with
  | Arr items => Return items
  | Text s => Return (chars s)
  | Undefined | Null | Bool _ | Num _ | Obj _ => ThrowTypeError
  end.

End Js.

(** ** The hospital-locations route (Next.js) *)

Module HospitalLocations.
Import Js.

(** The [Hospital] interface; the field types are erased at run time,
    so a field holds whatever the RAG response carried. *)
Record Hospital : Type := mkHospital {
  id : value;
  name : value;
  address : value;
  lat : value;
  lng : value;
  phone : value;
  services : value;
  rating : value;
  emergency : value;
  urgentCare : value
}.

Section WithRandom.

(** The text of [Math.random().toString(36).substr(2, 9)] at the
    [n]-th draw. *)
Variable random_suffix : nat -> string.

(** One turn of the loop body: [draws] counts the random draws made so
    far, [hospitals] is the array built so far. *)
Definition visit (ragHospital : value) (state : nat * list Hospital)
  : outcome (nat * list Hospital) :=
  let '(draws, hospitals) := state in
  bind (get ragHospital "lat") (fun rag_lat =>
  if truthy rag_lat then
    bind (get ragHospital "lng") (fun rag_lng =>
    if truthy rag_lng then
      bind (get ragHospital "id") (fun rag_id =>
      bind (get ragHospital "name") (fun rag_name =>
      bind (get ragHospital "address") (fun rag_address =>
      bind (get ragHospital "phone") (fun rag_phone =>
      bind (get ragHospital "services") (fun rag_services =>
      bind (get ragHospital "rating") (fun rag_rating =>
      bind (get ragHospital "emergency") (fun rag_emergency =>
      bind (get ragHospital "urgentCare") (fun rag_urgentCare =>
      let hospital :=
        mkHospital
          (if truthy rag_id then rag_id else Text ("rag-" ++ random_suffix draws))
          (or_else rag_name (Text "Unknown Hospital"))
          (or_else rag_address (Text "Address not available"))
          rag_lat
          rag_lng
          rag_phone
          (or_else rag_services (Arr [Text "General Medicine"]))
          (or_else rag_rating (Num 4.0))
          (or_else rag_emergency (Bool false))
          (or_else rag_urgentCare (Bool false)) in
      Return (if truthy rag_id then draws else S draws, hospitals ++ [hospital])))))))))
    else Return state)
  else Return state).

Fixpoint visit_all (items : list value) (state : nat * list Hospital)
  : outcome (nat * list Hospital) :=
  match items with
  | [] => Return state
  | ragHospital :: rest => bind (visit ragHospital state) (visit_all rest)
  end.

Definition extractHospitalDataFromRAG (draws : nat) (ragResponse : value)
  : outcome (nat * list Hospital) :=
  let hospitals : list Hospital := [] in
  if negb (truthy ragResponse) then Return (draws, hospitals)
  else
    bind (get ragResponse "hospitals") (fun rag_hospitals =>
    if negb (truthy rag_hospitals) then Return (draws, hospitals)
    else bind (iterate rag_hospitals) (fun items => visit_all items (draws, hospitals))).

End WithRandom.

(** The coordinate pair a returned hospital carries. *)
Definition position (h : Hospital) : value * value := (lat h, lng h).

(** The coordinate pair of an input record ([undefined] for a field it
    lacks). *)
Definition rag_position (ragHospital : value) : value * value :=
  match ragHospital with
  | Obj fields => (lookup "lat" fields, lookup "lng" fields)
  | _ => (Undefined, Undefined)
  end.

(** An input record is kept when both coordinates are truthy. *)
Definition has_coordinates (ragHospital : value) : bool :=
  truthy (fst (rag_position ragHospital)) && truthy (snd (rag_position ragHospital)).

(** The hospital the loop builds from a kept record: both coordinates
    and the phone are copied, the other fields are copied or defaulted,
    and the id is the record's own when it has a truthy one. *)
Definition built_from (ragHospital : value) (h : Hospital) : Prop :=
  match ragHospital with
  | Obj fields =>
      lat h = lookup "lat" fields /\
      lng h = lookup "lng" fields /\
      phone h = lookup "phone" fields /\
      name h = or_else (lookup "name" fields) (Text "Unknown Hospital") /\
      address h = or_else (lookup "address" fields) (Text "Address not available") /\
      services h = or_else (lookup "services" fields) (Arr [Text "General Medicine"]) /\
      rating h = or_else (lookup "rating" fields) (Num 4.0) /\
      emergency h = or_else (lookup "emergency" fields) (Bool false) /\
      urgentCare h = or_else (lookup "urgentCare" fields) (Bool false) /\
      (truthy (lookup "id" fields) = true -> id h = lookup "id" fields)
  | _ => False
  end.

(** An element whose properties can be read: anything but [undefined]
    and [null]. *)
Definition readable (v : value) : bool :=
  match v with
  | Undefined | Null => false
  | _ => true
  end.

(** *** A response for the examples below *)

(** A response with three records: one located, one on the equator,
    one without coordinates. *)
Definition sample_response : value :=
  Obj [ ("success", Bool true);
        ("hospitals",
         Arr [ Obj [ ("id", Text "h1"); ("name", Text "City General Hospital");
                     ("lat", Num 34.05%float); ("lng", Num (-118.24)%float) ];
               Obj [ ("id", Text "h2"); ("name", Text "Equator Clinic");
                     ("lat", Num 0%float); ("lng", Num 78.5%float) ];
               Obj [ ("id", Text "h3"); ("name", Text "Regional Medical Center") ] ]) ].

End HospitalLocations.

(** ** The retrieval core (scorer, ranking engine, retrieval service) *)

Module Retrieval.

Local Open Scope Q_scope.

(** Modelled from the spec: the [Document] entity of the document store
    (the store and its corpus belong to [@/lib/retrieval], which is
    missing); the fields are those of the data model. *)
Record Document : Type := mkDocument {
  doc_id : string;
  title : string;
  body : string;
  source : string
}.

(** Modelled from the spec: the intent categories of the scorer, missing
    with [@/lib/retrieval]; the four calibrated categories the design
    notes name ("none" is [None] below). *)
Inductive Category : Type := Emergency | Facility | Allergy | General.

(** Modelled from the spec: the calibrated scores of the missing scorer,
    0.95 emergency, 0.88 facility, 0.92 allergy, 0.78 general. *)
Definition calibrated (c : Category) : Q :=
  match c with
  | Emergency => 0.95
  | Facility => 0.88
  | Allergy => 0.92
  | General => 0.78
  end.

(** Modelled from the spec: the [ScoredDocument] entity (missing with
    the ranking engine): a document with its two scores. *)
Record ScoredDocument : Type := mkScored {
  document : Document;
  relevancy : Q;
  similarity : Q
}.

(** Modelled from the spec: the [RetrievalResult] entity (missing with
    the retrieval service). *)
Record RetrievalResult : Type := mkResult {
  documentsUsed : nat;
  enhanced : bool;
  documents : list ScoredDocument
}.

(** Modelled from the spec: what reading the document store gives (the
    store is missing): the corpus in insertion order, or nothing when
    the store cannot be read. *)
Inductive StoreRead : Type :=
| Available (docs : list Document)
| Unreachable.

(** Modelled from the spec: the punctuation the missing tokenizer splits
    on, taken to be the ASCII punctuation characters. *)
Definition is_punct (c : ascii) : bool :=
  let n := Str.code c in
  (((33 <=? n) && (n <=? 47)) || ((58 <=? n) && (n <=? 64)) ||
   ((91 <=? n) && (n <=? 96)) || ((123 <=? n) && (n <=? 126)))%N.

(** Modelled from the spec: the separators of the missing tokenizer,
    "whitespace/punctuation". *)
Definition is_separator (c : ascii) : bool := Str.is_space c || is_punct c.

(** Modelled from the spec: the splitting loop of the missing tokenizer;
    the maximal runs of characters that are not separators. *)
Fixpoint words_from (word s : string) : list string :=
  match s with
  | EmptyString => if Str.is_empty word then [] else [word]
  | String c s' =>
      if is_separator c
      then (if Str.is_empty word then words_from "" s' else word :: words_from "" s')
      else words_from (word ++ String c "") s'
  end.

(** Modelled from the spec: step 1 of the missing scorer; lower case,
    split on whitespace and punctuation, as a set of words. *)
Definition tokenize (text : string) : list string :=
  nodup string_dec (words_from "" (Str.lower text)).

(** Modelled from the spec: membership in a token set of the missing
    scorer. *)
Definition mem (t : string) (ts : list string) : bool :=
  existsb (String.eqb t) ts.

(** Modelled from the spec: the counting of the missing scorer. *)
Definition count (p : string -> bool) (ts : list string) : nat :=
  List.length (filter p ts).

(** Modelled from the spec: the normalisations of the missing scorer,
    [n / d], and 0 when there is nothing to divide by (the empty query,
    the body without a word). *)
Definition ratio (n d : nat) : Q :=
  match d with
  | O => 0
  | S d' => Z.of_nat n # Pos.of_succ_nat d'
  end.

(** Modelled from the spec: steps 4 and 5 of the missing scorer, the
    clamp to [0,1]. *)
Definition clamp01 (x : Q) : Q := Qmax 0 (Qmin 1 x).

Section Scorer.

(** Modelled from the spec: the category a document belongs to, and the
    curated high-priority terms of each category; these tables of the
    missing scorer are parameters, since the spec names them without
    listing them. *)
Variable category_of : Document -> option Category.
Variable priority_terms : Category -> list string.

(** Modelled from the spec: step 2 of the missing scorer, the share of
    the query tokens that occur as substrings of the lowercased body. *)
Definition overlap_ratio (query_tokens : list string) (d : Document) : Q :=
  ratio (count (fun t => Str.contains t (Str.lower (body d))) query_tokens)
        (List.length query_tokens).

(** Modelled from the spec: the intent check of step 3 of the missing
    scorer, "the query contains any term from a curated high-priority
    list associated with the document's category". *)
Definition matches_intent (query_tokens : list string) (c : Category) : bool :=
  existsb (fun term => mem term query_tokens) (priority_terms c).

(** Modelled from the spec: step 5 of the missing scorer, the share of
    the document tokens that occur in the query token set. *)
Definition coverage (query_tokens : list string) (d : Document) : Q :=
  let doc_tokens := tokenize (body d) in
  ratio (count (fun t => mem t query_tokens) doc_tokens) (List.length doc_tokens).

(** Modelled from the spec: [score] of the missing relevance scorer
    (section 4.2): a document with an empty body scores 0 and 0; a query
    that matches the intent category of the document gets the calibrated
    score of the category; any other pair falls back to the overlap
    ratio; both scores are clamped. *)
Definition score (query : string) (d : Document) : ScoredDocument :=
  if Str.is_empty (body d) then mkScored d 0 0
  else
    let query_tokens := tokenize query in
    let raw :=
      match category_of d with
      | Some c => if matches_intent query_tokens c then calibrated c
                  else overlap_ratio query_tokens d
      | None => overlap_ratio query_tokens d
      end in
    mkScored d (clamp01 raw) (clamp01 (coverage query_tokens d)).

(** Modelled from the spec: one insertion of the missing engine's sort,
    into a list sorted by descending relevancy; the inserted element,
    which comes first in the corpus, stays ahead of its ties. *)
Fixpoint insert_desc (x : ScoredDocument) (l : list ScoredDocument)
  : list ScoredDocument :=
  match l with
  | [] => [x]
  | y :: l' =>
      if Qle_bool (relevancy y) (relevancy x) then x :: l
      else y :: insert_desc x l'
  end.

(** Modelled from the spec: the stable descending sort of the missing
    ranking engine (section 4.3). *)
Fixpoint sort_desc (l : list ScoredDocument) : list ScoredDocument :=
  match l with
  | [] => []
  | x :: l' => insert_desc x (sort_desc l')
  end.

(** Modelled from the spec: [rank] of the missing ranking engine: score
    every document, sort, truncate to [k]; zero scores are kept.  [k] is
    an integer, as section 4.3 declares it; the spec does not say what a
    negative [k] gives, and here it leaves nothing, like [k = 0]. *)
Definition rank (query : string) (docs : list Document) (k : Z)
  : list ScoredDocument :=
  firstn (Z.to_nat k) (sort_desc (map (score query) docs)).

(** Modelled from the spec: the fixed "top 3" of the missing engine. *)
Definition default_k : Z := 3.

(** Modelled from the spec: [retrieveContext] of the missing retrieval
    service (section 4.4): an unreadable store gives the empty result;
    [enhanced] is for the caller to set. *)
Definition retrieveContext (store : StoreRead) (query : string) : RetrievalResult :=
  match store with
  | Unreachable => mkResult 0 false []
  | Available docs =>
      let ranked := rank query docs default_k in
      mkResult (List.length ranked) false ranked
  end.

End Scorer.

(** *** An instance of the tables and one document, for the examples

    The tables and the text are illustrations: the categories follow
    the source labels of the knowledge base the README lists, the terms
    and the body are made up. *)

Definition example_category_of (d : Document) : option Category :=
  if String.eqb (source d) "Emergency Response Guidelines" then Some Emergency
  else if String.eqb (source d) "Hospital Evaluation Criteria" then Some Facility
  else if String.eqb (source d) "Allergy Treatment Protocols" then Some Allergy
  else if String.eqb (source d) "General Healthcare Guidelines" then Some General
  else None.

Definition example_terms (c : Category) : list string :=
  match c with
  | Emergency => [ "emergency"; "urgent" ]
  | Facility => [ "hospital"; "clinic"; "facility" ]
  | Allergy => [ "allergy" ]
  | General => [ "wellness" ]
  end.

Definition emergency_doc : Document :=
  mkDocument "doc-1" "Emergency Response Guidelines"
             "Call 911 at once for chest pain or trouble breathing"
             "Emergency Response Guidelines".

End Retrieval.

(** ** Shapes of stripped text *)

Module Trim.

(** The text starts with a character that is not whitespace. *)
Definition starts_nonspace (s : string) : bool :=
  match s with
  | EmptyString => false
  | String c _ => negb (Str.is_space c)
  end.

(** The text ends with a character that is not whitespace. *)
Fixpoint ends_nonspace (s : string) : bool :=
  match s with
  | EmptyString => false
  | String c s' => if Str.is_empty s' then negb (Str.is_space c) else ends_nonspace s'
  end.

End Trim.

(** ** The chat endpoint (FastAPI backend) *)

Module HealthcareChat.
Import Py.

Record WeatherData : Type := mkWeatherData {
  temperature : float;
  condition : string;
  humidity : float;
  windSpeed : float;
  uvIndex : float
}.

Record LocationData : Type := mkLocationData {
  latitude : float;
  longitude : float;
  city : option string;
  weather : option WeatherData
}.

Record ChatMessage : Type := mkChatMessage {
  role : string;
  content : string;
  location : option LocationData
}.

Record ChatRequest : Type := mkChatRequest {
  messages : list ChatMessage;
  stream : bool
}.

(** What leaves a [try] block of the endpoint: an [HTTPException] the
    handler raised itself, or any other exception. *)
Inductive raised : Type :=
| HTTPException (status_code : nat) (detail : string)
| Other (e : exn).

Inductive attempt (A : Type) : Type :=
| Done (a : A)
| Failed (e : raised).
Arguments Done {A} a.
Arguments Failed {A} e.

(** What the client receives: a JSON body with status 200, or the error
    response FastAPI builds from an [HTTPException]. *)
Inductive http (A : Type) : Type :=
| Respond (body : A)
| HttpError (status_code : nat) (detail : string).
Arguments Respond {A} body.
Arguments HttpError {A} status_code detail.

Record Answer : Type := mkAnswer {
  ans_role : string;
  ans_content : option string;
  ans_type : string;
  ans_guardrail_triggered : bool;
  ans_data_sources : list string
}.

Inductive ChatResponse : Type :=
| Rejected (rejection : Guardrail.Rejection)
| Answered (answer : Answer).

(** The degree sign of the weather line. *)
Definition degree : string := String (ascii_of_nat 176) "".

Section WithCollaborators.

(** The chat-completion service: what the [call]-th request, with the
    given system prompt and user query, does.  [Raise] is any exception
    on the way to [response.choices[0].message.content]; [Ok None] is a
    message without content. *)
Variable chat_completion : nat -> string -> string -> result (option string).

(** [str] of a float, as the f-string formats the temperature. *)
Variable float_str : float -> string.

(** [str(e)] of what the outer handler catches. *)
Variable exception_str : raised -> string.

Definition location_context (user_message : ChatMessage) : string :=
  match location user_message with
  | Some loc =>
      let context :=
        ("Location: " ++
         match city loc with
         | Some c => if Str.is_empty c then "Unknown" else c
         | None => "Unknown"
         end)%string in
      match weather loc with
      | Some w =>
          (context ++ " | Weather: " ++ float_str (temperature w) ++ degree ++ "F, "
                   ++ condition w)%string
      | None => context
      end
  | None => ""
  end.

Definition system_prompt (location_context : string) : string :=
  ("You are a healthcare assistant specializing in hospital evaluation and medical guidance for less severe injuries. 
        
        " ++ location_context ++ "
        
        Provide helpful, accurate healthcare information while emphasizing when to seek professional medical care. 
        Focus on hospital recommendations, facility quality, staff performance, and availability information.
        
        For emergency situations, always recommend calling 911 or visiting the nearest emergency room immediately.")%string.

(** The outer [try] block of [healthcare_chat]; [call] counts the
    chat-completion requests made so far. *)
Definition chat_attempt (call : nat) (request : ChatRequest)
  : attempt ChatResponse * nat :=
  match messages request with
  | [] => (Failed (HTTPException 400 "No messages provided"), call)
  | first :: _ =>
      (* messages[-1] *)
      let user_message := List.last (messages request) first in
      let user_query := content user_message in
      match Guardrail.guardrail_step user_query with
      | Raise e => (Failed (Other e), call)
      | Ok (inl rejection) => (Done (Rejected rejection), call)
      | Ok (inr _) =>
          match chat_completion call (system_prompt (location_context user_message))
                                user_query with
          | Raise e => (Failed (Other e), S call)
          | Ok assistant_response =>
              (Done (Answered
                       (mkAnswer "assistant" assistant_response "healthcare" false
                                 [ "OpenAI GPT-3.5"; "Healthcare Knowledge Base" ])),
               S call)
          end
      end
  end.

(** [POST /api/healthcare-chat]: [except Exception] catches whatever the
    block raised, the [HTTPException] included. *)
Definition healthcare_chat (call : nat) (request : ChatRequest)
  : http ChatResponse * nat :=
  match chat_attempt call request with
  | (Done response, call') => (Respond response, call')
  | (Failed e, call') =>
      (HttpError 500 ("Healthcare chat error: " ++ exception_str e)%string, call')
  end.

End WithCollaborators.

End HealthcareChat.

(** ** JavaScript: completions, text, built-ins *)

Module JsRun.
Import Js.

Inductive exn : Type :=
| TypeError
| SyntaxError
| FetchFailed.

(** How a piece of code ends: normally, or by throwing. *)
Inductive completion (A : Type) : Type :=
| Normal (a : A)
| Throw (e : exn).
Arguments Normal {A} a.
Arguments Throw {A} e.

Definition bind {A B} (m : completion A) (k : A -> completion B) : completion B :=
  match m with
  | Normal a => k a
  | Throw e => Throw e
  end.

Definition lift {A} (m : outcome A) : completion A :=
  match m with
  | Return a => Normal a
  | ThrowTypeError => Throw TypeError
  end.

(** What [await fetch(...)] gives: the promise rejects, or it resolves
    to a response with its [ok] flag and its body, [None] when the body
    is not JSON. *)
Inductive fetched : Type :=
| Rejects
| Resolves (ok : bool) (body : option value).

(** [await response.json()] and [await request.json()]. *)
Definition json (body : option value) : completion value :=
  match body with
  | Some data => Normal data
  | None => Throw SyntaxError
  end.

(** White space and line terminators below code point 256, as [trim]
    and the class [\s] see them: TAB, LF, VT, FF, CR, space, NBSP. *)
Definition is_space (c : ascii) : bool :=
  let n := Str.code c in
  (((9 <=? n) && (n <=? 13)) || (n =? 32) || (n =? 160))%N.

(** The class [\d]. *)
Definition is_digit (c : ascii) : bool :=
  let n := Str.code c in ((48 <=? n) && (n <=? 57))%N.

Fixpoint trimStart (s : string) : string :=
  match s with
  | EmptyString => EmptyString
  | String c s' => if is_space c then trimStart s' else s
  end.

Fixpoint trimEnd (s : string) : string :=
  match s with
  | EmptyString => EmptyString
  | String c s' =>
      let r := trimEnd s' in
      if is_space c && Str.is_empty r then EmptyString else String c r
  end.

(** [String.prototype.trim]. *)
Definition trim (s : string) : string := trimEnd (trimStart s).

(** [s.split(sep)[0]] for a one-character separator: the text before
    its first occurrence. *)
Fixpoint before (sep : ascii) (s : string) : string :=
  match s with
  | EmptyString => EmptyString
  | String c s' => if Ascii.eqb c sep then EmptyString else String c (before sep s')
  end.

(** [array.includes(text)] on an array of strings. *)
Definition includes (text : string) (array : list string) : bool :=
  existsb (String.eqb text) array.

(** Whether a value parsed from JSON can be turned into a primitive, as
    a template literal, [parseFloat], [+] and [>] need: an object cannot
    when it has a [toString] of its own, which is not a function then;
    an array can when its elements can (it joins their texts); anything
    else can. *)
Fixpoint printable (v : value) : bool :=
  match v with
  | Obj fields => negb (existsb (fun field => String.eqb (fst field) "toString") fields)
  | Arr items => forallb printable items
  | Undefined | Null | Bool _ | Num _ | Text _ => true
  end.

(** The built-ins of the language that the embedding leaves to the
    engine; those that take a value are asked about printable values
    only. *)
Record Builtins : Type := mkBuiltins {
  (** [parseFloat(v)] *)
  parseFloat : value -> float;
  (** [ToNumber(v)] on a value that is not a number *)
  to_number : value -> float;
  (** [v + x] for a value [v] that is not a number and a number [x] *)
  add_coerced : value -> float -> value;
  (** [Math.floor(x)] *)
  floor : float -> float;
  (** the text of a number in a template literal *)
  number_text : float -> string;
  (** [x.toFixed(4)] *)
  toFixed4 : float -> string;
  (** the array index a number designates, when it designates one *)
  array_index : float -> option nat
}.

(** A template literal, or any other conversion to a primitive, of
    [v]: it throws when [v] is not printable. *)
Definition convert {A} (v : value) (a : A) : completion A :=
  if printable v then Normal a else Throw TypeError.

(** [parseFloat(v)]. *)
Definition parse_float (js : Builtins) (v : value) : completion float :=
  convert v (parseFloat js v).

(** [v + x] with a number [x]. *)
Definition plus (js : Builtins) (v : value) (x : float) : completion value :=
  match v with
  | Num y => Normal (Num (y + x)%float)
  | _ => convert v (add_coerced js v x)
  end.

(** [v > 0]. *)
Definition positive (js : Builtins) (v : value) : completion bool :=
  match v with
  | Num x => Normal (PrimFloat.ltb 0%float x)
  | _ => convert v (PrimFloat.ltb 0%float (to_number js v))
  end.

(** [v.length > 0] for a truthy [v]: arrays and strings have a length
    of their own, an object has the [length] it was given, a boolean or
    a number has none. *)
Definition length_positive (js : Builtins) (v : value) : completion bool :=
  match v with
  | Arr items => Normal match items with [] => false | _ => true end
  | Text s => Normal (negb (Str.is_empty s))
  | Obj fields => positive js (lookup "length" fields)
  | Undefined | Null | Bool _ | Num _ => Normal false
  end.

(** [v && v.length > 0]. *)
Definition truthy_and_long (js : Builtins) (v : value) : completion bool :=
  if truthy v then length_positive js v else Normal false.

(** [v[0]] of a value that is neither [undefined] nor [null]. *)
Definition first_element (v : value) : value :=
  match v with
  | Arr items => match items with [] => Undefined | item :: _ => item end
  | Text s => match s with EmptyString => Undefined | String c _ => Text (String c "") end
  | Obj fields => lookup "0" fields
  | Undefined | Null | Bool _ | Num _ => Undefined
  end.

(** [fields] with [key] set: an existing property keeps its place, a
    new one comes last. *)
Fixpoint set_field (key : string) (v : value) (fields : list (string * value))
  : list (string * value) :=
  match fields with
  | [] => [ (key, v) ]
  | (k, old) :: rest =>
      if String.eqb k key then (k, v) :: rest else (k, old) :: set_field key v rest
  end.

(** [target.key = v] in strict mode: it throws on [undefined], [null]
    and the primitives; a named property on an array does not show in
    its JSON form. *)
Definition assign (target : value) (key : string) (v : value) : completion value :=
  match target with
  | Obj fields => Normal (Obj (set_field key v fields))
  | Arr items => Normal (Arr items)
  | Undefined | Null | Bool _ | Num _ | Text _ => Throw TypeError
  end.

(** [lat >= -90 && lat <= 90 && lng >= -180 && lng <= 180]. *)
Definition in_range (lat lng : float) : bool :=
  PrimFloat.leb (-90)%float lat && PrimFloat.leb lat 90%float &&
  PrimFloat.leb (-180)%float lng && PrimFloat.leb lng 180%float.

(** The text of a loop counter. *)
Definition counter_text (i : nat) : string := NilZero.string_of_uint (Nat.to_uint i).

End JsRun.

Notation "x <~ m ;; k" := (JsRun.bind m (fun x => k))
  (at level 61, m at next level, right associativity).

(** ** The coordinate patterns

    The pattern of the hospital-locations route reads, between [^] and
    [$]: a number (first group), [,?], [\s*], a number (second group);
    the pattern of the geocode route is the same with [,] in place of
    [,?].  A number is [-?\d+\.?\d*].  The matcher below runs them as
    a backtracking engine does: every quantifier is greedy, and gives
    back what it took, one character at a time, when what follows fails.
    A matcher takes the text left to read and a continuation that
    receives what was matched and what is left. *)

Module CoordPattern.
Import JsRun.

Section Matcher.
Context {R : Type}.

(** [c?] for a character class. *)
Definition optional (p : ascii -> bool) (s : string)
    (k : string -> string -> option R) : option R :=
  match s with
  | String c s' =>
      if p c
      then match k (String c "") s' with
           | Some r => Some r
           | None => k "" s
           end
      else k "" s
  | EmptyString => k "" s
  end.

(** [c] for a character class. *)
Definition one (p : ascii -> bool) (s : string)
    (k : string -> string -> option R) : option R :=
  match s with
  | String c s' => if p c then k (String c "") s' else None
  | EmptyString => None
  end.

(** [c*] for a character class. *)
Fixpoint star (p : ascii -> bool) (s : string)
    (k : string -> string -> option R) : option R :=
  match s with
  | String c s' =>
      if p c
      then match star p s' (fun m rest => k (String c m) rest) with
           | Some r => Some r
           | None => k "" s
           end
      else k "" s
  | EmptyString => k "" s
  end.

(** [c+] for a character class. *)
Definition plus (p : ascii -> bool) (s : string)
    (k : string -> string -> option R) : option R :=
  match s with
  | String c s' => if p c then star p s' (fun m rest => k (String c m) rest) else None
  | EmptyString => None
  end.

Definition is_minus (c : ascii) : bool := Ascii.eqb c "-".
Definition is_dot (c : ascii) : bool := Ascii.eqb c ".".
Definition is_comma (c : ascii) : bool := Ascii.eqb c ",".

(** [-?\d+\.?\d*]. *)
Definition number (s : string) (k : string -> string -> option R) : option R :=
  optional is_minus s (fun sign s1 =>
  plus is_digit s1 (fun int s2 =>
  optional is_dot s2 (fun dot s3 =>
  star is_digit s3 (fun frac s4 =>
  k (sign ++ int ++ dot ++ frac)%string s4)))).

End Matcher.

(** The whole pattern, with the comma optional or not; the two groups
    of the match. *)
Definition coord_match (comma_optional : bool) (s : string) : option (string * string) :=
  number s (fun group1 s1 =>
  (if comma_optional then optional is_comma else one is_comma) s1 (fun _ s2 =>
  star is_space s2 (fun _ s3 =>
  number s3 (fun group2 s4 =>
  if Str.is_empty s4 then Some (group1, group2) else None)))).

(** The shape of a text that [-?\d+\.?\d*] matches in full. *)
Definition all_digits (s : string) : bool :=
  forallb is_digit (list_ascii_of_string s).

Definition all_spaces (s : string) : bool :=
  forallb is_space (list_ascii_of_string s).

(** The first character of a text is none of the characters a number
    could go on with. *)
Definition stops_number (rest : string) : bool :=
  match rest with
  | EmptyString => true
  | String c _ => negb (is_digit c) && negb (is_dot c)
  end.

(** The characters a coordinate pair is written with. *)
Definition pair_char (c : ascii) : bool :=
  is_digit c || is_minus c || is_dot c || is_comma c || is_space c.

Definition pair_text (s : string) : bool := forallb pair_char (list_ascii_of_string s).

(** A lowercase letter of the basic alphabet. *)
Definition is_letter (c : ascii) : bool :=
  let n := Str.code c in ((97 <=? n) && (n <=? 122))%N.

Definition has_letter (s : string) : bool := existsb is_letter (list_ascii_of_string s).

Definition is_number (s : string) : Prop :=
  exists sign int dot frac,
    s = (sign ++ int ++ dot ++ frac)%string /\
    (sign = "" \/ sign = "-") /\
    all_digits int = true /\ int <> "" /\
    (dot = "" \/ dot = ".") /\
    all_digits frac = true.

End CoordPattern.

(** ** The geocode route (Next.js) *)

Module GeocodeRoute.
Import Js JsRun CoordPattern.

Inductive Body : Type :=
| Failure (error : string)
| Located (lat lng formatted display_name : value).

Record Response : Type := mkResponse {
  status : nat;
  body : Body
}.

Definition commonLocations : list (string * (float * float * string)) :=
  [ ("los angeles", (34.0522, -118.2437, "Los Angeles, CA, USA"));
    ("new york", (40.7128, -74.0060, "New York, NY, USA"));
    ("chicago", (41.8781, -87.6298, "Chicago, IL, USA"));
    ("houston", (29.7604, -95.3698, "Houston, TX, USA"));
    ("phoenix", (33.4484, -112.0740, "Phoenix, AZ, USA"));
    ("philadelphia", (39.9526, -75.1652, "Philadelphia, PA, USA"));
    ("san antonio", (29.4241, -98.4936, "San Antonio, TX, USA"));
    ("san diego", (32.7157, -117.1611, "San Diego, CA, USA"));
    ("dallas", (32.7767, -96.7970, "Dallas, TX, USA"));
    ("san jose", (37.3382, -121.8863, "San Jose, CA, USA")) ]%float.

(** The [for (const [key, coords] of Object.entries(...))] loop: the
    first entry, in the order they are written, whose key occurs in
    [locationKey]. *)
Fixpoint first_mentioned (locationKey : string)
    (entries : list (string * (float * float * string)))
  : option (float * float * string) :=
  match entries with
  | [] => None
  | (key, coords) :: rest =>
      if Str.contains key locationKey then Some coords
      else first_mentioned locationKey rest
  end.

Definition required : Response := mkResponse 400 (Failure "Location is required").

Definition invalid_coordinates : Response :=
  mkResponse 400
    (Failure "Invalid coordinates. Latitude must be between -90 and 90, longitude between -180 and 180.").

Definition not_found (location : string) : Response :=
  mkResponse 404
    (Failure ("Location " ++ Str.dquote ++ location ++ Str.dquote ++
              " not found. Please try a more specific address or city name.")).

Definition failed : Response :=
  mkResponse 500 (Failure "Failed to process geocoding request").

(** A [process.env] entry is truthy when it is set and not empty. *)
Definition env_truthy (v : option string) : bool :=
  match v with
  | Some s => negb (Str.is_empty s)
  | None => false
  end.

Section WithServices.

Variable js : Builtins.

(** [process.env.NEXT_PUBLIC_OPENCAGE_API_KEY] and
    [process.env.OPENCAGE_API_KEY]. *)
Variable NEXT_PUBLIC_OPENCAGE_API_KEY : option string.
Variable OPENCAGE_API_KEY : option string.

(** The two geocoding services: what the request for a location (and
    with a key) is answered with. *)
Variable opencage : string -> string -> fetched.
Variable nominatim : string -> fetched.

(** The [try] block around the OpenCage request; [Normal None] is
    leaving it without a response. *)
Definition opencage_attempt (location key : string) : completion (option Response) :=
  match opencage location key with
  | Rejects => Throw FetchFailed
  | Resolves ok response_body =>
      if ok then
        data <~ json response_body ;;
        results <~ lift (get data "results") ;;
        found <~ truthy_and_long js results ;;
        if (found : bool) then
          let result := first_element results in
          geometry <~ lift (get result "geometry") ;;
          lat <~ lift (get geometry "lat") ;;
          lng <~ lift (get geometry "lng") ;;
          formatted <~ lift (get result "formatted") ;;
          Normal (Some (mkResponse 200 (Located lat lng formatted formatted)))
        else Normal None
      else Normal None
  end.

(** The [try] block around the Nominatim request. *)
Definition nominatim_attempt (location : string) : completion (option Response) :=
  match nominatim location with
  | Rejects => Throw FetchFailed
  | Resolves ok response_body =>
      if ok then
        data <~ json response_body ;;
        found <~ truthy_and_long js data ;;
        if (found : bool) then
          let result := first_element data in
          result_lat <~ lift (get result "lat") ;;
          lat <~ parse_float js result_lat ;;
          result_lon <~ lift (get result "lon") ;;
          lng <~ parse_float js result_lon ;;
          display_name <~ lift (get result "display_name") ;;
          Normal (Some (mkResponse 200 (Located (Num lat) (Num lng)
                                                display_name display_name)))
        else Normal None
      else Normal None
  end.

(** The table of common locations, the last resort. *)
Definition fallback (location : string) : Response :=
  let locationKey := Str.lower location in
  match first_mentioned locationKey commonLocations with
  | Some (lat, lng, name) =>
      mkResponse 200 (Located (Num lat) (Num lng) (Text name)
                              (Text (name ++ " (approximate)")))
  | None => not_found location
  end.

(** What follows the coordinate test: the services, then the table. *)
Definition lookup_services (location : string) : Response :=
  let key :=
    if env_truthy NEXT_PUBLIC_OPENCAGE_API_KEY
    then NEXT_PUBLIC_OPENCAGE_API_KEY else OPENCAGE_API_KEY in
  let from_opencage :=
    match key with
    | Some k =>
        if negb (Str.is_empty k)
        then match opencage_attempt location k with
             | Normal found => found
             | Throw _ => None
             end
        else None
    | None => None
    end in
  match from_opencage with
  | Some response => response
  | None =>
      match nominatim_attempt location with
      | Normal (Some response) => response
      | Normal None | Throw _ => fallback location
      end
  end.

(** The outer [try] block of [POST]. *)
Definition handle (request_body : option value) : completion Response :=
  request <~ json request_body ;;
  location <~ lift (get request "location") ;;
  if negb (truthy location) then Normal required
  else
    match location with
    | Text location =>
        if Str.is_empty (trim location) then Normal required
        else
          match coord_match false location with
          | Some (group1, group2) =>
              let lat := parseFloat js (Text group1) in
              let lng := parseFloat js (Text group2) in
              if in_range lat lng
              then
                let pair := (toFixed4 js lat ++ ", " ++ toFixed4 js lng)%string in
                Normal (mkResponse 200
                          (Located (Num lat) (Num lng) (Text pair)
                                   (Text ("Coordinates: " ++ pair))))
              else Normal invalid_coordinates
          | None => Normal (lookup_services location)
          end
    | _ => Throw TypeError   (* location.trim is not a function *)
    end.

(** [POST /api/geocode]. *)
Definition POST (request_body : option value) : Response :=
  match handle request_body with
  | Normal response => response
  | Throw _ => failed
  end.

End WithServices.

(** The answer a client of the route gets, as [fetch] shows it: [ok]
    for a status between 200 and 299, and the body as [encode] renders
    it, [encode] being what [response.json()] gives back for a body the
    route serialised. *)
Definition served (encode : Body -> value) (response : Response) : fetched :=
  Resolves ((200 <=? status response) && (status response <=? 299))%nat
           (Some (encode (body response))).

End GeocodeRoute.

(** ** The hospital-locations route: geocoding, mock data, handler *)

Module Geocoding.
Import Js JsRun CoordPattern.

(** What the callers read of a geocoding result: its [lat] and its
    [lng]. *)
Record Coordinates : Type := mkCoordinates {
  lat : value;
  lng : value
}.

(** Which call of [geocodeAddress] a request to the geocode service
    belongs to: the one for the [i]-th backend hospital, or the one of
    the mock generator. *)
Inductive caller : Type :=
| ForHospital (i : nat)
| ForMock.

Definition commonLocations : list (string * (float * float)) :=
  [ ("new york", (40.7128, -74.0060));
    ("new york, ny", (40.7128, -74.0060));
    ("los angeles", (34.0522, -118.2437));
    ("los angeles, ca", (34.0522, -118.2437));
    ("chicago", (41.8781, -87.6298));
    ("chicago, il", (41.8781, -87.6298));
    ("houston", (29.7604, -95.3698));
    ("houston, tx", (29.7604, -95.3698));
    ("phoenix", (33.4484, -112.0740));
    ("phoenix, az", (33.4484, -112.0740));
    ("philadelphia", (39.9526, -75.1652));
    ("philadelphia, pa", (39.9526, -75.1652));
    ("san antonio", (29.4241, -98.4936));
    ("san antonio, tx", (29.4241, -98.4936));
    ("san diego", (32.7157, -117.1611));
    ("san diego, ca", (32.7157, -117.1611));
    ("dallas", (32.7767, -96.7970));
    ("dallas, tx", (32.7767, -96.7970));
    ("san jose", (37.3382, -121.8863));
    ("san jose, ca", (37.3382, -121.8863)) ]%float.

(** The names every object inherits from [Object.prototype]: indexing
    the table with one of them gives a function (or the prototype
    itself), which is truthy and has neither [lat] nor [lng]. *)
Definition inherited_names : list string :=
  [ "constructor"; "__proto__"; "hasOwnProperty"; "isPrototypeOf";
    "propertyIsEnumerable"; "toLocaleString"; "toString"; "valueOf";
    "__defineGetter__"; "__defineSetter__"; "__lookupGetter__"; "__lookupSetter__" ].

Fixpoint own_entry (key : string) (entries : list (string * (float * float)))
  : option (float * float) :=
  match entries with
  | [] => None
  | (k, coords) :: rest => if String.eqb k key then Some coords else own_entry key rest
  end.

(** [commonLocations[normalizedAddress]] when it is truthy. *)
Definition table_entry (normalizedAddress : string) : option Coordinates :=
  match own_entry normalizedAddress commonLocations with
  | Some (lat, lng) => Some (mkCoordinates (Num lat) (Num lng))
  | None =>
      if includes normalizedAddress inherited_names
      then Some (mkCoordinates Undefined Undefined)
      else None
  end.

Section WithServices.

Variable js : Builtins.

(** The geocode service behind [NEXT_PUBLIC_BASE_URL]: what the request
    of a caller, with the given body, is answered with. *)
Variable geocode_service : caller -> value -> fetched.

(** The coordinate test at the start of [geocodeAddress]. *)
Definition typed_coordinates (address : string) : option Coordinates :=
  match coord_match true address with
  | Some (group1, group2) =>
      let lat := parseFloat js (Text group1) in
      let lng := parseFloat js (Text group2) in
      if in_range lat lng then Some (mkCoordinates (Num lat) (Num lng)) else None
  | None => None
  end.

(** The [try] block around the request to the geocode service. *)
Definition server_side (who : caller) (address : string) : completion (option Coordinates) :=
  match geocode_service who (Obj [ ("address", Text address) ]) with
  | Rejects => Throw FetchFailed
  | Resolves ok response_body =>
      if ok then
        data <~ json response_body ;;
        data_lat <~ lift (get data "lat") ;;
        if truthy data_lat then
          data_lng <~ lift (get data "lng") ;;
          if truthy data_lng
          then Normal (Some (mkCoordinates data_lat data_lng))
          else Normal None
        else Normal None
      else Normal None
  end.

(** [geocodeAddress]; [None] is [null]. *)
Definition geocodeAddress (who : caller) (address : value)
  : completion (option Coordinates) :=
  match address with
  | Text address =>
      match typed_coordinates address with
      | Some coords => Normal (Some coords)
      | None =>
          match server_side who address with
          | Normal (Some coords) => Normal (Some coords)
          | Normal None | Throw _ =>
              let normalizedAddress := trim (Str.lower address) in
              Normal (table_entry normalizedAddress)
          end
      end
  | _ => Throw TypeError   (* address.match is not a function *)
  end.

End WithServices.

End Geocoding.

Module MockHospitals.
Import Js JsRun Geocoding HospitalLocations.

Record Template : Type := mkTemplate {
  nameTemplate : string;
  template_services : list string;
  template_rating : float
}.

Definition hospitalTemplates : list Template :=
  [ mkTemplate "Regional Medical Center"
      [ "Emergency Medicine"; "Urgent Care"; "Family Medicine"; "Cardiology"; "Orthopedics" ]
      4.5;
    mkTemplate "General Hospital"
      [ "Emergency Medicine"; "Trauma Center"; "Pediatrics"; "Surgery"; "Radiology" ]
      4.3;
    mkTemplate "University Medical Center"
      [ "Research Hospital"; "Specialized Care"; "Neurology"; "Oncology"; "Teaching Hospital" ]
      4.7;
    mkTemplate "Community Health Center"
      [ "Family Medicine"; "Urgent Care"; "Preventive Care"; "Women's Health" ]
      4.2;
    mkTemplate "Urgent Care Center"
      [ "Urgent Care"; "Walk-in Clinic"; "Minor Injuries"; "Flu Treatment" ]
      4.1;
    mkTemplate "Memorial Hospital"
      [ "Emergency Medicine"; "Cardiac Care"; "Maternity"; "Rehabilitation" ]
      4.4;
    mkTemplate "Children's Hospital"
      [ "Pediatrics"; "Pediatric Emergency"; "Child Surgery"; "Neonatal Care" ]
      4.6;
    mkTemplate "Veterans Medical Center"
      [ "Veterans Care"; "Emergency Medicine"; "Mental Health"; "Rehabilitation" ]
      4.0 ]%float.

Definition streetNames : list string :=
  [ "Medical Blvd"; "Healthcare Dr"; "Hospital Ave"; "Wellness St"; "Care Center Rd" ].

Section WithServices.

Variable js : Builtins.
Variable geocode_service : caller -> value -> fetched.

(** [Math.random()] at the [n]-th draw of the generator. *)
Variable random : nat -> float.

(** The body of the [for] loop at counter [i]: eight draws, in the
    order the code makes them. *)
Definition mock_hospital (searchLocation : string) (baseCoords : Coordinates)
    (i : nat) (template : Template) : completion Hospital :=
  let draw j := random (8 * i + j) in
  let latOffset := ((draw 0%nat - 0.5) * 0.4)%float in
  let lngOffset := ((draw 1%nat - 0.5) * 0.4)%float in
  hospitalLat <~ plus js (Geocoding.lat baseCoords) latOffset ;;
  hospitalLng <~ plus js (Geocoding.lng baseCoords) lngOffset ;;
  let cityName := trim (before "," searchLocation) in
  let hospitalName := (cityName ++ " " ++ nameTemplate template)%string in
  let streetNumber := (floor js (draw 2%nat * 9999) + 100)%float in
  let streetName :=
    match array_index js (floor js (draw 3%nat * 5)%float) with
    | Some n => match nth_error streetNames n with
                | Some street => street
                | None => "undefined"
                end
    | None => "undefined"
    end in
  let address :=
    (number_text js streetNumber ++ " " ++ streetName ++ ", " ++ searchLocation)%string in
  let areaCode := (floor js (draw 4%nat * 800) + 200)%float in
  let exchange := (floor js (draw 5%nat * 800) + 200)%float in
  let number := (floor js (draw 6%nat * 9000) + 1000)%float in
  let phone :=
    ("(" ++ number_text js areaCode ++ ") " ++ number_text js exchange ++ "-"
         ++ number_text js number)%string in
  Normal
    (mkHospital
       (Text ("mock-hospital-" ++ counter_text i))
       (Text hospitalName)
       (Text address)
       hospitalLat
       hospitalLng
       (Text phone)
       (Arr (map Text (template_services template)))
       (Num (template_rating template + (draw 7%nat - 0.5) * 0.4)%float)
       (Bool (includes "Emergency Medicine" (template_services template)))
       (Bool (includes "Urgent Care" (template_services template)
              || Str.contains "Urgent Care" (nameTemplate template)))).

(** The [for] loop from counter [i] on. *)
Fixpoint mock_hospitals_from (searchLocation : string) (baseCoords : Coordinates)
    (i : nat) (templates : list Template) : completion (list Hospital) :=
  match templates with
  | [] => Normal []
  | template :: rest =>
      hospital <~ mock_hospital searchLocation baseCoords i template ;;
      others <~ mock_hospitals_from searchLocation baseCoords (S i) rest ;;
      Normal (hospital :: others)
  end.

Definition generateLocationAwareMockHospitals (searchLocation : value)
  : completion (list Hospital) :=
  baseCoords <~ geocodeAddress js geocode_service ForMock searchLocation ;;
  match baseCoords with
  | None => Throw TypeError   (* baseCoords.lat = 34.0522 on null *)
  | Some baseCoords =>
      match searchLocation with
      | Text searchLocation =>
          mock_hospitals_from searchLocation baseCoords 0 hospitalTemplates
      | _ => Throw TypeError   (* searchLocation.split is not a function *)
      end
  end.

End WithServices.

End MockHospitals.

Module HospitalLocationsRoute.
Import Js JsRun Geocoding MockHospitals HospitalLocations.

(** The bodies the handler sends; the [source] field tells them apart. *)
Inductive Body : Type :=
| Failure (error : string)
| FromRag (hospitals : list Hospital) (query_used : value)
| FromBackend (hospitals : list value)
| FromMock (hospitals : list Hospital) (note : string).

Definition source (b : Body) : option string :=
  match b with
  | Failure _ => None
  | FromRag _ _ => Some "vectorize_rag"
  | FromBackend _ => Some "backend_structured"
  | FromMock _ _ => Some "location_aware_mock"
  end.

Definition from_rag (b : Body) : bool :=
  match b with
  | FromRag _ _ => true
  | _ => false
  end.

Record Response : Type := mkResponse {
  status : nat;
  body : Body
}.

Definition required : Response := mkResponse 400 (Failure "Location is required").

Definition failed : Response :=
  mkResponse 500 (Failure "Failed to fetch hospital locations").

Definition mock_note : string :=
  "RAG and backend systems unavailable, using location-aware mock data".

(** Both coordinates of a hospital are truthy. *)
Definition located (h : Hospital) : Prop :=
  truthy (HospitalLocations.lat h) = true /\ truthy (HospitalLocations.lng h) = true.

Section WithServices.

Variable js : Builtins.

(** The Python backend behind [PYTHON_BACKEND_URL]: what
    [/api/hospitals/rag-locations] and [/api/find-best-hospitals]
    answer to a request body. *)
Variable rag_locations : value -> fetched.
Variable find_best_hospitals : value -> fetched.

Variable geocode_service : caller -> value -> fetched.

(** The random texts of the RAG ids, the draws of the [i]-th backend
    hospital, the draws of the mock generator. *)
Variable random_suffix : nat -> string.
Variable backend_random : nat -> nat -> float.
Variable mock_random : nat -> float.

(** Priority 1, the [try] block around the RAG request; [Normal None]
    is leaving it without a response. *)
Definition rag_attempt (location injuryType : value) : completion (option Response) :=
  match rag_locations
          (Obj [ ("location", location);
                 ("injury_type", or_else injuryType (Text "general"));
                 ("max_results", Num 10) ]) with
  | Rejects => Throw FetchFailed
  | Resolves ok response_body =>
      if ok then
        ragData <~ json response_body ;;
        extracted <~ lift (extractHospitalDataFromRAG random_suffix 0 ragData) ;;
        let ragHospitals := snd extracted in
        match ragHospitals with
        | [] => Normal None
        | _ :: _ =>
            rag_query <~ lift (get ragData "rag_query") ;;
            Normal (Some (mkResponse 200 (FromRag ragHospitals rag_query)))
        end
      else Normal None
  end.

(** The callback of [backendData.hospitals.map] on the [i]-th
    hospital. *)
Definition with_coordinates (location : value) (i : nat) (hospital : value)
  : completion value :=
  hospital_lat <~ lift (get hospital "lat") ;;
  missing <~ (if truthy hospital_lat
              then hospital_lng <~ lift (get hospital "lng") ;;
                   Normal (negb (truthy hospital_lng))
              else Normal true) ;;
  if (missing : bool) then
    baseCoords <~ geocodeAddress js geocode_service (ForHospital i) location ;;
    match baseCoords with
    | Some baseCoords =>
        let latOffset := ((backend_random i 0%nat - 0.5) * 0.1)%float in
        let lngOffset := ((backend_random i 1%nat - 0.5) * 0.1)%float in
        hospital_lat <~ plus js (Geocoding.lat baseCoords) latOffset ;;
        located <~ assign hospital "lat" hospital_lat ;;
        hospital_lng <~ plus js (Geocoding.lng baseCoords) lngOffset ;;
        assign located "lng" hospital_lng
    | None => Normal hospital
    end
  else Normal hospital.

(** [Promise.all] over the callbacks: it rejects as soon as one of them
    does. *)
Fixpoint all_with_coordinates (location : value) (i : nat) (hospitals : list value)
  : completion (list value) :=
  match hospitals with
  | [] => Normal []
  | hospital :: rest =>
      first <~ with_coordinates location i hospital ;;
      others <~ all_with_coordinates location (S i) rest ;;
      Normal (first :: others)
  end.

(** Priority 2, the [try] block around the find-best-hospitals
    request. *)
Definition backend_attempt (location injuryType radius : value)
  : completion (option Response) :=
  match find_best_hospitals
          (Obj [ ("injury_description", or_else injuryType (Text "general medical care"));
                 ("location", location);
                 ("max_distance", or_else radius (Num 25)) ]) with
  | Rejects => Throw FetchFailed
  | Resolves ok response_body =>
      if ok then
        backendData <~ json response_body ;;
        hospitals <~ lift (get backendData "hospitals") ;;
        found <~ truthy_and_long js hospitals ;;
        if (found : bool) then
          match hospitals with
          | Arr items =>
              hospitalsWithCoords <~ all_with_coordinates location 0 items ;;
              Normal (Some (mkResponse 200 (FromBackend hospitalsWithCoords)))
          | _ => Throw TypeError   (* backendData.hospitals.map is not a function *)
          end
        else Normal None
      else Normal None
  end.

(** Priority 3, outside any inner [try] block. *)
Definition mock_attempt (location : value) : completion Response :=
  mockHospitals <~ generateLocationAwareMockHospitals js geocode_service
                     mock_random location ;;
  Normal (mkResponse 200 (FromMock mockHospitals mock_note)).

(** The outer [try] block of [POST]. *)
Definition handle (request_body : option value) : completion Response :=
  request <~ json request_body ;;
  location <~ lift (get request "location") ;;
  injuryType <~ lift (get request "injuryType") ;;
  radius <~ lift (get request "radius") ;;
  if negb (truthy location) then Normal required
  else
    (* the template literal of the first console.log *)
    _ <~ convert location tt ;;
    _ <~ convert injuryType tt ;;
    _ <~ convert radius tt ;;
    match rag_attempt location injuryType with
    | Normal (Some response) => Normal response
    | Normal None | Throw _ =>
        match backend_attempt location injuryType radius with
        | Normal (Some response) => Normal response
        | Normal None | Throw _ => mock_attempt location
        end
    end.

(** [POST /api/hospitals/locations]. *)
Definition POST (request_body : option value) : Response :=
  match handle request_body with
  | Normal response => response
  | Throw _ => failed
  end.

End WithServices.

End HospitalLocationsRoute.

(** ** The backend's answer as the route receives it *)

Module Wire.
Import Js.

Section WithEncoding.

(** What [response.json()] gives back for a Python value that the
    backend serialised; [None] for a value the backend cannot serialise
    (it refuses [NaN] and the infinities). *)
Variable encode : Py.value -> option value.

(** The dictionary [parse_hospital_from_rag_content] builds. *)
Definition hospital_json (h : HospitalRag.Hospital) : option value :=
  match match HospitalRag.coordinates h with
        | Some coords => encode coords
        | None => Some Null
        end,
        encode (Py.VFloat (HospitalRag.rating h)),
        encode (HospitalRag.relevance_score h) with
  | Some coordinates, Some rating, Some relevance_score =>
      Some (Obj [ ("name", Text (HospitalRag.name h));
                  ("address", Text (HospitalRag.address h));
                  ("phone", Text (HospitalRag.phone h));
                  ("services", Arr (map Text (HospitalRag.services h)));
                  ("rating", rating);
                  ("emergency", Bool (HospitalRag.emergency h));
                  ("urgent_care", Bool (HospitalRag.urgent_care h));
                  ("coordinates", coordinates);
                  ("relevance_score", relevance_score) ])
  | _, _, _ => None
  end.

Fixpoint hospitals_json (hospitals : list HospitalRag.Hospital) : option (list value) :=
  match hospitals with
  | [] => Some []
  | h :: rest =>
      match hospital_json h, hospitals_json rest with
      | Some first, Some others => Some (first :: others)
      | _, _ => None
      end
  end.

(** The dictionary [get_hospitals_from_rag] returns. *)
Definition response_json (r : HospitalRag.RagLocationsResponse) : option value :=
  match hospitals_json (HospitalRag.hospitals r),
        encode (Py.VInt (Z.of_nat (HospitalRag.total_found r))) with
  | Some hospitals, Some total_found =>
      Some (Obj [ ("success", Bool (HospitalRag.success r));
                  ("hospitals", Arr hospitals);
                  ("location", Text (HospitalRag.resp_location r));
                  ("injury_type", Text (HospitalRag.resp_injury_type r));
                  ("total_found", total_found) ])
  | _, _ => None
  end.

End WithEncoding.

End Wire.

(** ** The pieces as the repository wires them

    The hospital-locations route posts to [/api/hospitals/rag-locations]
    of the Python backend and to [/api/geocode] of the Next.js
    application. *)

Module Deployment.
Import Js JsRun.

(** A service that cannot be used: the request fails, or the answer
    does not have an [ok] status. *)
Definition unavailable (f : fetched) : Prop :=
  f = Rejects \/ exists response_body, f = Resolves false response_body.

Section WithBackend.

Variable chat_completion : nat -> string -> Py.result (option string).
Variable json_loads : string -> Py.result Py.value.

(** What [response.json()] gives back for a Python value that the
    backend serialised, when it can serialise it. *)
Variable encode : Py.value -> option value.

(** The request model FastAPI builds from a body, when the body
    validates, and the detail it answers with when it does not; the
    count of chat-completion requests made before this one. *)
Variable parse_request : value -> option HospitalRag.HospitalRagRequest.
Variable validation_detail : value -> value.
Variable call : nat.

(** [POST /api/hospitals/rag-locations] as the backend answers it: a
    body that does not validate gets status 422 and the detail, an
    answer that cannot be serialised gets status 500 and a body that is
    not JSON. *)
Definition rag_locations (request_body : value) : fetched :=
  match parse_request request_body with
  | Some request =>
      match Wire.response_json encode
              (HospitalRag.get_hospitals_from_rag chat_completion json_loads call request) with
      | Some data => Resolves true (Some data)
      | None => Resolves false None
      end
  | None => Resolves false (Some (validation_detail request_body))
  end.

End WithBackend.

Section WithGeocodeRoute.

Variable js : Builtins.
Variable NEXT_PUBLIC_OPENCAGE_API_KEY : option string.
Variable OPENCAGE_API_KEY : option string.
Variable opencage : string -> string -> fetched.
Variable nominatim : string -> fetched.

(** What [response.json()] gives back for a body the geocode route
    serialised. *)
Variable encode_body : GeocodeRoute.Body -> value.

(** [POST /api/geocode] as the geocode route answers it. *)
Definition geocode_service (who : Geocoding.caller) (request_body : value) : fetched :=
  GeocodeRoute.served encode_body
    (GeocodeRoute.POST js NEXT_PUBLIC_OPENCAGE_API_KEY OPENCAGE_API_KEY
                       opencage nominatim (Some request_body)).

End WithGeocodeRoute.

End Deployment.

(** ** An engine for the examples *)

Module Examples.
Import Js JsRun.

(** It knows the numbers the examples use, and answers [NaN], or
    nothing, on the others. *)
Definition engine : Builtins :=
  mkBuiltins
    (fun v =>
       match v with
       | Text "4" => 4
       | Text "5" => 5
       | Text "34.05" => 34.05
       | Text "-118.24" => -118.24
       | Text "91" => 91
       | Text "0" => 0
       | _ => nan
       end%float)
    (fun _ => nan)
    (fun _ _ => Num nan)
    (fun x => if PrimFloat.eqb x 0 then 0%float else nan)
    (fun x =>
       if PrimFloat.eqb x 0 then "0"
       else if PrimFloat.eqb x 100 then "100"
       else if PrimFloat.eqb x 200 then "200"
       else if PrimFloat.eqb x 1000 then "1000"
       else "NaN")
    (fun x =>
       if PrimFloat.eqb x 34.05 then "34.0500"
       else if PrimFloat.eqb x (-118.24) then "-118.2400"
       else "NaN")
    (fun x => if PrimFloat.eqb x 0 then Some 0 else None).

(** What [response.json()] gives back for a Python value: the scalars,
    and the dictionaries of scalars; the one integer the examples use
    is 3. *)
Definition encode_scalar (v : Py.value) : option value :=
  match v with
  | Py.VNone => Some Null
  | Py.VBool b => Some (Bool b)
  | Py.VInt z => if (z =? 3)%Z then Some (Num 3) else None
  | Py.VFloat f => if PrimFloat.is_finite f then Some (Num f) else None
  | Py.VStr s => Some (Text s)
  | Py.VList _ | Py.VDict _ => None
  end.

Fixpoint encode_items (items : list (string * Py.value)) : option (list (string * value)) :=
  match items with
  | [] => Some []
  | (key, v) :: rest =>
      match encode_scalar v, encode_items rest with
      | Some first, Some others => Some ((key, first) :: others)
      | _, _ => None
      end
  end.

Definition encode (v : Py.value) : option value :=
  match v with
  | Py.VDict items => option_map Obj (encode_items items)
  | _ => encode_scalar v
  end.

(** What [response.json()] gives back for a body of the geocode
    route. *)
Definition encode_body (b : GeocodeRoute.Body) : value :=
  match b with
  | GeocodeRoute.Failure error => Obj [ ("error", Text error) ]
  | GeocodeRoute.Located lat lng formatted display_name =>
      Obj [ ("lat", lat); ("lng", lng); ("formatted", formatted);
            ("display_name", display_name) ]
  end.

(** The request model of a body that carries a location. *)
Definition parse_request (request_body : value) : option HospitalRag.HospitalRagRequest :=
  match request_body with
  | Obj fields =>
      match lookup "location" fields, lookup "injury_type" fields with
      | Text location, Text injury_type =>
          Some (HospitalRag.mkRequest location injury_type 10)
      | _, _ => None
      end
  | _ => None
  end.

Definition validation_detail (request_body : value) : value :=
  Obj [ ("detail", Text "Field required") ].

(** A chat-completion service with one answer; [str] of the one
    temperature and of the exceptions. *)
Definition chat_service (call : nat) (system_prompt user_query : string)
  : Py.result (option string) :=
  Py.Ok (Some "Please see a doctor.").

Definition float_str (x : float) : string := "72.0".

Definition exception_str (e : HealthcareChat.raised) : string :=
  match e with
  | HealthcareChat.HTTPException status_code detail =>
      (counter_text status_code ++ ": " ++ detail)%string
  | HealthcareChat.Other (Py.ValueError msg) => msg
  | HealthcareChat.Other (Py.APIError msg) => msg
  | HealthcareChat.Other _ => ""
  end.

(** Services that are down. *)
Definition down2 (location key : string) : fetched := Rejects.
Definition down1 (location : string) : fetched := Rejects.
Definition down (request_body : value) : fetched := Rejects.
Definition geocode_down (who : Geocoding.caller) (request_body : value) : fetched := Rejects.

End Examples.

(* ===================================================================== *)
(** * Part II: properties                                                 *)
(* ===================================================================== *)

(** Case analysis on membership in a list that is written out: [tac]
    closes the goal for each element. *)
Ltac each_member H tac :=
  repeat (destruct H as [<-|H]; [tac|]); try contradiction.

(** ** String facts *)

Module StrFacts.
Import Str.

Lemma append_nil_r (s : string) : (s ++ "")%string = s.
Proof. induction s; simpl; congruence. Qed.

Lemma append_assoc (a b c : string) : ((a ++ b) ++ c = a ++ (b ++ c))%string.
Proof. induction a; simpl; congruence. Qed.

Lemma length_append (a b : string) :
  String.length (a ++ b) = String.length a + String.length b.
Proof. induction a; simpl; congruence. Qed.

Lemma prefix_iff (p s : string) :
  String.prefix p s = true <-> exists rest, s = (p ++ rest)%string.
Proof.
  revert s. induction p as [|a p IH]; intros s; simpl.
  - destruct s; split; eauto.
  - destruct s as [|b s]; simpl.
    + split; [discriminate | intros [rest H]; discriminate].
    + destruct (ascii_dec a b) as [<-|Hne].
      * rewrite IH. split; intros [rest H]; exists rest; congruence.
      * split; [discriminate | intros [rest H]; congruence].
Qed.

Lemma prefix_length (p s : string) :
  String.prefix p s = true -> String.length p <= String.length s.
Proof.
  intros H. apply prefix_iff in H as [rest ->]. rewrite length_append. lia.
Qed.

Lemma prefix_refl (s : string) : String.prefix s s = true.
Proof. apply prefix_iff. exists "". now rewrite append_nil_r. Qed.

Lemma lower_append (a b : string) : lower (a ++ b) = (lower a ++ lower b)%string.
Proof. induction a; simpl; congruence. Qed.

Lemma lower_length (s : string) : String.length (lower s) = String.length s.
Proof. induction s; simpl; congruence. Qed.

(** A string occurs in every string built around it. *)
Lemma contains_prefix (b s : string) : String.prefix b s = true -> contains b s = true.
Proof. intros H. destruct s; cbn [contains]; rewrite H; reflexivity. Qed.

Lemma contains_intro (x b y : string) : contains b (x ++ b ++ y) = true.
Proof.
  induction x as [|c x IH]; simpl.
  - apply contains_prefix, prefix_iff. eauto.
  - rewrite IH. apply orb_true_r.
Qed.

Lemma all_but_last_append (x y : string) :
  y <> "" -> all_but_last (x ++ y) = (x ++ all_but_last y)%string.
Proof.
  intros Hy. induction x as [|c x IH]; simpl; [reflexivity|].
  rewrite IH. destruct (x ++ y)%string eqn:E; [|reflexivity].
  destruct x; simpl in E; [contradiction|discriminate].
Qed.

(** Two ways to cut one string: the shorter head is a head of the
    longer one. *)
Lemma append_cut (a b c d : string) :
  (a ++ b = c ++ d)%string -> String.length c < String.length a ->
  exists y, a = (c ++ y)%string /\ y <> "".
Proof.
  revert c. induction a as [|x a IH]; intros c H Hlen; simpl in *; [lia|].
  destruct c as [|z c]; simpl in *.
  - exists (String x a). split; [reflexivity|discriminate].
  - injection H as -> H. destruct (IH c H ltac:(lia)) as (y & -> & Hy). eauto.
Qed.

Lemma is_space_lower_char (c : ascii) : is_space c = true -> lower_char c = c.
Proof.
  destruct c as [[] [] [] [] [] [] [] []]; vm_compute; intros H; try reflexivity; discriminate.
Qed.

Lemma blank_lower (s : string) : blank s = true -> lower s = s.
Proof.
  induction s as [|c s IH]; simpl; [reflexivity|].
  intros H. apply andb_true_iff in H as [Hc Hs].
  now rewrite (is_space_lower_char c Hc), IH.
Qed.

Lemma blank_split_from (s : string) : blank s = true -> split_from "" s = [].
Proof.
  induction s as [|c s IH]; simpl; [reflexivity|].
  intros H. apply andb_true_iff in H as [Hc Hs]. rewrite Hc. simpl. auto.
Qed.

(** A needle that starts with a character that is not a space does not
    occur in a blank string. *)
Lemma blank_contains (a : ascii) (needle s : string) :
  is_space a = false -> blank s = true -> contains (String a needle) s = false.
Proof.
  intros Ha. induction s as [|c s IH]; simpl; [reflexivity|].
  intros H. apply andb_true_iff in H as [Hc Hs].
  rewrite (IH Hs), orb_false_r.
  destruct (ascii_dec a c) as [->|]; [congruence|reflexivity].
Qed.

End StrFacts.

(** ** The guardrail *)

Module GuardrailFacts.
Import Py Guardrail StrFacts.

(** The indicator loop passes exactly when no indicator occurs. *)
Lemma check_indicators_passes (indicators : list string) (s : string) :
  check_indicators indicators s = Ok tt <->
  (forall indicator, In indicator indicators -> Str.contains indicator s = false).
Proof.
  induction indicators as [|i rest IH]; simpl.
  - split; [intros _ ? [] | reflexivity].
  - destruct (Str.contains i s) eqn:Hi.
    + split; [discriminate|].
      intros H. rewrite (H i (or_introl eq_refl)) in Hi. discriminate.
    + rewrite IH. split.
      * intros H x [<-|Hx]; auto.
      * intros H x Hx. apply H. now right.
Qed.

(** When the loop raises, it is a [ValueError] about the first indicator
    that occurs. *)
Lemma check_indicators_raises (indicators : list string) (s : string) (e : exn) :
  check_indicators indicators s = Raise e ->
  exists indicator,
    In indicator indicators /\ Str.contains indicator s = true /\
    e = ValueError (out_of_scope_message indicator).
Proof.
  induction indicators as [|i rest IH]; simpl; [discriminate|].
  destruct (Str.contains i s) eqn:Hi.
  - intros [= <-]. exists i. auto.
  - intros H. destruct (IH H) as (x & Hx & Hc & He). exists x. auto.
Qed.

Lemma check_indicators_cases (indicators : list string) (s : string) :
  check_indicators indicators s = Ok tt \/
  exists indicator,
    In indicator indicators /\ Str.contains indicator s = true /\
    check_indicators indicators s = Raise (ValueError (out_of_scope_message indicator)).
Proof.
  destruct (check_indicators indicators s) as [[]|e] eqn:H; [now left|right].
  destruct (check_indicators_raises _ _ _ H) as (x & Hx & Hc & ->). eauto.
Qed.

Lemma existsb_contains_false (keywords : list string) (s : string) :
  existsb (fun keyword => Str.contains keyword s) keywords = false <->
  (forall keyword, In keyword keywords -> Str.contains keyword s = false).
Proof.
  induction keywords as [|k rest IH]; simpl.
  - split; [intros _ ? [] | reflexivity].
  - rewrite orb_false_iff, IH. split.
    + intros [Hk H] x [<-|Hx]; auto.
    + intros H. split; [apply H; now left | intros x Hx; apply H; now right].
Qed.

Lemma validate_raises_when_rejected (q : string) :
  rejected q -> exists msg, validate_healthcare_query q = Raise (ValueError msg).
Proof.
  unfold validate_healthcare_query, bind.
  intros Hrej.
  destruct (check_indicators_cases non_healthcare_indicators (Str.lower q))
    as [Hok | (i & Hi & Hc & Hr)].
  - rewrite Hok.
    destruct Hrej as [(i & Hi & Hc) | [Hkw Hlen]].
    + apply check_indicators_passes with (indicator := i) in Hok; [congruence|assumption].
    + apply existsb_contains_false in Hkw. rewrite Hkw. simpl.
      apply Nat.ltb_lt in Hlen. rewrite Hlen. eauto.
  - rewrite Hr. eauto.
Qed.

Lemma validate_rejected_when_raises (q : string) (e : exn) :
  validate_healthcare_query q = Raise e -> rejected q.
Proof.
  unfold validate_healthcare_query, bind.
  destruct (check_indicators non_healthcare_indicators (Str.lower q)) as [[]|e'] eqn:Hc.
  - destruct (existsb _ healthcare_keywords) eqn:Hkw; simpl; [discriminate|].
    destruct (Nat.ltb 3 (List.length (Str.split q))) eqn:Hlen; [|discriminate].
    intros _. right. split.
    + now apply existsb_contains_false.
    + now apply Nat.ltb_lt.
  - intros _. destruct (check_indicators_raises _ _ _ Hc) as (i & Hi & Hci & _).
    left. eauto.
Qed.

(** Whatever the guardrail raises is a [ValueError]. *)
Lemma validate_raises_value_error (q : string) (e : exn) :
  validate_healthcare_query q = Raise e -> exists msg, e = ValueError msg.
Proof.
  intros H. destruct (validate_raises_when_rejected q (validate_rejected_when_raises q e H))
    as [msg Hm].
  rewrite Hm in H. injection H as <-. eauto.
Qed.

Lemma validate_returns_input (q r : string) :
  validate_healthcare_query q = Ok r -> r = q.
Proof.
  unfold validate_healthcare_query, bind.
  destruct (check_indicators _ _) as [[]|]; [|discriminate].
  destruct (_ && _); [discriminate|]. now intros [= <-].
Qed.

(** A blank query passes the guardrail. *)
Lemma validate_accepts_blank (q : string) :
  Str.blank q = true -> validate_healthcare_query q = Ok q.
Proof.
  intros Hb. unfold validate_healthcare_query, bind.
  assert (Hc : check_indicators non_healthcare_indicators (Str.lower q) = Ok tt).
  { apply check_indicators_passes. rewrite (blank_lower _ Hb).
    intros i Hi. simpl in Hi.
    each_member Hi ltac:(now apply blank_contains). }
  rewrite Hc. unfold Str.split. rewrite (blank_split_from _ Hb).
  now rewrite andb_false_r.
Qed.

(** C9: the guardrail raises, and the chat endpoint answers with a
    guardrail rejection, if and only if the lowercased query contains one
    of the fifteen indicator phrases, or it contains none of the
    healthcare keywords and has more than three whitespace-separated
    words; a query of at most three words without indicator phrase is
    returned unchanged, whatever it is about. *)
Theorem validate_healthcare_query_raises_iff (q : string) :
  ((exists msg, validate_healthcare_query q = Raise (ValueError msg)) <-> rejected q) /\
  ((exists rejection,
       guardrail_step q = Ok (inl rejection) /\
       guardrail_triggered rejection = true /\
       rej_type rejection = "guardrail_rejection") <-> rejected q) /\
  (validate_healthcare_query q = Ok q <-> ~ rejected q) /\
  ((forall indicator, In indicator non_healthcare_indicators ->
       Str.contains indicator (Str.lower q) = false) ->
   List.length (Str.split q) <= 3 ->
   validate_healthcare_query q = Ok q) /\
  List.length non_healthcare_indicators = 15.
Proof.
  assert (Hcases : rejected q \/ validate_healthcare_query q = Ok q).
  { destruct (validate_healthcare_query q) as [r|e] eqn:H.
    - right. now rewrite (validate_returns_input _ _ H).
    - left. eapply validate_rejected_when_raises; eauto. }
  assert (Hexcl : rejected q -> validate_healthcare_query q = Ok q -> False).
  { intros Hr Hok. destruct (validate_raises_when_rejected q Hr) as [m Hm]. congruence. }
  repeat split.
  - intros [msg H]. eapply validate_rejected_when_raises; eauto.
  - apply validate_raises_when_rejected.
  - intros (rej & H & _). unfold guardrail_step in H.
    destruct (validate_healthcare_query q) as [r|e] eqn:Hv; [discriminate|].
    eapply validate_rejected_when_raises; eauto.
  - intros Hr. destruct (validate_raises_when_rejected q Hr) as [m Hm].
    unfold guardrail_step. rewrite Hm. eexists. repeat split.
  - intros Hok Hr. exact (Hexcl Hr Hok).
  - intros Hn. destruct Hcases as [Hr|Hok]; [contradiction|assumption].
  - intros Hind Hlen. destruct Hcases as [Hr|Hok]; [|assumption].
    exfalso. destruct Hr as [(i & Hi & Hc) | [_ Hgt]].
    + rewrite (Hind i Hi) in Hc. discriminate.
    + lia.
Qed.

(** The theorem at a three-word query that has nothing to do with
    healthcare: it is accepted and returned as it is. *)
Lemma validate_healthcare_query_unrelated_accepted :
  validate_healthcare_query "buy cheap cars" = Ok "buy cheap cars".
Proof.
  apply (validate_healthcare_query_raises_iff "buy cheap cars").
  - intros i Hi. simpl in Hi.
    each_member Hi ltac:(reflexivity).
  - vm_compute. lia.
Defined.

Example guardrail_rejects_news :
  validate_healthcare_query "tell me the latest news"
  = Raise (ValueError (out_of_scope_message "news")).
Proof. reflexivity. Qed.

Example guardrail_rejects_four_plain_words :
  validate_healthcare_query "one two three four" = Raise (ValueError missing_context_message).
Proof. reflexivity. Qed.

End GuardrailFacts.

(** ** The hospital-locations route *)

Module HospitalLocationsFacts.
Import Js HospitalLocations.

Lemma built_from_position (items : list value) (hospitals : list Hospital) :
  Forall2 built_from items hospitals ->
  map position hospitals = map rag_position items.
Proof.
  induction 1 as [|item h items hospitals Hb _ IH]; [reflexivity|].
  simpl. rewrite IH. f_equal.
  destruct item; try contradiction. destruct Hb as (Hlat & Hlng & _).
  unfold position. simpl. congruence.
Qed.

Section WithRandom.
Variable random_suffix : nat -> string.

Lemma get_readable (v : value) (key : string) :
  readable v = true ->
  get v key = Return (match v with Obj fields => lookup key fields | _ => Undefined end).
Proof. destruct v; simpl; try discriminate; reflexivity. Qed.

(** One turn of the loop appends the record when both coordinates are
    truthy, and leaves the array alone otherwise. *)
Lemma visit_readable (item : value) (draws : nat) (hospitals : list Hospital) :
  readable item = true ->
  exists draws' added,
    visit random_suffix item (draws, hospitals) = Return (draws', hospitals ++ added) /\
    Forall2 built_from (filter has_coordinates [item]) added /\
    Forall (fun h => truthy (lat h) = true /\ truthy (lng h) = true) added.
Proof.
  intros Hr. unfold visit.
  rewrite !(get_readable item _ Hr). cbn [bind].
  unfold has_coordinates, rag_position. cbn [filter].
  destruct item as [| |b|f|s|items|fields]; try discriminate; cbn [truthy fst snd andb];
    try (exists draws, []; rewrite app_nil_r; repeat split; constructor).
  destruct (truthy (lookup "lat" fields)) eqn:Hlat; cbn [andb].
  - destruct (truthy (lookup "lng" fields)) eqn:Hlng.
    + eexists _, [_]. split; [reflexivity|]. split.
      * constructor; [|constructor]. cbn [built_from lat lng phone name address services
          rating emergency urgentCare id]. repeat split.
        intros Hid. now rewrite Hid.
      * constructor; [|constructor]. cbn. auto.
    + exists draws, []. rewrite app_nil_r. repeat split; constructor.
  - exists draws, []. rewrite app_nil_r. repeat split; constructor.
Qed.

Lemma visit_all_readable (items : list value) :
  forallb readable items = true ->
  forall draws hospitals,
  exists draws' added,
    visit_all random_suffix items (draws, hospitals) = Return (draws', hospitals ++ added) /\
    Forall2 built_from (filter has_coordinates items) added /\
    Forall (fun h => truthy (lat h) = true /\ truthy (lng h) = true) added.
Proof.
  induction items as [|item rest IH]; intros Hall draws hospitals.
  - exists draws, []. rewrite app_nil_r. repeat split; constructor.
  - simpl in Hall. apply andb_true_iff in Hall as [Hitem Hrest].
    destruct (visit_readable item draws hospitals Hitem) as (d1 & a1 & Hv & Hp1 & Ht1).
    destruct (IH Hrest d1 (hospitals ++ a1)) as (d2 & a2 & Hva & Hp2 & Ht2).
    exists d2, (a1 ++ a2). cbn [visit_all]. rewrite Hv. cbn [bind]. rewrite Hva.
    rewrite app_assoc. split; [reflexivity|]. split.
    + change (item :: rest) with ([item] ++ rest). rewrite filter_app.
      now apply Forall2_app.
    + apply Forall_app. auto.
Qed.

(** C10: on a response whose [hospitals] array holds records, the
    function returns, in input order, exactly one hospital for each
    record whose [lat] and [lng] are both truthy, built from that record
    with both values copied through; every returned hospital has truthy
    coordinates, so a record whose [lat] or [lng] is missing, [null],
    [0] or [-0] is dropped. *)
Theorem extractHospitalDataFromRAG_keeps_located
    (draws : nat) (fields : list (string * value)) (items : list value) :
  lookup "hospitals" fields = Arr items ->
  forallb readable items = true ->
  exists draws' hospitals,
    extractHospitalDataFromRAG random_suffix draws (Obj fields) = Return (draws', hospitals) /\
    Forall2 built_from (filter has_coordinates items) hospitals /\
    map position hospitals = map rag_position (filter has_coordinates items) /\
    Forall (fun h => truthy (lat h) = true /\ truthy (lng h) = true) hospitals /\
    (forall item, In item items ->
       In (fst (rag_position item)) [Undefined; Null; Num 0%float; Num (-0)%float] \/
       In (snd (rag_position item)) [Undefined; Null; Num 0%float; Num (-0)%float] ->
       ~ In item (filter has_coordinates items)).
Proof.
  intros Hh Hall.
  destruct (visit_all_readable items Hall draws []) as (d & added & Hv & Hp & Ht).
  exists d, added. unfold extractHospitalDataFromRAG. cbn [truthy negb get bind].
  rewrite Hh. cbn [truthy negb iterate bind]. rewrite Hv. cbn [app].
  split; [reflexivity|]. split; [exact Hp|].
  split; [now apply built_from_position|]. split; [exact Ht|].
  intros item _ Hzero Hin. apply filter_In in Hin as [_ Hc].
  unfold has_coordinates in Hc. apply andb_true_iff in Hc as [Hlat Hlng].
  destruct Hzero as [Hz|Hz]; cbn [In] in Hz;
    repeat (destruct Hz as [Hz|Hz]; [rewrite <- Hz in *; discriminate|]); contradiction.
Qed.

End WithRandom.

(** The theorem at [sample_response]: of its three records only the
    located one comes back. *)
Lemma extractHospitalDataFromRAG_sample :
  exists draws' hospitals,
    extractHospitalDataFromRAG (fun _ => "k3x9") 0 sample_response
    = Return (draws', hospitals) /\
    map position hospitals = [ (Num 34.05%float, Num (-118.24)%float) ].
Proof.
  destruct (extractHospitalDataFromRAG_keeps_located (fun _ => "k3x9") 0
              [ ("success", Bool true);
                ("hospitals",
                 Arr [ Obj [ ("id", Text "h1"); ("name", Text "City General Hospital");
                             ("lat", Num 34.05%float); ("lng", Num (-118.24)%float) ];
                       Obj [ ("id", Text "h2"); ("name", Text "Equator Clinic");
                             ("lat", Num 0%float); ("lng", Num 78.5%float) ];
                       Obj [ ("id", Text "h3"); ("name", Text "Regional Medical Center") ] ]) ]
              _ eq_refl eq_refl)
    as (d & hs & Hrun & _ & Hpos & _).
  exists d, hs. split; [exact Hrun | exact Hpos].
Defined.

Example extractHospitalDataFromRAG_without_hospitals :
  extractHospitalDataFromRAG (fun _ => "k3x9") 0 (Obj [ ("success", Bool false) ])
  = Return (0, []).
Proof. reflexivity. Qed.

End HospitalLocationsFacts.
(** ** The hospital RAG functions *)

Module NamePattern.
Import Py HospitalRag StrFacts.

Lemma match_literal_some (pat s t : string) :
  match_literal pat s = Some t ->
  exists rest, s = (t ++ rest)%string /\ Str.lower t = Str.lower pat.
Proof.
  revert s t. induction pat as [|p pat IH]; intros s t; simpl.
  - intros [= <-]. exists s. auto.
  - destruct s as [|c s]; [discriminate|].
    destruct (Ascii.eqb_spec (Str.lower_char p) (Str.lower_char c)) as [E|]; [|discriminate].
    destruct (match_literal pat s) as [t'|] eqn:Hm; [|discriminate].
    intros [= <-]. destruct (IH _ _ Hm) as (rest & -> & Hl).
    exists rest. simpl. split; congruence.
Qed.

Lemma match_literal_complete (pat t rest : string) :
  Str.lower t = Str.lower pat -> match_literal pat (t ++ rest) = Some t.
Proof.
  revert t. induction pat as [|p pat IH]; intros [|c t]; simpl; try discriminate.
  - reflexivity.
  - intros [= Hc Ht]. rewrite Hc, Ascii.eqb_refl, (IH _ Ht). reflexivity.
Qed.

Lemma match_alternation_some (alts : list string) (s t : string) :
  match_alternation alts s = Some t ->
  exists alt rest, In alt alts /\ s = (t ++ rest)%string /\ Str.lower t = Str.lower alt.
Proof.
  induction alts as [|a alts IH]; simpl; [discriminate|].
  destruct (match_literal a s) as [m|] eqn:Hm.
  - intros [= <-]. destruct (match_literal_some _ _ _ Hm) as (rest & -> & Hl).
    exists a, rest. auto.
  - intros H. destruct (IH H) as (alt & rest & Hin & Hs & Hl). exists alt, rest. auto.
Qed.

Lemma match_alternation_complete (alts : list string) (alt t rest : string) :
  In alt alts -> Str.lower t = Str.lower alt ->
  match_alternation alts (t ++ rest) <> None.
Proof.
  induction alts as [|a alts IH]; simpl; [contradiction|].
  intros [->|Hin] Hl.
  - rewrite (match_literal_complete _ _ _ Hl). discriminate.
  - destruct (match_literal a (t ++ rest)); [discriminate|auto].
Qed.

Lemma ends_with_suffix_ci_nonempty (p : string) : ends_with_suffix_ci p -> p <> "".
Proof.
  intros (pre & t & suf & Hin & -> & Hl) E.
  destruct pre; [|discriminate]. simpl in E. subst t.
  simpl in Hin. each_member Hin ltac:(discriminate).
Qed.

Lemma ends_with_suffix_ci_cons (c : ascii) (p : string) :
  ends_with_suffix_ci p -> ends_with_suffix_ci (String c p).
Proof.
  intros (pre & t & suf & Hin & -> & Hl). exists (String c pre), t, suf. auto.
Qed.

(** No facility suffix occurs inside another one before its end. *)
Lemma suffixes_do_not_nest (a b : string) :
  In a facility_suffixes -> In b facility_suffixes ->
  Str.contains (Str.lower b) (Str.all_but_last (Str.lower a)) = false.
Proof.
  simpl. intros Ha Hb.
  each_member Ha ltac:(each_member Hb ltac:(reflexivity)).
Qed.

(** A match of the alternation is the shortest leading text that ends
    in a suffix. *)
Lemma match_alternation_shortest (s m p : string) :
  match_alternation facility_suffixes s = Some m ->
  String.prefix p s = true -> ends_with_suffix_ci p ->
  String.length m <= String.length p.
Proof.
  intros Hm Hp (pre & t & b & Hb & -> & Hl).
  destruct (match_alternation_some _ _ _ Hm) as (a & rest & Ha & -> & Hla).
  apply prefix_iff in Hp as [rest' Hp].
  destruct (Nat.le_gt_cases (String.length m) (String.length (pre ++ t))) as [|Hlt];
    [assumption|exfalso].
  destruct (append_cut _ _ _ _ Hp Hlt) as (y & -> & Hy).
  pose proof (suffixes_do_not_nest a b Ha Hb) as Hnest.
  assert (Hy' : Str.lower y <> "") by (destruct y; [contradiction|discriminate]).
  rewrite <- Hla, <- Hl, !lower_append, append_assoc in Hnest.
  rewrite all_but_last_append in Hnest.
  2:{ destruct (Str.lower t); [assumption|discriminate]. }
  rewrite all_but_last_append in Hnest by assumption.
  rewrite contains_intro in Hnest. discriminate.
Qed.

Lemma match_here_some (s m : string) :
  match_here s = Some m -> String.prefix m s = true /\ ends_with_suffix_ci m.
Proof.
  revert m. induction s as [|c s IH]; intros m; cbn [match_here].
  - discriminate.
  - destruct (match_alternation facility_suffixes (String c s)) as [t|] eqn:Ha.
    + intros [= <-]. destruct (match_alternation_some _ _ _ Ha) as (alt & rest & Hin & Hs & Hl).
      split; [apply prefix_iff; eauto | exists "", t, alt; auto].
    + destruct (Str.is_newline c); [discriminate|].
      destruct (match_here s) as [m'|]; [|discriminate].
      intros [= <-]. destruct (IH _ eq_refl) as [Hp He]. split.
      * simpl. destruct (ascii_dec c c); congruence.
      * now apply ends_with_suffix_ci_cons.
Qed.

(** The lazy match is the shortest leading text that ends in a suffix. *)
Lemma match_here_shortest (s m p : string) :
  match_here s = Some m ->
  String.prefix p s = true -> ends_with_suffix_ci p ->
  String.length m <= String.length p.
Proof.
  revert m p. induction s as [|c s IH]; intros m p; cbn [match_here].
  - discriminate.
  - destruct (match_alternation facility_suffixes (String c s)) as [t|] eqn:Ha.
    + intros [= <-]. now apply match_alternation_shortest.
    + destruct (Str.is_newline c); [discriminate|].
      destruct (match_here s) as [m'|] eqn:Hm; [|discriminate].
      intros [= <-] Hp He.
      destruct He as (pre & t & suf & Hin & -> & Hl).
      apply prefix_iff in Hp as [rest Hp].
      destruct pre as [|c' pre]; simpl in Hp.
      * exfalso. rewrite Hp in Ha.
        exact (match_alternation_complete _ _ _ _ Hin Hl Ha).
      * injection Hp as -> Hp. simpl.
        apply le_n_S, IH; [reflexivity| |].
        -- apply prefix_iff; eauto.
        -- exists pre, t, suf. auto.
Qed.

Lemma match_here_none (s : string) :
  Str.single_line s = true -> match_here s = None ->
  forall p, String.prefix p s = true -> ~ ends_with_suffix_ci p.
Proof.
  induction s as [|c s IH]; cbn [match_here Str.single_line].
  - intros _ _ p Hp He. apply ends_with_suffix_ci_nonempty in He.
    destruct p; [congruence|discriminate].
  - intros Hl. apply andb_true_iff in Hl as [Hc Hl].
    destruct (match_alternation facility_suffixes (String c s)) eqn:Ha; [discriminate|].
    destruct (Str.is_newline c); [discriminate|].
    destruct (match_here s) eqn:Hm; [discriminate|]. intros _ p Hp He.
    destruct He as (pre & t & suf & Hin & -> & Hlow).
    apply prefix_iff in Hp as [rest Hp].
    destruct pre as [|c' pre]; simpl in Hp.
    + rewrite Hp in Ha. exact (match_alternation_complete _ _ _ _ Hin Hlow Ha).
    + injection Hp as -> Hp. apply (IH Hl eq_refl (pre ++ t)%string).
      * apply prefix_iff; eauto.
      * exists pre, t, suf. auto.
Qed.

(** On a single line the search succeeds at the start or not at all. *)
Lemma re_search_single_line (s : string) :
  Str.single_line s = true -> re_search s = match_here s.
Proof.
  induction s as [|c s IH]; [reflexivity|].
  intros Hl. cbn [re_search].
  destruct (match_here (String c s)) eqn:Hm; [reflexivity|].
  cbn [Str.single_line] in Hl. apply andb_true_iff in Hl as [Hc Hl]. rewrite (IH Hl).
  cbn [match_here] in Hm.
  destruct (match_alternation facility_suffixes (String c s)); [discriminate|].
  apply negb_true_iff in Hc. rewrite Hc in Hm.
  destruct (match_here s); [discriminate|reflexivity].
Qed.

Lemma re_search_some (s m : string) :
  re_search s = Some m ->
  exists pre rest, s = (pre ++ m ++ rest)%string /\ ends_with_suffix_ci m.
Proof.
  induction s as [|c s IH]; cbn [re_search].
  - cbn. discriminate.
  - destruct (match_here (String c s)) as [m'|] eqn:Hm.
    + intros [= <-]. destruct (match_here_some _ _ Hm) as [Hp He].
      apply prefix_iff in Hp as [rest Hp]. exists "", rest. auto.
    + intros H. destruct (IH H) as (pre & rest & -> & He).
      exists (String c pre), rest. auto.
Qed.

Lemma re_search_none_tail (pre s : string) :
  re_search (pre ++ s) = None -> re_search s = None.
Proof.
  induction pre as [|c pre IH]; [trivial|].
  simpl append. cbn [re_search].
  destruct (match_here (String c (pre ++ s))); [discriminate|assumption].
Qed.

(** The search fails exactly when no leading part of the content ends
    in a suffix, that is, when no suffix occurs in the content. *)
Lemma re_search_none_iff (s : string) :
  re_search s = None <->
  (forall p, String.prefix p s = true -> ~ ends_with_suffix_ci p).
Proof.
  split.
  - intros Hnone p Hp (pre & t & suf & Hin & -> & Hl).
    apply prefix_iff in Hp as [rest Hp]. subst s.
    rewrite append_assoc in Hnone. apply re_search_none_tail in Hnone.
    assert (Hh : match_here (t ++ rest) = None).
    { destruct (t ++ rest)%string; cbn [re_search] in Hnone;
        destruct (match_here _); congruence. }
    assert (Ha : match_alternation facility_suffixes (t ++ rest) = None).
    { destruct (t ++ rest)%string; cbn [match_here] in Hh;
        destruct (match_alternation facility_suffixes _); congruence. }
    exact (match_alternation_complete _ _ _ _ Hin Hl Ha).
  - intros Hno. destruct (re_search s) as [m|] eqn:Hs; [exfalso|reflexivity].
    destruct (re_search_some _ _ Hs) as (pre & rest & -> & He).
    apply (Hno (pre ++ m)%string).
    + apply prefix_iff. exists rest. now rewrite append_assoc.
    + destruct He as (pre' & t & suf & Hin & -> & Hl).
      exists (pre ++ pre')%string, t, suf. rewrite append_assoc. auto.
Qed.

End NamePattern.

Module HospitalRagFacts.
Import Py HospitalRag StrFacts NamePattern.

Lemma slice_to_length {A} (m : Z) (l : list A) :
  (0 <= m)%Z -> (Z.of_nat (List.length (slice_to m l)) <= m)%Z.
Proof.
  intros Hm. unfold slice_to.
  destruct (Z.ltb_spec m 0) as [|_]; [lia|].
  rewrite length_firstn. lia.
Qed.

Section WithCollaborators.
Variable chat_completion : nat -> string -> result (option string).
Variable json_loads : string -> result value.

Abbreviation extract_coordinates := (extract_coordinates_with_openai chat_completion json_loads).
Abbreviation parse := (parse_hospital_from_rag_content chat_completion json_loads).
Abbreviation collect := (collect_hospitals chat_completion json_loads).
Abbreviation appended := (hospitals_from chat_completion json_loads).
Abbreviation fails := (resolution_fails chat_completion json_loads).

(** A failed resolution yields no coordinates. *)
Lemma resolution_fails_none (call : nat) (hospital_name address location : string) :
  fails call hospital_name address location ->
  extract_coordinates call hospital_name address location = None.
Proof.
  unfold resolution_fails, extract_coordinates_with_openai, coordinates_attempt, try_except, bind.
  intros [[e ->] | [-> | [(text & e & -> & ->) | (text & coords & -> & -> & Hkeys)]]];
    try reflexivity.
  destruct (contains_key "lat" coords) as [[]|]; try reflexivity.
  destruct (contains_key "lng" coords) as [[]|]; try reflexivity.
  destruct Hkeys; congruence.
Qed.

(** Parsing always yields a record; its fields. *)
Lemma parse_total (call : nat) (content : string) (metadata : list (string * value))
    (location : string) :
  exists h,
    parse call content metadata location = Some h /\
    name h = hospital_name_of content /\
    address h = ("123 Healthcare Blvd, " ++ location)%string /\
    relevance_score h = dict_get "relevance_score" metadata (VFloat 0.0) /\
    coordinates h =
      match extract_coordinates call (hospital_name_of content)
                                ("123 Healthcare Blvd, " ++ location) location with
      | Some c => if truthy c then Some c else None
      | None => None
      end.
Proof.
  unfold parse_hospital_from_rag_content, parse_attempt, try_except, bind.
  cbn [coordinates option_truthy negb address].
  destruct (extract_coordinates call _ _ location) as [c|].
  - destruct (truthy c); eexists; repeat split.
  - eexists; repeat split.
Qed.

Lemma collect_hospitals_from (results : list RagResult) (location : string) :
  forall call hospitals,
    collect call results location hospitals = hospitals ++ appended call results location.
Proof.
  induction results as [|r rest IH]; intros call hospitals; simpl.
  - now rewrite app_nil_r.
  - rewrite IH. destruct (parse call (content r) (metadata r) location); simpl.
    + now rewrite <- app_assoc.
    + reflexivity.
Qed.

Lemma hospitals_from_length (results : list RagResult) (location : string) :
  forall call, List.length (appended call results location) = List.length results.
Proof.
  induction results as [|r rest IH]; intros call; simpl; [reflexivity|].
  destruct (parse_total call (content r) (metadata r) location) as (h & -> & _).
  simpl. now rewrite IH.
Qed.

(** The [i]-th record comes from the [i]-th entry and the [i]-th
    request after [call]. *)
Lemma hospitals_from_nth (results : list RagResult) (location : string) :
  forall call i r,
    nth_error results i = Some r ->
    exists h,
      nth_error (appended call results location) i = Some h /\
      parse (call + i) (content r) (metadata r) location = Some h.
Proof.
  induction results as [|r0 rest IH]; intros call i r Hi.
  - destruct i; discriminate.
  - simpl. destruct (parse_total call (content r0) (metadata r0) location) as (h0 & Hp & _).
    rewrite Hp. destruct i as [|i]; simpl in *.
    + injection Hi as <-. exists h0. now rewrite Nat.add_0_r.
    + destruct (IH (S call) i r Hi) as (h & Hn & Hp').
      exists h. now rewrite Nat.add_succ_r.
Qed.

(** The names and scores of the mock results do not depend on the
    location or on what the collaborators answer. *)
Lemma extract_names_and_scores (call : nat) (location injury_type : string) :
  map (fun h => (name h, relevance_score h))
      (extract_hospital_locations_from_rag chat_completion json_loads call location injury_type)
  = [ ("Regional Medical Center", VFloat 0.95);
      ("City General Hospital", VFloat 0.88);
      ("Emergency Care Center", VFloat 0.82) ].
Proof.
  unfold extract_hospital_locations_from_rag, extract_attempt, try_except.
  rewrite collect_hospitals_from. cbn [app mock_rag_results hospitals_from content metadata].
  repeat match goal with
  | |- context [parse ?c ?ct ?md location] =>
      let h := fresh "h" in
      destruct (parse_total c ct md location) as (h & -> & ? & _ & ? & _)
  end.
  cbn [app map]. 
  repeat match goal with H : name _ = _ |- _ => rewrite H; clear H end.
  repeat match goal with H : relevance_score _ = _ |- _ => rewrite H; clear H end.
  reflexivity.
Qed.

(** The extraction returns three records, whatever the collaborators do. *)
Lemma extract_length (call : nat) (location injury_type : string) :
  List.length (extract_hospital_locations_from_rag chat_completion json_loads
                 call location injury_type) = 3.
Proof.
  unfold extract_hospital_locations_from_rag, extract_attempt, try_except.
  rewrite collect_hospitals_from. cbn [app]. now rewrite hospitals_from_length.
Qed.

(** C4 (amended): when some leading part of the content ends in a
    facility suffix, the name is a match of the pattern with the
    surrounding whitespace stripped, and on single-line content that
    match is the SHORTEST leading substring that ends in one of the
    suffixes, letter case ignored; when no leading part ends in a suffix
    the name is the placeholder; parsing never raises, it always yields a
    record carrying that name. *)
Theorem hospital_name_shortest_leading (content : string) :
  ((exists p, String.prefix p content = true /\ ends_with_suffix_ci p) ->
   exists m,
     re_search content = Some m /\
     hospital_name_of content = Str.strip m /\
     ends_with_suffix_ci m /\
     (Str.single_line content = true ->
      String.prefix m content = true /\
      forall p, String.prefix p content = true -> ends_with_suffix_ci p ->
                String.length m <= String.length p)) /\
  ((forall p, String.prefix p content = true -> ~ ends_with_suffix_ci p) ->
   hospital_name_of content = unknown_hospital) /\
  (forall call metadata location,
   exists h,
     parse call content metadata location = Some h /\
     name h = hospital_name_of content).
Proof.
  split; [|split].
  - intros (p & Hp & He).
    destruct (re_search content) as [m|] eqn:Hs.
    + exists m. unfold hospital_name_of. rewrite Hs.
      destruct (re_search_some _ _ Hs) as (pre & rest & _ & Hm).
      split; [reflexivity|]. split; [reflexivity|]. split; [exact Hm|].
      intros Hline. rewrite (re_search_single_line _ Hline) in Hs. split.
      * now apply match_here_some in Hs.
      * intros p' Hp' He'. eapply match_here_shortest; eauto.
    + exfalso. exact (proj1 (re_search_none_iff content) Hs p Hp He).
  - intros Hno. unfold hospital_name_of.
    now rewrite (proj2 (re_search_none_iff content) Hno).
  - intros call metadata location.
    destruct (parse_total call content metadata location) as (h & Hp & Hn & _). eauto.
Qed.


End WithCollaborators.

(** The specification's wording (the longest leading substring) fails
    on a narrative that names two facilities: the pattern stops at the
    first one. *)
Lemma longest_leading_name_differs :
  longest_leading_name "Mercy Hospital near General Hospital"
                       "Mercy Hospital near General Hospital" /\
  hospital_name_of "Mercy Hospital near General Hospital" = "Mercy Hospital".
Proof.
  split; [|reflexivity]. split; [reflexivity|]. split.
  - exists "Mercy Hospital near General ", "Hospital". split; [now left|reflexivity].
  - intros p Hp _. now apply prefix_length in Hp.
Qed.

(** The amended statement at the same narrative. *)
Lemma hospital_name_shortest_leading_example :
  exists m,
    re_search "Mercy Hospital near General Hospital" = Some m /\
    hospital_name_of "Mercy Hospital near General Hospital" = Str.strip m /\
    ends_with_suffix_ci m /\
    (Str.single_line "Mercy Hospital near General Hospital" = true ->
     String.prefix m "Mercy Hospital near General Hospital" = true /\
     forall p, String.prefix p "Mercy Hospital near General Hospital" = true ->
               ends_with_suffix_ci p -> String.length m <= String.length p).
Proof.
  apply (hospital_name_shortest_leading example_chat example_json_loads
           "Mercy Hospital near General Hospital").
  exists "Mercy Hospital". split; [reflexivity|].
  exists "Mercy ", "Hospital", "Hospital". split; [now left|]. split; reflexivity.
Defined.


(** Outside the failure modes: an answer that is well-formed JSON but
    not an object, here a JSON string that mentions both keys, passes
    the [in] tests and is stored as the coordinates. *)
Example json_string_kept_as_coordinates :
  option_map coordinates
    (parse_hospital_from_rag_content
       (fun _ _ => Ok (Some "lat and lng unknown"))
       (fun text => Ok (VStr text))
       0 "Mercy Hospital" [] "Boston")
  = Some (Some (VStr "lat and lng unknown")).
Proof. reflexivity. Qed.

Example extract_with_example_collaborators :
  map coordinates
      (extract_hospital_locations_from_rag example_chat example_json_loads 0 "Boston" "general")
  = [ Some (VDict [ ("lat", VFloat 42.36); ("lng", VFloat (-71.06)) ]); None; None ].
Proof. reflexivity. Qed.

End HospitalRagFacts.

(** ** The retrieval core *)

Module RetrievalFacts.
Import Retrieval StrFacts.
Local Open Scope Q_scope.

Lemma clamp01_range (x : Q) : 0 <= clamp01 x /\ clamp01 x <= 1.
Proof.
  unfold clamp01. split.
  - apply Q.le_max_l.
  - apply Q.max_lub; [discriminate | apply Q.le_min_l].
Qed.

Lemma clamp01_zero (x : Q) : x == 0 -> clamp01 x == 0.
Proof.
  intros Hx. unfold clamp01.
  rewrite Q.min_r by (rewrite Hx; discriminate).
  rewrite Hx. reflexivity.
Qed.

Lemma count_le (p : string -> bool) (ts : list string) :
  (count p ts <= List.length ts)%nat.
Proof.
  unfold count. induction ts as [|t ts IH]; simpl; [lia|].
  destruct (p t); simpl; lia.
Qed.

Lemma count_none (p : string -> bool) (ts : list string) :
  (forall t, In t ts -> p t = false) -> count p ts = 0%nat.
Proof.
  unfold count. induction ts as [|t ts IH]; simpl; [reflexivity|].
  intros H. rewrite (H t (or_introl eq_refl)). apply IH. intros x Hx. apply H. now right.
Qed.

Lemma ratio_range (n d : nat) : (n <= d)%nat -> 0 <= ratio n d /\ ratio n d <= 1.
Proof.
  intros Hnd. destruct d as [|d]; simpl.
  - split; discriminate.
  - unfold Qle; simpl. rewrite Zpos_P_of_succ_nat. lia.
Qed.

Lemma ratio_zero (d : nat) : ratio 0 d == 0.
Proof. destruct d; reflexivity. Qed.

Section Scorer.
Variable category_of : Document -> option Category.
Variable priority_terms : Category -> list string.

Abbreviation score' := (score category_of priority_terms).
Abbreviation rank' := (rank category_of priority_terms).
Abbreviation matches := (matches_intent priority_terms).

Lemma calibrated_range (c : Category) : 0 <= calibrated c /\ calibrated c <= 1.
Proof. destruct c; split; discriminate. Qed.

Lemma score_document (query : string) (d : Document) : document (score' query d) = d.
Proof. unfold score. destruct (Str.is_empty (body d)); reflexivity. Qed.

(** Both scores of every pair lie in [0,1]. *)
Lemma score_range (query : string) (d : Document) :
  (0 <= relevancy (score' query d) /\ relevancy (score' query d) <= 1) /\
  (0 <= similarity (score' query d) /\ similarity (score' query d) <= 1).
Proof.
  unfold score. destruct (Str.is_empty (body d)); simpl.
  - repeat split; discriminate.
  - split; apply clamp01_range.
Qed.

Lemma score_empty_body (query : string) (d : Document) :
  body d = "" -> score' query d = mkScored d 0 0.
Proof. intros H. unfold score. now rewrite H. Qed.

(** Without intent match and without overlap the relevancy is 0. *)
Lemma score_no_match (query : string) (d : Document) :
  (forall c, matches (tokenize query) c = false) ->
  (forall t, In t (tokenize query) -> Str.contains t (Str.lower (body d)) = false) ->
  relevancy (score' query d) == 0.
Proof.
  intros Hi Ho. unfold score. destruct (Str.is_empty (body d)); simpl; [reflexivity|].
  apply clamp01_zero.
  assert (Hr : overlap_ratio (tokenize query) d == 0).
  { unfold overlap_ratio. rewrite (count_none _ _ Ho). apply ratio_zero. }
  destruct (category_of d) as [c|]; [rewrite Hi|]; exact Hr.
Qed.

Lemma matches_no_token (c : Category) : matches [] c = false.
Proof.
  unfold matches_intent. induction (priority_terms c) as [|t ts IH]; simpl; auto.
Qed.

Lemma blank_words_from (s : string) : Str.blank s = true -> words_from "" s = [].
Proof.
  induction s as [|c s IH]; simpl; [reflexivity|].
  intros H. apply andb_true_iff in H as [Hc Hs].
  unfold is_separator. rewrite Hc. simpl. auto.
Qed.

(** A blank query has no token. *)
Lemma tokenize_blank (query : string) : Str.blank query = true -> tokenize query = [].
Proof.
  intros H. unfold tokenize. now rewrite (blank_lower _ H), (blank_words_from _ H).
Qed.

(** *** Sorting *)

Lemma insert_desc_In (x y : ScoredDocument) (l : list ScoredDocument) :
  In y (insert_desc x l) <-> y = x \/ In y l.
Proof.
  induction l as [|z l IH]; simpl.
  - intuition.
  - destruct (Qle_bool (relevancy z) (relevancy x)); simpl; [intuition|].
    rewrite IH. intuition.
Qed.

Lemma sort_desc_In (y : ScoredDocument) (l : list ScoredDocument) :
  In y (sort_desc l) <-> In y l.
Proof.
  induction l as [|x l IH]; simpl; [reflexivity|].
  rewrite insert_desc_In, IH. intuition.
Qed.

Lemma insert_desc_length (x : ScoredDocument) (l : list ScoredDocument) :
  List.length (insert_desc x l) = S (List.length l).
Proof.
  induction l as [|z l IH]; simpl; [reflexivity|].
  destruct (Qle_bool (relevancy z) (relevancy x)); simpl; congruence.
Qed.

Lemma sort_desc_length (l : list ScoredDocument) :
  List.length (sort_desc l) = List.length l.
Proof.
  induction l as [|x l IH]; simpl; [reflexivity|].
  now rewrite insert_desc_length, IH.
Qed.

Lemma In_firstn {A} (k : nat) (l : list A) (x : A) : In x (firstn k l) -> In x l.
Proof.
  revert l. induction k as [|k IH]; intros [|y l]; simpl; try contradiction.
  intros [->|H]; auto.
Qed.

(** *** Ranking *)

Lemma rank_length (query : string) (docs : list Document) (k : Z) :
  List.length (rank' query docs k) = Nat.min (Z.to_nat k) (List.length docs).
Proof. unfold rank. now rewrite length_firstn, sort_desc_length, length_map. Qed.

Lemma rank_In (query : string) (docs : list Document) (k : Z) (s : ScoredDocument) :
  In s (rank' query docs k) -> exists d, In d docs /\ s = score' query d.
Proof.
  unfold rank. intros H. apply In_firstn, sort_desc_In, in_map_iff in H.
  destruct H as (d & <- & Hd). eauto.
Qed.


(** *** The claims on the retrieval core *)

(** C2 (amended): for every [k] that is not negative [rank] returns at
    most [k] documents, and for every [k] each returned document has both
    scores in [0,1]; [k] defaults to 3, and the retrieval service, which
    ranks with the default, uses at most 3 documents; the hospital
    endpoint returns at most [max_results] records for every request
    whose [max_results] is not negative. *)
Theorem rank_bounded_and_endpoint_capped
    (query : string) (docs : list Document) (k : Z) :
  ((0 <= k)%Z -> (Z.of_nat (List.length (rank' query docs k)) <= k)%Z) /\
  (forall s, In s (rank' query docs k) ->
     (0 <= relevancy s /\ relevancy s <= 1) /\ (0 <= similarity s /\ similarity s <= 1)) /\
  (default_k = 3%Z /\
   forall store,
     (documentsUsed (retrieveContext category_of priority_terms store query) <= 3)%nat) /\
  (forall chat_completion json_loads call request,
     (0 <= HospitalRag.max_results request)%Z ->
     (Z.of_nat (List.length (HospitalRag.hospitals
         (HospitalRag.get_hospitals_from_rag chat_completion json_loads call request)))
      <= HospitalRag.max_results request)%Z).
Proof.
  split; [intros Hk; rewrite rank_length; lia|]. split; [|split; [split; [reflexivity|]|]].
  - intros s Hs. destruct (rank_In query docs k s Hs) as (d & _ & ->). apply score_range.
  - intros [docs'|]; simpl; [|lia]. rewrite rank_length. unfold default_k. lia.
  - intros chat_completion json_loads call request Hm. simpl.
    now apply HospitalRagFacts.slice_to_length.
Qed.

(** C8: a blank query (empty or whitespace only) is no error: the
    scorer gives relevancy 0 for every document, so does every entry the
    ranking engine returns, and the guardrail of the backend returns the
    query instead of raising; a document with an empty body scores
    relevancy 0 and similarity 0; both scores are always in [0,1]. *)
Theorem blank_query_and_empty_body_score_zero (query : string) (d : Document) :
  (Str.blank query = true ->
   relevancy (score' query d) == 0 /\
   (forall docs k s, In s (rank' query docs k) -> relevancy s == 0) /\
   Guardrail.validate_healthcare_query query = Py.Ok query) /\
  (body d = "" -> relevancy (score' query d) = 0 /\ similarity (score' query d) = 0) /\
  ((0 <= relevancy (score' query d) /\ relevancy (score' query d) <= 1) /\
   (0 <= similarity (score' query d) /\ similarity (score' query d) <= 1)).
Proof.
  split; [|split].
  - intros Hblank.
    assert (Hzero : forall d', relevancy (score' query d') == 0).
    { intros d'. apply score_no_match; rewrite (tokenize_blank _ Hblank).
      - apply matches_no_token.
      - intros t []. }
    split; [apply Hzero|]. split.
    + intros docs k s Hs. destruct (rank_In query docs k s Hs) as (d' & _ & ->). apply Hzero.
    + now apply GuardrailFacts.validate_accepts_blank.
  - intros Hb. rewrite (score_empty_body query d Hb). split; reflexivity.
  - apply score_range.
Qed.

End Scorer.

(** *** The claims at concrete inputs *)

(** The specification's wording of C2 fails at both of its bounds when
    the bound is negative.  No list is shorter than [k = -1], whatever
    the ranking engine returns for it.  The endpoint with
    [max_results = -1]: Python's slice drops the last record and two are
    returned, more than [max_results]. *)
Lemma endpoint_negative_max_results :
  (-1 < Z.of_nat (List.length (rank example_category_of example_terms
                                    "emergency room chest pain" [emergency_doc] (-1))))%Z /\
  (HospitalRag.max_results (HospitalRag.mkRequest "Boston" "general" (-1))
   < Z.of_nat (List.length (HospitalRag.hospitals
       (HospitalRag.get_hospitals_from_rag HospitalRag.example_chat
          HospitalRag.example_json_loads 0
          (HospitalRag.mkRequest "Boston" "general" (-1))))))%Z /\
  List.length (HospitalRag.hospitals
       (HospitalRag.get_hospitals_from_rag HospitalRag.example_chat
          HospitalRag.example_json_loads 0
          (HospitalRag.mkRequest "Boston" "general" (-1)))) = 2%nat.
Proof. split; [|split]; reflexivity. Qed.

(** The amended C2 at [k = 1] on one document, and at a request for at
    most two hospitals. *)
Lemma rank_bounded_and_endpoint_capped_example :
  (Z.of_nat (List.length (rank example_category_of example_terms
                               "emergency room chest pain" [emergency_doc] 1)) <= 1)%Z /\
  (Z.of_nat (List.length (HospitalRag.hospitals
       (HospitalRag.get_hospitals_from_rag HospitalRag.example_chat
          HospitalRag.example_json_loads 0
          (HospitalRag.mkRequest "Boston" "general" 2)))) <= 2)%Z.
Proof.
  destruct (rank_bounded_and_endpoint_capped example_category_of example_terms
              "emergency room chest pain" [emergency_doc] 1) as (Hrank & _ & _ & Hend).
  split; [apply Hrank; lia|].
  apply Hend. simpl. lia.
Defined.

(** The blank-query theorem at a query of three spaces. *)
Lemma blank_query_example :
  relevancy (score example_category_of example_terms "   " emergency_doc) == 0 /\
  Guardrail.validate_healthcare_query "   " = Py.Ok "   ".
Proof.
  destruct (blank_query_and_empty_body_score_zero example_category_of example_terms
              "   " emergency_doc) as (Hblank & _).
  destruct (Hblank eq_refl) as (Hzero & _ & Hguard).
  split; [exact Hzero | exact Hguard].
Defined.

End RetrievalFacts.

(** ** Stripped text *)

Module TrimFacts.
Import Str StrFacts Trim.

Lemma is_space_lower_char_eq (c : ascii) : is_space (lower_char c) = is_space c.
Proof. destruct c as [[] [] [] [] [] [] [] []]; reflexivity. Qed.

Lemma lower_char_idempotent (c : ascii) : lower_char (lower_char c) = lower_char c.
Proof. destruct c as [[] [] [] [] [] [] [] []]; reflexivity. Qed.

Lemma lower_idempotent (s : string) : lower (lower s) = lower s.
Proof. induction s as [|c s IH]; simpl; [reflexivity|]. now rewrite lower_char_idempotent, IH. Qed.

Lemma is_empty_lower (s : string) : is_empty (lower s) = is_empty s.
Proof. now destruct s. Qed.

Lemma starts_nonspace_lower (s : string) : starts_nonspace (lower s) = starts_nonspace s.
Proof. destruct s as [|c s]; simpl; [reflexivity|]. now rewrite is_space_lower_char_eq. Qed.

Lemma ends_nonspace_lower (s : string) : ends_nonspace (lower s) = ends_nonspace s.
Proof.
  induction s as [|c s IH]; simpl; [reflexivity|].
  now rewrite is_empty_lower, is_space_lower_char_eq, IH.
Qed.

Lemma ends_nonspace_append (x y : string) :
  ends_nonspace y = true -> ends_nonspace (x ++ y) = true.
Proof.
  intros Hy. induction x as [|c x IH]; simpl; [assumption|].
  destruct (x ++ y)%string eqn:E; [discriminate|assumption].
Qed.

(** Nothing to strip on the right of a text that ends in a character
    that is not whitespace. *)
Lemma rstrip_fixed (s : string) : ends_nonspace s = true -> rstrip s = s.
Proof.
  induction s as [|c s IH]; simpl; [discriminate|].
  destruct s as [|c' s].
  - simpl. intros H. apply negb_true_iff in H. now rewrite H.
  - cbn [is_empty]. intros H. rewrite (IH H). cbn [is_empty]. now rewrite andb_false_r.
Qed.

(** Stripping on the left removes leading characters only. *)
Lemma lstrip_append (x y : string) :
  starts_nonspace y = true -> exists x', lstrip (x ++ y) = (x' ++ y)%string.
Proof.
  intros Hy. induction x as [|c x IH]; simpl.
  - exists "". destruct y as [|d y]; [discriminate|].
    simpl in *. apply negb_true_iff in Hy. now rewrite Hy.
  - destruct (is_space c); [assumption|]. now exists (String c x).
Qed.

Lemma lstrip_idempotent (s : string) : lstrip (lstrip s) = lstrip s.
Proof.
  induction s as [|c s IH]; simpl; [reflexivity|].
  destruct (is_space c) eqn:Hc; [assumption|]. simpl. now rewrite Hc.
Qed.

Lemma rstrip_idempotent (s : string) : rstrip (rstrip s) = rstrip s.
Proof.
  induction s as [|c s IH]; simpl; [reflexivity|].
  destruct (is_space c && is_empty (rstrip s)) eqn:E; [reflexivity|].
  simpl. now rewrite IH, E.
Qed.

Lemma lstrip_rstrip_fixed (s : string) : lstrip s = s -> lstrip (rstrip s) = rstrip s.
Proof.
  destruct s as [|c s]; simpl; [reflexivity|].
  destruct (is_space c) eqn:Hc.
  - intros H. exfalso.
    assert (Hlen : String.length (lstrip s) <= String.length s).
    { clear. induction s as [|d s IH]; simpl; [lia|]. destruct (is_space d); simpl; lia. }
    rewrite H in Hlen. simpl in Hlen. lia.
  - intros _. simpl. now rewrite Hc.
Qed.

(** [strip] is idempotent. *)
Lemma strip_idempotent (s : string) : strip (strip s) = strip s.
Proof.
  unfold strip. rewrite lstrip_rstrip_fixed by apply lstrip_idempotent.
  apply rstrip_idempotent.
Qed.

(** The number of words does not depend on the letter case, nor on what
    the word being read holds. *)
Lemma split_from_lower_length (s : string) :
  forall w w', is_empty w = is_empty w' ->
  List.length (split_from w (lower s)) = List.length (split_from w' s).
Proof.
  induction s as [|c s IH]; intros w w' Hw; simpl.
  - rewrite Hw. now destruct (is_empty w').
  - rewrite is_space_lower_char_eq. destruct (is_space c).
    + rewrite Hw. destruct (is_empty w'); simpl; now rewrite (IH "" "").
    + apply IH. destruct w, w'; reflexivity.
Qed.

Lemma split_lower_length (s : string) :
  List.length (split (lower s)) = List.length (split s).
Proof. now apply split_from_lower_length. Qed.

End TrimFacts.

(** ** The guardrail and the letter case *)

Module GuardrailCase.
Import Py Guardrail StrFacts TrimFacts GuardrailFacts.

Lemma rejected_lower (q : string) : rejected (Str.lower q) <-> rejected q.
Proof.
  unfold rejected. now rewrite lower_idempotent, split_lower_length.
Qed.

(** X1: the guardrail ignores the letter case of the query: a query is
    accepted exactly when its lowercased form is, and rejected exactly
    when its lowercased form is. *)
Theorem validate_healthcare_query_case_insensitive (q : string) :
  (validate_healthcare_query q = Ok q <->
   validate_healthcare_query (Str.lower q) = Ok (Str.lower q)) /\
  ((exists msg, validate_healthcare_query q = Raise (ValueError msg)) <->
   (exists msg, validate_healthcare_query (Str.lower q) = Raise (ValueError msg))).
Proof.
  assert (Hcases : forall s, (rejected s /\ exists msg, validate_healthcare_query s = Raise (ValueError msg))
                             \/ (~ rejected s /\ validate_healthcare_query s = Ok s)).
  { intros s. destruct (validate_healthcare_query s) as [r|e] eqn:H.
    - right. rewrite (validate_returns_input _ _ H). split; [|reflexivity].
      intros Hr. destruct (validate_raises_when_rejected s Hr) as [m Hm]. congruence.
    - left. pose proof (validate_rejected_when_raises s e H) as Hr. split; [assumption|].
      destruct (validate_raises_when_rejected s Hr) as [m Hm]. rewrite Hm in H. eauto. }
  pose proof (rejected_lower q) as Hl.
  destruct (Hcases q) as [[Hr [m Hm]]|[Hn Hok]], (Hcases (Str.lower q)) as [[Hr' [m' Hm']]|[Hn' Hok']];
    try tauto.
  - split; split; intros H; eauto; congruence.
  - split; split; intros H; eauto.
    + destruct H as [x Hx]. congruence.
    + destruct H as [x Hx]. congruence.
Qed.

(** The loop raises for the first indicator, in list order, that
    occurs. *)
Lemma check_indicators_first (indicators : list string) (s : string) (e : exn) :
  check_indicators indicators s = Raise e ->
  exists earlier indicator later,
    indicators = earlier ++ indicator :: later /\
    Str.contains indicator s = true /\
    (forall i, In i earlier -> Str.contains i s = false) /\
    e = ValueError (out_of_scope_message indicator).
Proof.
  induction indicators as [|i rest IH]; simpl; [discriminate|].
  destruct (Str.contains i s) eqn:Hi.
  - intros [= <-]. exists [], i, rest. repeat split; auto. intros ? [].
  - intros H. destruct (IH H) as (earlier & ind & later & -> & Hc & He & ->).
    exists (i :: earlier), ind, later. repeat split; auto.
    intros x [<-|Hx]; auto.
Qed.

(** X20: what the guardrail says when it rejects: the message names the
    first indicator phrase, in the order of the list and not of the
    query, that occurs in the lowercased query; when none occurs, the
    message asks for healthcare context, and the query has more than
    three words and none of the healthcare keywords. *)
Theorem guardrail_message_names_first_indicator (q msg : string) :
  validate_healthcare_query q = Raise (ValueError msg) ->
  (exists earlier indicator later,
     non_healthcare_indicators = earlier ++ indicator :: later /\
     Str.contains indicator (Str.lower q) = true /\
     (forall i, In i earlier -> Str.contains i (Str.lower q) = false) /\
     msg = out_of_scope_message indicator) \/
  ((forall indicator, In indicator non_healthcare_indicators ->
      Str.contains indicator (Str.lower q) = false) /\
   (forall keyword, In keyword healthcare_keywords ->
      Str.contains keyword (Str.lower q) = false) /\
   3 < List.length (Str.split q) /\
   msg = missing_context_message).
Proof.
  unfold validate_healthcare_query, bind.
  destruct (check_indicators non_healthcare_indicators (Str.lower q)) as [[]|e] eqn:Hc.
  - destruct (existsb _ healthcare_keywords) eqn:Hkw; cbn [negb andb]; [discriminate|].
    destruct (Nat.ltb 3 (List.length (Str.split q))) eqn:Hlen; [|discriminate].
    intros [= <-]. right. repeat split.
    + now apply check_indicators_passes.
    + now apply existsb_contains_false.
    + now apply Nat.ltb_lt.
  - intros [= ->]. left.
    destruct (check_indicators_first _ _ _ Hc) as (earlier & ind & later & E & Hi & He & [= ->]).
    exists earlier, ind, later. auto.
Qed.

(** The theorem at a query in which [news] comes before [stock price]:
    the guardrail's message is about [stock price], which comes first
    in the list. *)
Lemma guardrail_message_names_first_indicator_example :
  (exists earlier indicator later,
     non_healthcare_indicators = earlier ++ indicator :: later /\
     Str.contains indicator (Str.lower "News about the stock price") = true /\
     (forall i, In i earlier ->
        Str.contains i (Str.lower "News about the stock price") = false) /\
     out_of_scope_message "stock price" = out_of_scope_message indicator) \/
  ((forall indicator, In indicator non_healthcare_indicators ->
      Str.contains indicator (Str.lower "News about the stock price") = false) /\
   (forall keyword, In keyword healthcare_keywords ->
      Str.contains keyword (Str.lower "News about the stock price") = false) /\
   3 < List.length (Str.split "News about the stock price") /\
   out_of_scope_message "stock price" = missing_context_message).
Proof.
  exact (guardrail_message_names_first_indicator "News about the stock price"
           (out_of_scope_message "stock price") eq_refl).
Defined.

End GuardrailCase.

(** ** Parsed hospital names *)

Module HospitalNameFacts.
Import Py HospitalRag StrFacts Trim TrimFacts NamePattern.

Lemma match_here_eq (s : string) :
  match_here s =
  match match_alternation facility_suffixes s with
  | Some m => Some m
  | None =>
      match s with
      | EmptyString => None
      | String c s' =>
          if Str.is_newline c then None else option_map (String c) (match_here s')
      end
  end.
Proof. destruct s; reflexivity. Qed.

(** The text a facility suffix matches starts and ends with a character
    that is not whitespace. *)
Lemma suffix_text_trimmed (t suffix : string) :
  In suffix facility_suffixes -> Str.lower t = Str.lower suffix ->
  starts_nonspace t = true /\ ends_nonspace t = true.
Proof.
  intros Hin Hl.
  rewrite <- (starts_nonspace_lower t), <- (ends_nonspace_lower t), Hl.
  simpl in Hin. each_member Hin ltac:(split; reflexivity).
Qed.

(** Stripping a text that ends in a facility suffix keeps the suffix and
    leaves a text with nothing more to strip. *)
Lemma strip_ends_with_suffix (m : string) :
  ends_with_suffix_ci m ->
  ends_with_suffix_ci (Str.strip m) /\ Str.strip m = Str.lstrip m.
Proof.
  intros (pre & t & suffix & Hin & -> & Hl).
  destruct (suffix_text_trimmed t suffix Hin Hl) as [Hs He].
  destruct (lstrip_append pre t Hs) as [pre' Hp].
  unfold Str.strip. rewrite Hp, rstrip_fixed by now apply ends_nonspace_append.
  split; [|reflexivity]. exists pre', t, suffix. auto.
Qed.

(** An alternative that fails on a text fails on every leading part of
    it. *)
Lemma match_literal_none_prefix (pat p rest : string) :
  match_literal pat (p ++ rest) = None -> match_literal pat p = None.
Proof.
  intros H. destruct (match_literal pat p) as [t|] eqn:Hm; [exfalso|reflexivity].
  destruct (match_literal_some _ _ _ Hm) as (r & -> & Hl).
  rewrite append_assoc, (match_literal_complete _ _ _ Hl) in H. discriminate.
Qed.

Lemma match_alternation_none_prefix (alts : list string) (p rest : string) :
  match_alternation alts (p ++ rest) = None -> match_alternation alts p = None.
Proof.
  induction alts as [|a alts IH]; simpl; [reflexivity|].
  destruct (match_literal a (p ++ rest)) eqn:Hm; [discriminate|].
  rewrite (match_literal_none_prefix _ _ _ Hm). exact IH.
Qed.

(** What the alternation matched, it matches again in full. *)
Lemma match_alternation_self (alts : list string) (s t : string) :
  match_alternation alts s = Some t -> match_alternation alts t = Some t.
Proof.
  induction alts as [|a alts IH]; simpl; [discriminate|].
  destruct (match_literal a s) as [m|] eqn:Hm.
  - intros [= <-]. destruct (match_literal_some _ _ _ Hm) as (rest & _ & Hl).
    pose proof (match_literal_complete a m "" Hl) as Hc.
    rewrite append_nil_r in Hc. now rewrite Hc.
  - intros H. destruct (match_alternation_some _ _ _ H) as (alt & rest & _ & -> & _).
    rewrite (match_literal_none_prefix _ _ _ Hm). exact (IH H).
Qed.

(** What the pattern matched at the start of a text, it matches again in
    full. *)
Lemma match_here_self (s m : string) :
  match_here s = Some m -> match_here m = Some m.
Proof.
  revert m. induction s as [|c s IH]; intros m; cbn [match_here].
  - discriminate.
  - destruct (match_alternation facility_suffixes (String c s)) as [t|] eqn:Ha.
    + intros [= <-]. rewrite match_here_eq, (match_alternation_self _ _ _ Ha). reflexivity.
    + destruct (Str.is_newline c) eqn:Hc; [discriminate|].
      destruct (match_here s) as [m'|] eqn:Hm; [|discriminate].
      intros [= <-].
      destruct (match_here_some _ _ Hm) as [Hp _]. apply prefix_iff in Hp as [rest Hp].
      rewrite Hp in Ha. change (String c (m' ++ rest)) with (String c m' ++ rest)%string in Ha.
      apply match_alternation_none_prefix in Ha.
      cbn [match_here]. rewrite Ha, Hc, (IH _ eq_refl). reflexivity.
Qed.

(** No facility suffix starts with whitespace. *)
Lemma match_alternation_space (c : ascii) (s : string) :
  Str.is_space c = true -> match_alternation facility_suffixes (String c s) = None.
Proof.
  intros Hc. pose proof (is_space_lower_char c Hc) as Hl.
  cbn [match_alternation facility_suffixes match_literal]. rewrite Hl.
  repeat match goal with
  | |- context [Ascii.eqb ?a c] =>
      destruct (Ascii.eqb_spec a c) as [<-|_]; [discriminate|]
  end.
  reflexivity.
Qed.

Lemma match_here_lstrip (m : string) :
  match_here m = Some m -> match_here (Str.lstrip m) = Some (Str.lstrip m).
Proof.
  induction m as [|c m IH]; [trivial|].
  cbn [Str.lstrip]. destruct (Str.is_space c) eqn:Hc; [|trivial].
  cbn [match_here]. rewrite (match_alternation_space c m Hc).
  destruct (Str.is_newline c); [discriminate|].
  destruct (match_here m) as [m'|]; [|discriminate].
  intros [= ->]. now apply IH.
Qed.

Lemma re_search_match_here (s m : string) :
  re_search s = Some m -> exists s', match_here s' = Some m.
Proof.
  induction s as [|c s IH]; cbn [re_search].
  - cbn. discriminate.
  - destruct (match_here (String c s)) as [m'|] eqn:Hm.
    + intros [= <-]. eauto.
    + exact IH.
Qed.

(** X2: whatever the content, the parsed name ends in one of the four
    facility words (whatever the letter case), is not empty and has no
    whitespace around it. *)
Theorem hospital_name_well_formed (content : string) :
  ends_with_suffix_ci (hospital_name_of content) /\
  hospital_name_of content <> "" /\
  Str.strip (hospital_name_of content) = hospital_name_of content.
Proof.
  assert (H : ends_with_suffix_ci (hospital_name_of content) /\
              Str.strip (hospital_name_of content) = hospital_name_of content).
  { unfold hospital_name_of. destruct (re_search content) as [m|] eqn:Hs.
    - destruct (re_search_some _ _ Hs) as (_ & _ & _ & He).
      split; [now apply strip_ends_with_suffix | apply strip_idempotent].
    - split; [|reflexivity].
      exists "Unknown ", "Hospital", "Hospital". split; [now left|]. split; reflexivity. }
  destruct H as [He Hs]. split; [assumption|]. split; [|assumption].
  now apply ends_with_suffix_ci_nonempty.
Qed.

(** X3: parsing a parsed name gives the same name back. *)
Theorem hospital_name_idempotent (content : string) :
  hospital_name_of (hospital_name_of content) = hospital_name_of content.
Proof.
  unfold hospital_name_of at 2 3. destruct (re_search content) as [m|] eqn:Hs;
    [|reflexivity].
  destruct (re_search_some _ _ Hs) as (_ & _ & _ & He).
  destruct (strip_ends_with_suffix m He) as [_ Hstrip].
  destruct (re_search_match_here _ _ Hs) as [s' Hm].
  apply match_here_self, match_here_lstrip in Hm.
  unfold hospital_name_of. rewrite Hstrip.
  destruct (Str.lstrip m) as [|c l] eqn:El.
  - discriminate Hm.
  - cbn [re_search]. rewrite Hm, <- Hstrip. apply strip_idempotent.
Qed.

Section WithCollaborators.
Variable chat_completion : nat -> string -> result (option string).
Variable json_loads : string -> result value.

(** A value that passes an [in] test is truthy. *)
Lemma contains_key_truthy (key : string) (v : value) :
  key <> "" -> contains_key key v = Ok true -> truthy v = true.
Proof.
  intros Hk. destruct v as [| | | |s|l|items]; simpl; try discriminate.
  - destruct s; [|reflexivity]. destruct key; [contradiction|discriminate].
  - destruct l; [discriminate|reflexivity].
  - destruct items; [discriminate|reflexivity].
Qed.

(** X4: parsing always yields a record, and the record carries
    coordinates exactly when the request was answered with a text that
    [json.loads] accepts and whose value passes both [in] tests; the
    coordinates are then that value as it is, whatever its type. *)
Theorem coordinates_stored_iff (call : nat) (content : string)
    (metadata : list (string * value)) (location : string) :
  exists h,
    parse_hospital_from_rag_content chat_completion json_loads call content metadata location
    = Some h /\
    forall coords,
      coordinates h = Some coords <->
      exists text,
        chat_completion call
          (coordinates_prompt (hospital_name_of content)
                              ("123 Healthcare Blvd, " ++ location) location)
        = Ok (Some text) /\
        json_loads (Str.strip text) = Ok coords /\
        contains_key "lat" coords = Ok true /\
        contains_key "lng" coords = Ok true.
Proof.
  destruct (HospitalRagFacts.parse_total chat_completion json_loads call content metadata location)
    as (h & Hp & _ & _ & _ & Hc).
  exists h. split; [exact Hp|]. intros coords. rewrite Hc. clear Hc Hp.
  unfold extract_coordinates_with_openai, coordinates_attempt, try_except, bind.
  destruct (chat_completion call _) as [[text|]|e] eqn:Hchat;
    [destruct (json_loads (Str.strip text)) as [c|e] eqn:Hj;
     [destruct (contains_key "lat" c) as [[]|] eqn:Hlat;
      [destruct (contains_key "lng" c) as [[]|] eqn:Hlng|..]|]|..];
    try (split; [discriminate | intros (text' & Ht & Hj' & Hl' & Hg'); congruence]).
  rewrite (contains_key_truthy "lat" c) by (discriminate || assumption).
  split.
  - intros [= <-]. exists text. repeat split; assumption.
  - intros (text' & Ht & Hj' & _). congruence.
Qed.

(** Everything but the coordinates of a parsed record is fixed by the
    content, the metadata and the location. *)
Lemma parse_fields (call : nat) (content : string) (metadata : list (string * value))
    (location : string) :
  exists h,
    parse_hospital_from_rag_content chat_completion json_loads call content metadata location
    = Some h /\
    (name h, address h, phone h, services h, relevance_score h)
    = (hospital_name_of content, ("123 Healthcare Blvd, " ++ location)%string,
       "(555) 123-4567", [ "Emergency Care"; "Urgent Care"; "General Medicine" ],
       dict_get "relevance_score" metadata (VFloat 0.0)) /\
    (rating h, emergency h, urgent_care h) = (4.2%float, true, true).
Proof.
  unfold parse_hospital_from_rag_content, parse_attempt, try_except, bind.
  cbn [coordinates option_truthy negb address].
  destruct (extract_coordinates_with_openai _ _ call _ _ location) as [c|].
  - destruct (truthy c); eexists; repeat split.
  - eexists; repeat split.
Qed.

(** X21: the hospitals the extraction reports are the same three
    whatever the location, the injury type and the answers of the chat
    service: their names (the location that follows the name in the
    narrative never reaches it), scores, phone, services, rating and
    flags are fixed, the address is the location after a fixed street;
    only the coordinates vary. *)
Theorem rag_hospitals_are_fixed (call : nat) (location injury_type : string) :
  let hospitals :=
    extract_hospital_locations_from_rag chat_completion json_loads call location injury_type in
  map (fun h => (name h, relevance_score h)) hospitals
  = [ ("Regional Medical Center", VFloat 0.95);
      ("City General Hospital", VFloat 0.88);
      ("Emergency Care Center", VFloat 0.82) ] /\
  Forall (fun h =>
            address h = ("123 Healthcare Blvd, " ++ location)%string /\
            phone h = "(555) 123-4567" /\
            services h = [ "Emergency Care"; "Urgent Care"; "General Medicine" ] /\
            rating h = 4.2%float /\ emergency h = true /\ urgent_care h = true)
         hospitals.
Proof.
  cbv zeta. unfold extract_hospital_locations_from_rag, extract_attempt, try_except.
  rewrite HospitalRagFacts.collect_hospitals_from.
  cbn [app mock_rag_results hospitals_from content metadata].
  repeat match goal with
  | |- context [parse_hospital_from_rag_content _ _ ?c ?ct ?md location] =>
      let h := fresh "h" in
      let H := fresh "H" in
      let F := fresh "F" in
      let G := fresh "G" in
      destruct (parse_fields c ct md location) as (h & H & F & G);
      rewrite H; clear H
  end.
  cbn [app map].
  repeat match goal with
  | F : (name ?h, _, _, _, _) = _ |- _ => injection F as ? ? ? ? ?
  end.
  repeat match goal with
  | G : (rating ?h, _, _) = _ |- _ => injection G as ? ? ?
  end.
  split.
  - repeat match goal with H : name _ = _ |- _ => rewrite H; clear H end.
    repeat match goal with H : relevance_score _ = _ |- _ => rewrite H; clear H end.
    reflexivity.
  - repeat constructor; assumption.
Qed.

End WithCollaborators.

End HospitalNameFacts.

(** ** The chat endpoint *)

Module HealthcareChatFacts.
Import Py Guardrail HealthcareChat GuardrailFacts.

Section WithCollaborators.
Variable chat_completion : nat -> string -> string -> result (option string).
Variable float_str : float -> string.
Variable exception_str : raised -> string.

Abbreviation chat := (healthcare_chat chat_completion float_str exception_str).

(** The guardrail step rejects, or lets the query through; it never
    raises. *)
Lemma guardrail_step_cases (q : string) :
  (rejected q /\
   exists msg, guardrail_step q = Ok (inl (mkRejection "assistant" msg "guardrail_rejection" true [])))
  \/ (~ rejected q /\ guardrail_step q = Ok (inr q)).
Proof.
  unfold guardrail_step.
  destruct (validate_healthcare_query q) as [r|e] eqn:H.
  - right. rewrite (validate_returns_input _ _ H). split; [|reflexivity].
    intros Hr. destruct (validate_raises_when_rejected q Hr) as [m Hm]. congruence.
  - left. pose proof (validate_rejected_when_raises q e H) as Hr. split; [assumption|].
    destruct (validate_raises_value_error q e H) as [m ->]. eauto.
Qed.

(** X5: the endpoint never answers with status 400: a request without
    messages gets status 500 (the 400 raised for it is caught by the
    endpoint's own handler and wrapped), no request is made for it, and
    500 is the only error status of the endpoint. *)
Theorem healthcare_chat_no_messages_is_500 (call : nat) (stream : bool) :
  chat call (mkChatRequest [] stream)
  = (HttpError 500 ("Healthcare chat error: " ++
                    exception_str (HTTPException 400 "No messages provided")),
     call) /\
  (forall request status detail call',
     chat call request = (HttpError status detail, call') -> status = 500).
Proof.
  split; [reflexivity|].
  intros request status detail call'. unfold healthcare_chat.
  destruct (chat_attempt _ _ call request) as [[r|e] c]; [discriminate|].
  now intros [= <- _ _].
Qed.

(** X6: on a request with messages, the endpoint answers with a
    guardrail rejection, without any chat-completion request, when the
    guardrail rejects the content of the last message; otherwise it
    makes exactly one request, with the system prompt built from the
    location of that message and with its content as the user query,
    and answers with what the service returned or, when the request
    raises, with status 500. *)
Theorem healthcare_chat_guardrail_first (call : nat) (history : list ChatMessage)
    (user_message : ChatMessage) (stream : bool) :
  let request := mkChatRequest (history ++ [user_message]) stream in
  let q := content user_message in
  (rejected q ->
   exists rejection,
     chat call request = (Respond (Rejected rejection), call) /\
     guardrail_triggered rejection = true /\
     rej_type rejection = "guardrail_rejection" /\
     data_sources rejection = []) /\
  (~ rejected q ->
   match chat_completion call (system_prompt (location_context float_str user_message)) q with
   | Ok assistant_response =>
       exists answer,
         chat call request = (Respond (Answered answer), S call) /\
         ans_content answer = assistant_response /\
         ans_guardrail_triggered answer = false
   | Raise e =>
       chat call request
       = (HttpError 500 ("Healthcare chat error: " ++ exception_str (Other e)), S call)
   end).
Proof.
  cbv zeta. unfold healthcare_chat, chat_attempt. cbn [messages].
  destruct (history ++ [user_message]) as [|first rest] eqn:E.
  { destruct history; discriminate. }
  rewrite <- E, last_last. clear E.
  destruct (guardrail_step_cases (content user_message)) as [[Hr [msg Hs]]|[Hn Hs]]; rewrite Hs.
  - split; [|contradiction]. intros _. eexists. repeat split.
  - split; [contradiction|]. intros _.
    destruct (chat_completion call _ (content user_message)) as [a|e]; [|reflexivity].
    eexists. repeat split.
Qed.

(** X7: the answer depends on the last message only: two requests that
    end with the same message get the same answer, whatever comes before
    it and whatever the [stream] flag says. *)
Theorem healthcare_chat_last_message_only (call : nat)
    (history history' : list ChatMessage) (user_message : ChatMessage)
    (stream stream' : bool) :
  chat call (mkChatRequest (history ++ [user_message]) stream)
  = chat call (mkChatRequest (history' ++ [user_message]) stream').
Proof.
  unfold healthcare_chat, chat_attempt. cbn [messages].
  destruct (history ++ [user_message]) as [|first rest] eqn:E.
  { destruct history; discriminate. }
  destruct (history' ++ [user_message]) as [|first' rest'] eqn:E'.
  { destruct history'; discriminate. }
  rewrite <- E, <- E', !last_last. reflexivity.
Qed.

End WithCollaborators.

(** The theorem at a two-message request whose last message asks for
    the news: rejected, and no request was made. *)
Lemma healthcare_chat_guardrail_first_example :
  exists rejection,
    healthcare_chat Examples.chat_service Examples.float_str Examples.exception_str 0
      (mkChatRequest
         [ mkChatMessage "user" "my ankle hurts" None;
           mkChatMessage "user" "tell me the latest news" None ] true)
    = (Respond (Rejected rejection), 0) /\
    guardrail_triggered rejection = true.
Proof.
  destruct (healthcare_chat_guardrail_first
              Examples.chat_service Examples.float_str Examples.exception_str 0
              [ mkChatMessage "user" "my ankle hurts" None ]
              (mkChatMessage "user" "tell me the latest news" None) true) as [Hrej _].
  destruct Hrej as (rejection & Hr & Ht & _).
  - left. exists "news". split; [|reflexivity]. simpl. tauto.
  - exists rejection. split; [exact Hr | exact Ht].
Defined.

Example healthcare_chat_with_location :
  healthcare_chat Examples.chat_service Examples.float_str Examples.exception_str 0
    (mkChatRequest
       [ mkChatMessage "user" "my ankle hurts"
           (Some (mkLocationData 41.88 (-87.63) (Some "")
                    (Some (mkWeatherData 72 "Sunny" 40 5 3)))) ] true)
  = (Respond (Answered (mkAnswer "assistant" (Some "Please see a doctor.") "healthcare" false
                          [ "OpenAI GPT-3.5"; "Healthcare Knowledge Base" ])), 1) /\
  location_context Examples.float_str
    (mkChatMessage "user" "my ankle hurts"
       (Some (mkLocationData 41.88 (-87.63) (Some "")
                (Some (mkWeatherData 72 "Sunny" 40 5 3)))))
  = ("Location: Unknown | Weather: 72.0" ++ degree ++ "F, Sunny")%string.
Proof. split; reflexivity. Qed.

End HealthcareChatFacts.

(** ** The coordinate patterns *)

Module CoordPatternFacts.
Import JsRun CoordPattern StrFacts.

Lemma all_digits_append (a b : string) :
  all_digits (a ++ b) = all_digits a && all_digits b.
Proof.
  unfold all_digits. induction a as [|c a IH]; simpl; [reflexivity|].
  now rewrite IH, andb_assoc.
Qed.

Section Matcher.
Context {R : Type}.
Implicit Types (k : string -> string -> option R) (p : ascii -> bool).

(** What a matcher hands to its continuation is a split of the text. *)
Lemma optional_sound p s k r :
  optional p s k = Some r ->
  exists m rest, s = (m ++ rest)%string /\
    (m = "" \/ exists c, m = String c "" /\ p c = true) /\ k m rest = Some r.
Proof.
  destruct s as [|c s]; simpl.
  - intros H. exists "", "". auto.
  - destruct (p c) eqn:Hc.
    + destruct (k (String c "") s) as [r'|] eqn:Hk.
      * intros [= <-]. exists (String c ""), s. eauto 6.
      * intros H. exists "", (String c s). auto.
    + intros H. exists "", (String c s). auto.
Qed.

Lemma one_sound p s k r :
  one p s k = Some r ->
  exists c rest, s = String c rest /\ p c = true /\ k (String c "") rest = Some r.
Proof.
  destruct s as [|c s]; simpl; [discriminate|].
  destruct (p c) eqn:Hc; [|discriminate]. eauto.
Qed.

Lemma star_sound p s : forall k r,
  star p s k = Some r ->
  exists m rest, s = (m ++ rest)%string /\
    forallb p (list_ascii_of_string m) = true /\ k m rest = Some r.
Proof.
  induction s as [|c s IH]; intros k r; simpl.
  - intros H. exists "", "". auto.
  - destruct (p c) eqn:Hc.
    + destruct (star p s _) as [r'|] eqn:Hs.
      * intros [= <-]. destruct (IH _ _ Hs) as (m & rest & -> & Hm & Hk).
        exists (String c m), rest. simpl. rewrite Hc. auto.
      * intros H. exists "", (String c s). auto.
    + intros H. exists "", (String c s). auto.
Qed.

Lemma plus_sound p s k r :
  plus p s k = Some r ->
  exists m rest, s = (m ++ rest)%string /\ m <> "" /\
    forallb p (list_ascii_of_string m) = true /\ k m rest = Some r.
Proof.
  destruct s as [|c s]; simpl; [discriminate|].
  destruct (p c) eqn:Hc; [|discriminate].
  intros H. destruct (star_sound _ _ _ _ H) as (m & rest & -> & Hm & Hk).
  exists (String c m), rest. simpl. rewrite Hc. repeat split; auto. discriminate.
Qed.

Lemma number_sound s k r :
  number s k = Some r ->
  exists g rest, s = (g ++ rest)%string /\ is_number g /\ k g rest = Some r.
Proof.
  unfold number. intros H.
  apply optional_sound in H as (sign & s1 & -> & Hsign & H).
  apply plus_sound in H as (int & s2 & -> & Hne & Hint & H).
  apply optional_sound in H as (dot & s3 & -> & Hdot & H).
  apply star_sound in H as (frac & s4 & -> & Hfrac & H).
  exists (sign ++ int ++ dot ++ frac)%string, s4.
  split; [now rewrite !append_assoc|]. split; [|assumption].
  exists sign, int, dot, frac. repeat split; auto.
  - destruct Hsign as [->|(c & -> & Hc)]; [now left|right].
    apply Ascii.eqb_eq in Hc. now subst.
  - destruct Hdot as [->|(c & -> & Hc)]; [now left|right].
    apply Ascii.eqb_eq in Hc. now subst.
Qed.

(** A greedy star stops where the class stops, when what follows
    accepts that. *)
Lemma star_greedy p m rest : forall k r,
  forallb p (list_ascii_of_string m) = true ->
  match rest with EmptyString => true | String c _ => negb (p c) end = true ->
  k m rest = Some r ->
  star p (m ++ rest) k = Some r.
Proof.
  induction m as [|c m IH]; intros k r Hm Hrest Hk; simpl.
  - destruct rest as [|c rest]; simpl; [assumption|].
    apply negb_true_iff in Hrest. now rewrite Hrest.
  - simpl in Hm. apply andb_true_iff in Hm as [Hc Hm].
    rewrite Hc, (IH (fun m' rest' => k (String c m') rest') r Hm Hrest Hk). reflexivity.
Qed.

(** A greedy star gives back one character when what follows refuses
    the whole run and accepts the run without its last character. *)
Lemma star_gives_back p x d : forall k r,
  forallb p (list_ascii_of_string x) = true -> p d = true ->
  k (x ++ String d "")%string "" = None ->
  k x (String d "") = Some r ->
  star p (x ++ String d "") k = Some r.
Proof.
  induction x as [|c x IH]; intros k r Hx Hd Hall Hlast; simpl in *.
  - now rewrite Hd, Hall.
  - simpl in Hx. apply andb_true_iff in Hx as [Hc Hx].
    rewrite Hc, (IH (fun m' rest' => k (String c m') rest') r Hx Hd Hall Hlast). reflexivity.
Qed.

End Matcher.

Lemma stops_digits (rest : string) :
  stops_number rest = true ->
  match rest with EmptyString => true | String c _ => negb (is_digit c) end = true.
Proof. destruct rest; simpl; [trivial|]. now intros [H _]%andb_true_iff. Qed.

(** A digit is neither a minus sign nor a dot nor white space. *)
Lemma digit_only (c : ascii) :
  is_digit c = true -> is_minus c = false /\ is_dot c = false /\ is_space c = false /\
                       is_comma c = false.
Proof.
  destruct c as [[] [] [] [] [] [] [] []]; vm_compute; intros H;
    try discriminate H; repeat split.
Qed.

(** A number followed by something a number cannot go on with is
    matched whole. *)
Lemma number_complete {R} (g rest : string) (k : string -> string -> option R) (r : R) :
  is_number g -> stops_number rest = true -> k g rest = Some r ->
  number (g ++ rest) k = Some r.
Proof.
  intros (sign & int & dot & frac & -> & Hsign & Hint & Hne & Hdot & Hfrac) Hrest Hk.
  (* the integer part is the whole run of digits *)
  assert (Hnorm : exists int' dot' frac',
             (int ++ dot ++ frac = int' ++ dot' ++ frac')%string /\
             all_digits int' = true /\ int' <> "" /\ all_digits frac' = true /\
             (dot' = "." \/ (dot' = "" /\ frac' = ""))).
  { destruct Hdot as [->| ->].
    - exists (int ++ frac)%string, "", "". simpl. rewrite !append_nil_r.
      rewrite all_digits_append, Hint, Hfrac. repeat split; auto.
      destruct int; [contradiction|discriminate].
    - exists int, ".", frac. repeat split; auto. }
  destruct Hnorm as (int' & dot' & frac' & E & Hint' & Hne' & Hfrac' & Hshape).
  rewrite E in *. clear E int dot frac Hint Hne Hdot Hfrac.
  destruct int' as [|d int']; [contradiction|].
  cbn [all_digits list_ascii_of_string forallb] in Hint'.
  apply andb_true_iff in Hint' as [Hd Hint'].
  destruct (digit_only d Hd) as (Hminus & _).
  (* from the integer part on *)
  assert (Hbody :
    plus is_digit (String d int' ++ dot' ++ frac' ++ rest)%string (fun int s2 =>
      optional is_dot s2 (fun dot s3 =>
      star is_digit s3 (fun frac s4 => k (sign ++ int ++ dot ++ frac)%string s4)))
    = Some r).
  { cbn [append plus]. rewrite Hd.
    apply star_greedy; [exact Hint'| |].
    - destruct Hshape as [->|[-> ->]]; [reflexivity|]. now apply stops_digits.
    - destruct Hshape as [->|[-> ->]].
      + cbn [append optional]. change (is_dot ".") with true. cbn match.
        rewrite (star_greedy is_digit frac' rest _ r Hfrac' (stops_digits _ Hrest) Hk).
        reflexivity.
      + cbn [append]. destruct rest as [|c rest]; cbn [optional star].
        * exact Hk.
        * cbn [stops_number] in Hrest. apply andb_true_iff in Hrest as [Hc1 Hc2].
          apply negb_true_iff in Hc1, Hc2. rewrite Hc1, Hc2. exact Hk. }
  unfold number. rewrite !append_assoc.
  destruct Hsign as [->| ->].
  - cbn [append optional] in *. now rewrite Hminus.
  - cbn [append optional] in *. change (is_minus "-") with true. cbn match.
    now rewrite Hbody.
Qed.

(** What either pattern matches is a number, a comma (which the
    hospital-locations pattern lets out), white space and a number; the
    groups are the two numbers. *)
Lemma coord_match_sound (comma_optional : bool) (s group1 group2 : string) :
  coord_match comma_optional s = Some (group1, group2) ->
  exists comma spaces,
    s = (group1 ++ comma ++ spaces ++ group2)%string /\
    is_number group1 /\ is_number group2 /\
    (comma = "," \/ (comma_optional = true /\ comma = "")) /\
    all_spaces spaces = true.
Proof.
  unfold coord_match. intros H.
  apply number_sound in H as (g1 & s1 & -> & Hg1 & H).
  assert (Hcomma : exists comma s2,
            s1 = (comma ++ s2)%string /\
            (comma = "," \/ (comma_optional = true /\ comma = "")) /\
            star is_space s2 (fun _ s3 =>
              number s3 (fun g2 s4 =>
                if Str.is_empty s4 then Some (g1, g2) else None))
            = Some (group1, group2)).
  { destruct comma_optional.
    - apply optional_sound in H as (m & rest & -> & Hm & H).
      exists m, rest. split; [reflexivity|]. split; [|assumption].
      destruct Hm as [->|(c & -> & Hc)]; [now right|left].
      apply Ascii.eqb_eq in Hc. now subst.
    - apply one_sound in H as (c & rest & -> & Hc & H).
      exists (String c ""), rest. split; [reflexivity|]. split; [|assumption].
      left. apply Ascii.eqb_eq in Hc. now subst. }
  destruct Hcomma as (comma & s2 & -> & Hcomma & H').
  apply star_sound in H' as (spaces & s3 & -> & Hsp & H').
  apply number_sound in H' as (g2 & s4 & -> & Hg2 & H').
  destruct s4; [|discriminate]. injection H' as <- <-.
  exists comma, spaces. rewrite append_nil_r. auto.
Qed.

(** A number, a comma, white space, a number: both patterns match it,
    and the groups are the two numbers. *)
Lemma coord_match_complete (comma_optional : bool) (group1 spaces group2 : string) :
  is_number group1 -> is_number group2 -> all_spaces spaces = true ->
  coord_match comma_optional (group1 ++ "," ++ spaces ++ group2) = Some (group1, group2).
Proof.
  intros H1 H2 Hsp. unfold coord_match.
  apply number_complete; [assumption|reflexivity|].
  assert (Hrest : star is_space (spaces ++ group2)
                    (fun _ s3 => number s3 (fun g2 s4 =>
                       if Str.is_empty s4 then Some (group1, g2) else None))
                  = Some (group1, group2)).
  { pose proof (append_nil_r group2) as E.
    apply star_greedy; [exact Hsp| |].
    - destruct H2 as (sign & int & dot & frac & -> & Hsign & Hint & Hne & _).
      destruct Hsign as [->| ->]; [|reflexivity].
      destruct int as [|d int]; [contradiction|].
      cbn [all_digits list_ascii_of_string forallb] in Hint.
      apply andb_true_iff in Hint as [Hd _].
      destruct (digit_only d Hd) as (_ & _ & Hs & _). cbn. now rewrite Hs.
    - rewrite <- E at 1. now apply number_complete. }
  destruct comma_optional; cbn [append optional one];
    change (is_comma ",") with true; cbn match; now rewrite Hrest.
Qed.

(** A text of two digits or more, and nothing else: the
    hospital-locations pattern matches it, with the last digit as the
    second group; the geocode pattern does not. *)
Lemma coord_match_digits (x : string) (d : ascii) :
  all_digits x = true -> x <> "" -> is_digit d = true ->
  coord_match true (x ++ String d "") = Some (x, String d "") /\
  coord_match false (x ++ String d "") = None.
Proof.
  intros Hx Hne Hd. split.
  - destruct x as [|c x]; [contradiction|].
    cbn [all_digits list_ascii_of_string forallb] in Hx.
    apply andb_true_iff in Hx as [Hc Hx].
    destruct (digit_only c Hc) as (Hcm & _).
    destruct (digit_only d Hd) as (Hdm & Hdd & Hds & Hdc).
    unfold coord_match, number. cbn [append optional plus]. rewrite Hcm, Hc.
    apply star_gives_back; [exact Hx|exact Hd| |].
    + (* the whole run as the integer part: no second number is left *)
      reflexivity.
    + (* the run without its last digit *)
      cbn [optional star plus append].
      rewrite ?Hdd, ?Hd, ?Hdc, ?Hds, ?Hdm. cbn [Str.is_empty].
      now rewrite append_nil_r.
  - destruct (coord_match false (x ++ String d "")) as [[g1 g2]|] eqn:H; [exfalso|reflexivity].
    apply coord_match_sound in H as (comma & spaces & E & _ & _ & [->|[? _]] & _);
      [|discriminate].
    assert (Hall : all_digits (x ++ String d "") = true).
    { rewrite all_digits_append, Hx. cbn. now rewrite Hd. }
    rewrite E, !all_digits_append in Hall. cbn in Hall.
    now rewrite andb_false_r in Hall.
Qed.

(** X8: the two coordinate patterns accept only a number, a comma
    (which the hospital-locations pattern lets out), white space and a
    number, with the two numbers as their groups; and they accept every
    text written as a number, a comma, white space and a number. *)
Theorem coordinate_patterns_characterised :
  (forall comma_optional s group1 group2,
     coord_match comma_optional s = Some (group1, group2) ->
     exists comma spaces,
       s = (group1 ++ comma ++ spaces ++ group2)%string /\
       is_number group1 /\ is_number group2 /\
       (comma = "," \/ (comma_optional = true /\ comma = "")) /\
       all_spaces spaces = true) /\
  (forall comma_optional group1 spaces group2,
     is_number group1 -> is_number group2 -> all_spaces spaces = true ->
     coord_match comma_optional (group1 ++ "," ++ spaces ++ group2)
     = Some (group1, group2)).
Proof.
  split.
  - apply coord_match_sound.
  - apply coord_match_complete.
Qed.

(** The theorem at [-12.5,  7]. *)
Lemma coordinate_patterns_characterised_example :
  coord_match false "-12.5,  7" = Some ("-12.5", "7").
Proof.
  apply (proj2 coordinate_patterns_characterised false "-12.5" "  " "7").
  - exists "-", "12", ".", "5". repeat split; auto. discriminate.
  - exists "", "7", "", "". repeat split; auto. discriminate.
  - reflexivity.
Defined.

Example coord_match_trailing_dot :
  coord_match true "12.5" = Some ("12.", "5") /\ coord_match false "12.5" = None.
Proof. split; reflexivity. Qed.

End CoordPatternFacts.

(** ** JavaScript text *)

Module JsTextFacts.
Import JsRun CoordPattern StrFacts.

Lemma trimStart_blank (s : string) : all_spaces s = true -> trimStart s = "".
Proof.
  unfold all_spaces. induction s as [|c s IH]; simpl; [reflexivity|].
  intros [Hc Hs]%andb_true_iff. rewrite Hc. auto.
Qed.

Lemma trim_blank (s : string) : all_spaces s = true -> trim s = "".
Proof. intros H. unfold trim. now rewrite trimStart_blank. Qed.

(** A text whose first character is not white space keeps it. *)
Lemma trim_nonempty (c : ascii) (s : string) :
  is_space c = false -> Str.is_empty (trim (String c s)) = false.
Proof.
  intros Hc. unfold trim. cbn [trimStart]. rewrite Hc. cbn [trimEnd]. now rewrite Hc.
Qed.

(** A number starts with a character that is not white space. *)
Lemma number_starts (g rest : string) :
  is_number g ->
  exists c s, (g ++ rest)%string = String c s /\ is_space c = false.
Proof.
  intros (sign & int & dot & frac & -> & Hsign & Hint & Hne & _).
  destruct Hsign as [->| ->].
  - destruct int as [|d int]; [contradiction|].
    cbn [all_digits list_ascii_of_string forallb] in Hint.
    apply andb_true_iff in Hint as [Hd _].
    destruct (CoordPatternFacts.digit_only d Hd) as (_ & _ & Hs & _).
    simpl. eauto.
  - simpl. eexists _, _. split; reflexivity.
Qed.

End JsTextFacts.

(** ** The geocode route *)

Module GeocodeRouteFacts.
Import Js JsRun CoordPattern GeocodeRoute StrFacts CoordPatternFacts JsTextFacts.

Section WithServices.
Variable js : Builtins.
Variable NEXT_PUBLIC_OPENCAGE_API_KEY : option string.
Variable OPENCAGE_API_KEY : option string.
Variable opencage : string -> string -> fetched.
Variable nominatim : string -> fetched.

Abbreviation route :=
  (POST js NEXT_PUBLIC_OPENCAGE_API_KEY OPENCAGE_API_KEY opencage nominatim).

Lemma handle_text (fields : list (string * value)) (location : string) :
  lookup "location" fields = Text location ->
  Str.is_empty (trim location) = false ->
  handle js NEXT_PUBLIC_OPENCAGE_API_KEY OPENCAGE_API_KEY opencage nominatim
         (Some (Obj fields))
  = match coord_match false location with
    | Some (group1, group2) =>
        let lat := parseFloat js (Text group1) in
        let lng := parseFloat js (Text group2) in
        if in_range lat lng
        then
          let pair := (toFixed4 js lat ++ ", " ++ toFixed4 js lng)%string in
          Normal (mkResponse 200
                    (Located (Num lat) (Num lng) (Text pair)
                             (Text ("Coordinates: " ++ pair))))
        else Normal invalid_coordinates
    | None =>
        Normal (lookup_services js NEXT_PUBLIC_OPENCAGE_API_KEY OPENCAGE_API_KEY
                                opencage nominatim location)
    end.
Proof.
  intros Hl Ht. unfold handle. cbn [json bind get lift]. rewrite Hl.
  cbn [truthy]. destruct location as [|c location]; [discriminate Ht|].
  cbn [Str.is_empty negb]. now rewrite Ht.
Qed.

(** X9: the route answers a request without a usable location before it
    asks anything of a service: status 400 when the location is
    missing, falsy or only white space; status 500 when the body is not
    JSON, is [null], or carries a location that is not a string. *)
Theorem geocode_rejects_unusable_location :
  (forall fields,
     truthy (lookup "location" fields) = false ->
     route (Some (Obj fields)) = required) /\
  (forall fields location,
     lookup "location" fields = Text location -> all_spaces location = true ->
     route (Some (Obj fields)) = required) /\
  (forall fields,
     truthy (lookup "location" fields) = true ->
     (forall location, lookup "location" fields <> Text location) ->
     route (Some (Obj fields)) = failed) /\
  route None = failed /\
  route (Some Null) = failed.
Proof.
  repeat split.
  - intros fields H. unfold POST, handle. cbn [json bind get lift]. now rewrite H.
  - intros fields location Hl Hb. unfold POST, handle. cbn [json bind get lift].
    rewrite Hl. cbn [truthy]. destruct location; [reflexivity|].
    cbn [Str.is_empty negb]. now rewrite (trim_blank _ Hb).
  - intros fields Ht Hn. unfold POST, handle. cbn [json bind get lift]. rewrite Ht.
    cbn [negb]. destruct (lookup "location" fields); try reflexivity.
    now destruct (Hn s).
Qed.

(** X10: a location written as a number, a comma, optional white space
    and a number is answered from the text alone, whatever the services
    would say: with the two parsed numbers and status 200 when they are
    a latitude and a longitude, with status 400 when they are not. *)
Theorem geocode_answers_coordinates_itself
    (fields : list (string * value)) (group1 spaces group2 : string) :
  lookup "location" fields = Text (group1 ++ "," ++ spaces ++ group2) ->
  is_number group1 -> is_number group2 -> all_spaces spaces = true ->
  let lat := parseFloat js (Text group1) in
  let lng := parseFloat js (Text group2) in
  let pair := (toFixed4 js lat ++ ", " ++ toFixed4 js lng)%string in
  route (Some (Obj fields))
  = if in_range lat lng
    then mkResponse 200 (Located (Num lat) (Num lng) (Text pair)
                                 (Text ("Coordinates: " ++ pair)))
    else invalid_coordinates.
Proof.
  intros Hl H1 H2 Hsp. cbv zeta. unfold POST.
  destruct (number_starts group1 ("," ++ spaces ++ group2) H1) as (c & s & E & Hc).
  rewrite (handle_text fields _ Hl) by (rewrite E; now apply trim_nonempty).
  rewrite (coord_match_complete false _ _ _ H1 H2 Hsp). cbv zeta.
  now destruct (in_range _ _).
Qed.

Lemma first_mentioned_none (locationKey : string) entries :
  (forall key coords, In (key, coords) entries -> Str.contains key locationKey = false) ->
  first_mentioned locationKey entries = None.
Proof.
  induction entries as [|[key coords] rest IH]; intros H; simpl; [reflexivity|].
  rewrite (H key coords) by now left. apply IH. intros k c Hin. apply (H k c). now right.
Qed.

Lemma first_mentioned_first (locationKey : string) earlier key coords later :
  (forall k c, In (k, c) earlier -> Str.contains k locationKey = false) ->
  Str.contains key locationKey = true ->
  first_mentioned locationKey (earlier ++ (key, coords) :: later) = Some coords.
Proof.
  induction earlier as [|[k c] rest IH]; intros H Hk; simpl.
  - now rewrite Hk.
  - rewrite (H k c) by now left. apply IH; [|assumption].
    intros k' c' Hin. apply (H k' c'). now right.
Qed.

Lemma unavailable_attempts (location : string) :
  (forall key, Deployment.unavailable (opencage location key)) ->
  Deployment.unavailable (nominatim location) ->
  lookup_services js NEXT_PUBLIC_OPENCAGE_API_KEY OPENCAGE_API_KEY opencage nominatim location
  = fallback location.
Proof.
  intros Ho Hn. unfold lookup_services.
  assert (Hoc : forall key,
             match opencage_attempt js opencage location key with
             | Normal found => found
             | Throw _ => None
             end = None).
  { intros key. unfold opencage_attempt.
    destruct (Ho key) as [-> | [b ->]]; reflexivity. }
  assert (Hnm : match nominatim_attempt js nominatim location with
                | Normal (Some response) => response
                | _ => fallback location
                end = fallback location).
  { unfold nominatim_attempt. destruct Hn as [-> | [b ->]]; reflexivity. }
  destruct (if env_truthy NEXT_PUBLIC_OPENCAGE_API_KEY
            then NEXT_PUBLIC_OPENCAGE_API_KEY else OPENCAGE_API_KEY) as [k|].
  - destruct (negb (Str.is_empty k)); [rewrite Hoc|]; exact Hnm.
  - exact Hnm.
Qed.

(** X11: when neither service can be used, a location that is not a
    coordinate pair is looked up in the table of ten cities, letter case
    ignored: the first city, in the order of the table, whose name
    occurs in the location gives the answer, marked approximate; when
    none occurs the status is 404. *)
Theorem geocode_falls_back_to_first_city
    (fields : list (string * value)) (location : string) :
  lookup "location" fields = Text location ->
  Str.is_empty (trim location) = false ->
  coord_match false location = None ->
  (forall key, Deployment.unavailable (opencage location key)) ->
  Deployment.unavailable (nominatim location) ->
  (forall earlier key lat lng name later,
     commonLocations = earlier ++ (key, (lat, lng, name)) :: later ->
     Str.contains key (Str.lower location) = true ->
     (forall k c, In (k, c) earlier -> Str.contains k (Str.lower location) = false) ->
     route (Some (Obj fields))
     = mkResponse 200 (Located (Num lat) (Num lng) (Text name)
                               (Text (name ++ " (approximate)")))) /\
  ((forall key coords, In (key, coords) commonLocations ->
      Str.contains key (Str.lower location) = false) ->
   route (Some (Obj fields)) = not_found location /\
   status (route (Some (Obj fields))) = 404).
Proof.
  intros Hl Ht Hm Ho Hn. unfold POST.
  rewrite (handle_text fields _ Hl Ht), Hm, (unavailable_attempts _ Ho Hn).
  unfold fallback. split.
  - intros earlier key lat lng name later E Hk He.
    now rewrite E, (first_mentioned_first _ _ _ _ _ He Hk).
  - intros Hnone. now rewrite (first_mentioned_none _ _ Hnone).
Qed.

End WithServices.

(** The theorem at [34.05, -118.24]. *)
Lemma geocode_answers_coordinates_itself_example :
  POST Examples.engine None None Examples.down2 Examples.down1
       (Some (Obj [ ("location", Text "34.05, -118.24") ]))
  = mkResponse 200 (Located (Num 34.05) (Num (-118.24)) (Text "34.0500, -118.2400")
                            (Text "Coordinates: 34.0500, -118.2400")).
Proof.
  apply (geocode_answers_coordinates_itself Examples.engine None None
           Examples.down2 Examples.down1
           [ ("location", Text "34.05, -118.24") ] "34.05" " " "-118.24").
  - reflexivity.
  - exists "", "34", ".", "05". repeat split; auto. discriminate.
  - exists "-", "118", ".", "24". repeat split; auto. discriminate.
  - reflexivity.
Defined.

(** The theorem at a location that names two cities of the table: the
    one that comes first in the table wins, not the one that comes first
    in the location. *)
Lemma geocode_falls_back_to_first_city_example :
  POST Examples.engine None None Examples.down2 Examples.down1
       (Some (Obj [ ("location", Text "From New York to Los Angeles") ]))
  = mkResponse 200 (Located (Num 34.0522) (Num (-118.2437)) (Text "Los Angeles, CA, USA")
                            (Text "Los Angeles, CA, USA (approximate)")).
Proof.
  refine (proj1 (geocode_falls_back_to_first_city Examples.engine None None
                   Examples.down2 Examples.down1
                   [ ("location", Text "From New York to Los Angeles") ]
                   "From New York to Los Angeles"
                   eq_refl eq_refl eq_refl _ _)
                [] "los angeles" _ _ _ _ eq_refl eq_refl _).
  - intros key. now left.
  - now left.
  - intros k c [].
Defined.

End GeocodeRouteFacts.

(** ** Geocoding in the hospital-locations route *)

Module GeocodingFacts.
Import Js JsRun CoordPattern Geocoding StrFacts CoordPatternFacts JsTextFacts.

Lemma pair_text_append (a b : string) : pair_text (a ++ b) = pair_text a && pair_text b.
Proof.
  unfold pair_text. induction a as [|c a IH]; simpl; [reflexivity|].
  now rewrite IH, andb_assoc.
Qed.

Lemma forallb_weaken (p q : ascii -> bool) (s : string) :
  (forall c, p c = true -> q c = true) ->
  forallb p (list_ascii_of_string s) = true -> forallb q (list_ascii_of_string s) = true.
Proof.
  intros Hpq. induction s as [|c s IH]; simpl; [trivial|].
  intros [Hc Hs]%andb_true_iff. now rewrite (Hpq c Hc), IH.
Qed.

Lemma digits_pair_text (s : string) : all_digits s = true -> pair_text s = true.
Proof. apply forallb_weaken. intros c H. unfold pair_char. now rewrite H. Qed.

Lemma spaces_pair_text (s : string) : all_spaces s = true -> pair_text s = true.
Proof.
  apply forallb_weaken. intros c H. unfold pair_char. rewrite H. now rewrite !orb_true_r.
Qed.

Lemma number_pair_text (g : string) : is_number g -> pair_text g = true.
Proof.
  intros (sign & int & dot & frac & -> & Hsign & Hint & _ & Hdot & Hfrac).
  rewrite !pair_text_append, (digits_pair_text _ Hint), (digits_pair_text _ Hfrac).
  destruct Hsign as [->| ->], Hdot as [->| ->]; reflexivity.
Qed.

Lemma coord_match_pair_text (comma_optional : bool) (s : string) (groups : string * string) :
  coord_match comma_optional s = Some groups -> pair_text s = true.
Proof.
  destruct groups as [g1 g2]. intros H.
  apply coord_match_sound in H as (comma & spaces & -> & H1 & H2 & Hc & Hs).
  rewrite !pair_text_append, (number_pair_text _ H1), (number_pair_text _ H2),
    (spaces_pair_text _ Hs).
  destruct Hc as [->|[_ ->]]; reflexivity.
Qed.

Lemma pair_char_no_letter (c : ascii) :
  pair_char c = true -> is_letter (Str.lower_char c) = false.
Proof.
  destruct c as [[] [] [] [] [] [] [] []]; vm_compute; intros H;
    try discriminate H; reflexivity.
Qed.

Lemma pair_text_no_letter (s : string) :
  pair_text s = true -> has_letter (Str.lower s) = false.
Proof.
  unfold pair_text, has_letter. induction s as [|c s IH]; simpl; [trivial|].
  intros [Hc Hs]%andb_true_iff. now rewrite (pair_char_no_letter c Hc), IH.
Qed.

Lemma has_letter_trimStart (s : string) :
  has_letter (trimStart s) = true -> has_letter s = true.
Proof.
  unfold has_letter. induction s as [|c s IH]; simpl; [trivial|].
  destruct (is_space c); [|trivial]. intros H. rewrite (IH H). apply orb_true_r.
Qed.

Lemma has_letter_trimEnd (s : string) :
  has_letter (trimEnd s) = true -> has_letter s = true.
Proof.
  unfold has_letter. induction s as [|c s IH]; simpl; [trivial|].
  destruct (is_space c && Str.is_empty (trimEnd s)); simpl; [discriminate|].
  intros [H|H]%orb_true_iff; [now rewrite H|]. rewrite (IH H). apply orb_true_r.
Qed.

Lemma has_letter_trim (s : string) : has_letter (trim s) = true -> has_letter s = true.
Proof. intros H. now apply has_letter_trimStart, has_letter_trimEnd. Qed.

(** Every name of the table has a letter in it. *)
Lemma own_entry_has_letter (key : string) (coords : float * float) :
  own_entry key commonLocations = Some coords -> has_letter key = true.
Proof.
  unfold commonLocations. cbn [own_entry].
  repeat match goal with
  | |- context [String.eqb ?k key] =>
      destruct (String.eqb_spec k key) as [<-|_]; [intros _; reflexivity|]
  end.
  discriminate.
Qed.

Section WithServices.
Variable js : Builtins.
Variable geocode_service : caller -> value -> fetched.

Abbreviation geocode := (geocodeAddress js geocode_service).

(** A table name, in any letter case and with white space around it, is
    not a coordinate pair. *)
Lemma table_name_not_typed (address : string) (coords : float * float) :
  own_entry (trim (Str.lower address)) commonLocations = Some coords ->
  typed_coordinates js address = None.
Proof.
  intros H. apply own_entry_has_letter, has_letter_trim in H.
  unfold typed_coordinates.
  destruct (coord_match true address) as [groups|] eqn:Hm; [|reflexivity].
  apply coord_match_pair_text, pair_text_no_letter in Hm. congruence.
Qed.

(** What the text or the table gives can be added to. *)
Lemma local_coordinates_printable (address : string) (coords : Coordinates) :
  match typed_coordinates js address with
  | Some typed => Some typed
  | None => table_entry (trim (Str.lower address))
  end = Some coords ->
  printable (lat coords) = true /\ printable (lng coords) = true.
Proof.
  unfold typed_coordinates, table_entry.
  destruct (coord_match true address) as [[g1 g2]|].
  - destruct (in_range _ _); [intros [= <-]; split; reflexivity|].
    destruct (own_entry _ commonLocations) as [[a b]|]; [intros [= <-]; split; reflexivity|].
    destruct (includes _ inherited_names); [intros [= <-]; split; reflexivity|discriminate].
  - destruct (own_entry _ commonLocations) as [[a b]|]; [intros [= <-]; split; reflexivity|].
    destruct (includes _ inherited_names); [intros [= <-]; split; reflexivity|discriminate].
Qed.

(** X12: an address that is nothing but digits, two or more, is taken
    for a coordinate pair: the last digit is read as the longitude and
    the digits before it as the latitude, and when these are in range
    they are the result, without any request to the geocode service. *)
Theorem geocodeAddress_reads_number_as_pair
    (who : caller) (digits : string) (last : ascii) :
  all_digits digits = true -> digits <> "" -> is_digit last = true ->
  let lat := parseFloat js (Text digits) in
  let lng := parseFloat js (Text (String last "")) in
  in_range lat lng = true ->
  geocode who (Text (digits ++ String last ""))
  = Normal (Some (mkCoordinates (Num lat) (Num lng))).
Proof.
  intros Hd Hne Hl lat lng Hr. unfold geocodeAddress, typed_coordinates.
  rewrite (proj1 (coord_match_digits digits last Hd Hne Hl)).
  fold lat lng. now rewrite Hr.
Qed.

(** X13: when the geocode service gives no coordinates, an address
    that is one of the twenty names of the table, in any letter case
    and with any white space around it, gets the coordinates of that
    name. *)
Theorem geocodeAddress_table_ignores_case_and_space
    (who : caller) (address : string) (lat lng : float) :
  own_entry (trim (Str.lower address)) commonLocations = Some (lat, lng) ->
  (forall coords, server_side geocode_service who address <> Normal (Some coords)) ->
  geocode who (Text address) = Normal (Some (mkCoordinates (Num lat) (Num lng))).
Proof.
  intros Hk Hs. unfold geocodeAddress.
  rewrite (table_name_not_typed _ _ Hk).
  unfold table_entry. rewrite Hk.
  destruct (server_side geocode_service who address) as [[c|]|e]; try reflexivity.
  now destruct (Hs c).
Qed.

End WithServices.

Section WithGeocodeRoute.
Variable js route_js : Builtins.
Variable NEXT_PUBLIC_OPENCAGE_API_KEY : option string.
Variable OPENCAGE_API_KEY : option string.
Variable opencage : string -> string -> fetched.
Variable nominatim : string -> fetched.
Variable encode_body : GeocodeRoute.Body -> value.

Abbreviation by_route :=
  (Deployment.geocode_service route_js NEXT_PUBLIC_OPENCAGE_API_KEY OPENCAGE_API_KEY
                              opencage nominatim encode_body).

(** The geocode route refuses what [geocodeAddress] sends it. *)
Lemma server_side_by_route (who : caller) (address : string) :
  server_side by_route who address = Normal None.
Proof. reflexivity. Qed.

Lemma geocodeAddress_local (who : caller) (address : string) :
  by_route who (Obj [ ("address", Text address) ])
  = GeocodeRoute.served encode_body GeocodeRoute.required /\
  geocodeAddress js by_route who (Text address)
  = Normal match typed_coordinates js address with
           | Some coords => Some coords
           | None => table_entry (trim (Str.lower address))
           end.
Proof.
  split; [reflexivity|].
  unfold geocodeAddress. rewrite server_side_by_route.
  now destruct (typed_coordinates js address).
Qed.

(** X14: with the application's own geocode route as the geocode
    service, the request of [geocodeAddress] is always refused with
    status 400, because it sends the address under the name [address]
    and the route reads [location]; the result is what the text and the
    table give, and the geocoding services are never reached. *)
Theorem geocodeAddress_by_route_is_local (who : caller) (address : string) :
  by_route who (Obj [ ("address", Text address) ])
  = GeocodeRoute.served encode_body GeocodeRoute.required /\
  geocodeAddress js by_route who (Text address)
  = Normal match typed_coordinates js address with
           | Some coords => Some coords
           | None => table_entry (trim (Str.lower address))
           end.
Proof. apply geocodeAddress_local. Qed.

End WithGeocodeRoute.

(** The theorem at the address [45]. *)
Lemma geocodeAddress_reads_number_as_pair_example :
  geocodeAddress Examples.engine Examples.geocode_down ForMock (Text "45")
  = Normal (Some (mkCoordinates (Num 4) (Num 5))).
Proof.
  apply (geocodeAddress_reads_number_as_pair Examples.engine Examples.geocode_down
           ForMock "4" "5"); (reflexivity || discriminate).
Defined.

(** The theorem at [  Chicago, IL ], with the geocode service down. *)
Lemma geocodeAddress_table_ignores_case_and_space_example :
  geocodeAddress Examples.engine Examples.geocode_down ForMock (Text "  Chicago, IL ")
  = Normal (Some (mkCoordinates (Num 41.8781) (Num (-87.6298)))).
Proof.
  apply (geocodeAddress_table_ignores_case_and_space Examples.engine Examples.geocode_down
           ForMock "  Chicago, IL ").
  - reflexivity.
  - intros coords. discriminate.
Defined.

(** The one table lookup that is not a city: a name every object
    inherits. *)
Example geocodeAddress_inherited_name :
  geocodeAddress Examples.engine Examples.geocode_down ForMock (Text " Constructor ")
  = Normal (Some (mkCoordinates Undefined Undefined)).
Proof. reflexivity. Qed.

End GeocodingFacts.

(** ** The mock generator *)

Module MockHospitalsFacts.
Import Js JsRun Geocoding MockHospitals HospitalLocations.

Section WithServices.
Variable js : Builtins.
Variable geocode_service : caller -> value -> fetched.
Variable random : nat -> float.

Abbreviation generate := (generateLocationAwareMockHospitals js geocode_service random).

Lemma plus_printable (v : value) (x : float) :
  printable v = true -> exists sum, plus js v x = Normal sum.
Proof.
  intros H. destruct v; cbn [plus]; unfold convert; rewrite ?H; eauto.
Qed.

(** One turn of the loop: the id and the name it gives. *)
Lemma mock_hospital_id_name (searchLocation : string) (baseCoords : Coordinates)
    (i : nat) (template : Template) (h : Hospital) :
  mock_hospital js random searchLocation baseCoords i template = Normal h ->
  id h = Text ("mock-hospital-" ++ counter_text i) /\
  name h = Text (trim (before "," searchLocation) ++ " " ++ nameTemplate template).
Proof.
  unfold mock_hospital.
  destruct (plus js (Geocoding.lat baseCoords) _) as [hospitalLat|]; cbn [bind];
    [|discriminate].
  destruct (plus js (Geocoding.lng baseCoords) _) as [hospitalLng|]; cbn [bind];
    [|discriminate].
  intros [= <-]. split; reflexivity.
Qed.

(** One hospital per template, numbered in order. *)
Lemma mock_hospitals_from_shape (searchLocation : string) (baseCoords : Coordinates)
    (templates : list Template) :
  forall i hospitals,
    mock_hospitals_from js random searchLocation baseCoords i templates = Normal hospitals ->
    map id hospitals
    = map (fun i => Text ("mock-hospital-" ++ counter_text i))
          (seq i (List.length templates)) /\
    map name hospitals
    = map (fun template =>
             Text (trim (before "," searchLocation) ++ " " ++ nameTemplate template))
          templates.
Proof.
  induction templates as [|template rest IH]; intros i hospitals; cbn [mock_hospitals_from].
  - intros [= <-]. split; reflexivity.
  - destruct (mock_hospital js random searchLocation baseCoords i template) as [h|] eqn:Hh;
      cbn [bind]; [|discriminate].
    destruct (mock_hospitals_from js random searchLocation baseCoords (S i) rest)
      as [others|] eqn:Ho; cbn [bind]; [|discriminate].
    intros [= <-]. destruct (mock_hospital_id_name _ _ _ _ _ Hh) as [Hid Hname].
    destruct (IH _ _ Ho) as [Hids Hnames].
    cbn [map List.length seq]. now rewrite Hid, Hname, Hids, Hnames.
Qed.

(** Around coordinates that can be added to, the loop returns. *)
Lemma mock_hospitals_from_returns (searchLocation : string) (baseCoords : Coordinates)
    (templates : list Template) :
  printable (Geocoding.lat baseCoords) = true ->
  printable (Geocoding.lng baseCoords) = true ->
  forall i, exists hospitals,
    mock_hospitals_from js random searchLocation baseCoords i templates = Normal hospitals.
Proof.
  intros Hlat Hlng. induction templates as [|template rest IH]; intros i;
    cbn [mock_hospitals_from]; [eauto|].
  unfold mock_hospital.
  destruct (plus_printable _ ((random (8 * i + 0) - 0.5) * 0.4)%float Hlat) as [a ->].
  destruct (plus_printable _ ((random (8 * i + 1) - 0.5) * 0.4)%float Hlng) as [b ->].
  destruct (IH (S i)) as [others ->]. cbn [bind]. eauto.
Qed.

(** X15: the generator produces hospitals only around coordinates it
    obtained by geocoding: when geocoding gives [null] it throws (the
    default to Los Angeles is an assignment to a property of [null]);
    when it returns, geocoding gave coordinates and there are eight
    hospitals, numbered from 0 to 7 and named after the part of the
    location before its first comma. *)
Theorem mock_hospitals_need_coordinates (searchLocation : value) :
  (geocodeAddress js geocode_service ForMock searchLocation = Normal None ->
   generate searchLocation = Throw TypeError) /\
  (forall hospitals,
     generate searchLocation = Normal hospitals ->
     exists location baseCoords,
       searchLocation = Text location /\
       geocodeAddress js geocode_service ForMock searchLocation = Normal (Some baseCoords) /\
       List.length hospitals = 8 /\
       map id hospitals
       = map (fun i => Text ("mock-hospital-" ++ counter_text i)) (seq 0 8) /\
       map name hospitals
       = map (fun template =>
                Text (trim (before "," location) ++ " " ++ nameTemplate template))
             hospitalTemplates).
Proof.
  unfold generateLocationAwareMockHospitals. split.
  - intros ->. reflexivity.
  - intros hospitals.
    destruct (geocodeAddress js geocode_service ForMock searchLocation) as [[base|]|e];
      cbn [bind]; try discriminate.
    destruct searchLocation as [| | | |location| |]; try discriminate.
    intros H. exists location, base.
    destruct (mock_hospitals_from_shape _ _ _ _ _ H) as [Hid Hname].
    repeat split; try assumption.
    rewrite <- (length_map id), Hid, length_map. reflexivity.
Qed.

End WithServices.

(** The theorem at a place no one knows, with the geocode service
    down: the generator throws. *)
Lemma mock_hospitals_need_coordinates_example :
  generateLocationAwareMockHospitals Examples.engine Examples.geocode_down (fun _ => 0%float)
    (Text "Springfield")
  = Throw TypeError.
Proof.
  apply (mock_hospitals_need_coordinates Examples.engine Examples.geocode_down
           (fun _ => 0%float) (Text "Springfield")).
  reflexivity.
Defined.

Example mock_hospital_for_chicago :
  option_map (fun h => (name h, address h, phone h, emergency h, urgentCare h))
    (match generateLocationAwareMockHospitals Examples.engine Examples.geocode_down
             (fun _ => 0%float) (Text "Chicago, IL") with
     | Normal hospitals => nth_error hospitals 4
     | Throw _ => None
     end)
  = Some (Text "Chicago Urgent Care Center", Text "100 Medical Blvd, Chicago, IL",
          Text "(200) 200-1000", Bool false, Bool true).
Proof. reflexivity. Qed.

End MockHospitalsFacts.

(** ** The backend's answer in the route *)

Module WireFacts.
Import Js HospitalLocations Wire.

Section WithEncoding.
Variable encode : Py.value -> option value.
Variable random_suffix : nat -> string.

(** A hospital of the backend has no [lat] of its own: the loop passes
    it over. *)
Lemma visit_hospital_json (h : HospitalRag.Hospital) (item : value)
    (state : nat * list Hospital) :
  hospital_json encode h = Some item ->
  visit random_suffix item state = Return state.
Proof.
  unfold hospital_json.
  destruct (match HospitalRag.coordinates h with
            | Some coords => encode coords
            | None => Some Null
            end); [|discriminate].
  destruct (encode (Py.VFloat _)); [|discriminate].
  destruct (encode (HospitalRag.relevance_score h)); [|discriminate].
  intros [= <-]. destruct state. reflexivity.
Qed.

Lemma visit_all_hospitals_json (hospitals : list HospitalRag.Hospital) :
  forall items state,
    hospitals_json encode hospitals = Some items ->
    visit_all random_suffix items state = Return state.
Proof.
  induction hospitals as [|h rest IH]; intros items state; cbn [hospitals_json].
  - now intros [= <-].
  - destruct (hospital_json encode h) as [first|] eqn:Hh; [|discriminate].
    destruct (hospitals_json encode rest) as [others|]; [|discriminate].
    intros [= <-]. cbn [visit_all]. rewrite (visit_hospital_json _ _ _ Hh).
    now apply IH.
Qed.

Lemma extract_response_json (draws : nat) (r : HospitalRag.RagLocationsResponse)
    (data : value) :
  response_json encode r = Some data ->
  extractHospitalDataFromRAG random_suffix draws data = Return (draws, []).
Proof.
  unfold response_json.
  destruct (hospitals_json encode (HospitalRag.hospitals r)) as [items|] eqn:Hh;
    [|discriminate].
  destruct (encode (Py.VInt _)); [|discriminate].
  intros [= <-]. unfold extractHospitalDataFromRAG.
  cbn [truthy negb get bind lookup String.eqb Ascii.eqb Bool.eqb iterate].
  now apply (visit_all_hospitals_json _ _ _ Hh).
Qed.

Section WithCollaborators.
Variable chat_completion : nat -> string -> Py.result (option string).
Variable json_loads : string -> Py.result Py.value.

(** X16: the route finds no hospital in what the backend's own
    endpoint answers: the backend puts the coordinates it resolved under
    [coordinates], the route looks for [lat] and [lng] on the hospital
    itself, so all three hospitals are dropped, whether or not their
    coordinates were resolved. *)
Theorem backend_hospitals_never_located
    (call draws : nat) (request : HospitalRag.HospitalRagRequest) :
  let response :=
    HospitalRag.get_hospitals_from_rag chat_completion json_loads call request in
  HospitalRag.total_found response = 3 /\
  forall data,
    response_json encode response = Some data ->
    extractHospitalDataFromRAG random_suffix draws data = Return (draws, []).
Proof.
  cbv zeta. split; [|intros data; apply extract_response_json].
  cbn [HospitalRag.total_found HospitalRag.get_hospitals_from_rag].
  apply HospitalRagFacts.extract_length.
Qed.

End WithCollaborators.
End WithEncoding.

(** The theorem with the example collaborators, whose first hospital
    has its coordinates resolved: it is dropped like the others. *)
Lemma backend_hospitals_never_located_example :
  exists data,
    response_json Examples.encode
      (HospitalRag.get_hospitals_from_rag HospitalRag.example_chat
         HospitalRag.example_json_loads 0 (HospitalRag.mkRequest "Boston" "general" 5))
    = Some data /\
    lookup "coordinates" (match lookup "hospitals" (match data with
                                                    | Obj fields => fields
                                                    | _ => []
                                                    end) with
                          | Arr (Obj first :: _) => first
                          | _ => []
                          end)
    = Obj [ ("lat", Num 42.36); ("lng", Num (-71.06)) ] /\
    extractHospitalDataFromRAG (fun _ => "k3x9") 0 data = Return (0, []).
Proof.
  eexists. split; [reflexivity|]. split; [reflexivity|].
  apply (proj2 (backend_hospitals_never_located Examples.encode (fun _ => "k3x9")
                  HospitalRag.example_chat HospitalRag.example_json_loads 0 0
                  (HospitalRag.mkRequest "Boston" "general" 5))).
  reflexivity.
Defined.

End WireFacts.

(** ** The hospital-locations handler *)

Module HospitalLocationsRouteFacts.
Import Js JsRun Geocoding MockHospitals HospitalLocations HospitalLocationsRoute.

Section WithRandom.
Variable random_suffix : nat -> string.

Lemma visit_located (item : value) (state state' : nat * list Hospital) :
  visit random_suffix item state = Return state' ->
  Forall located (snd state) -> Forall located (snd state').
Proof.
  destruct state as [draws hospitals]. unfold visit.
  destruct item as [| |b|f|s|items|fields]; cbn [get Js.bind truthy];
    try discriminate;
    try (match goal with |- Return _ = Return _ -> _ => intros [= <-]; trivial end).
  destruct (truthy (lookup "lat" fields)) eqn:Hlat; [|intros [= <-]; trivial].
  destruct (truthy (lookup "lng" fields)) eqn:Hlng; [|intros [= <-]; trivial].
  intros [= <-] H. cbn [snd] in *. apply Forall_app. split; [assumption|].
  constructor; [|constructor]. split; assumption.
Qed.

Lemma visit_all_located (items : list value) : forall state state',
  visit_all random_suffix items state = Return state' ->
  Forall located (snd state) -> Forall located (snd state').
Proof.
  induction items as [|item rest IH]; intros state state'; cbn [visit_all].
  - now intros [= <-].
  - destruct (visit random_suffix item state) as [mid|] eqn:Hv; cbn [Js.bind]; [|discriminate].
    intros Hrest H. exact (IH _ _ Hrest (visit_located _ _ _ Hv H)).
Qed.

(** Whatever the response, the hospitals extracted from it are
    located. *)
Lemma extract_located (draws : nat) (ragResponse : value) (result : nat * list Hospital) :
  extractHospitalDataFromRAG random_suffix draws ragResponse = Return result ->
  Forall located (snd result).
Proof.
  unfold extractHospitalDataFromRAG.
  destruct (negb (truthy ragResponse)); [intros [= <-]; constructor|].
  destruct (get ragResponse "hospitals") as [rag_hospitals|]; cbn [Js.bind]; [|discriminate].
  destruct (negb (truthy rag_hospitals)); [intros [= <-]; constructor|].
  destruct (iterate rag_hospitals) as [items|]; cbn [Js.bind]; [|discriminate].
  intros H. apply (visit_all_located _ _ _ H). constructor.
Qed.

End WithRandom.

Section WithServices.
Variable js : Builtins.
Variable rag_locations : value -> fetched.
Variable find_best_hospitals : value -> fetched.
Variable geocode_service : caller -> value -> fetched.
Variable random_suffix : nat -> string.
Variable backend_random : nat -> nat -> float.
Variable mock_random : nat -> float.

Abbreviation route :=
  (POST js rag_locations find_best_hospitals geocode_service
        random_suffix backend_random mock_random).

(** What the RAG branch returns, when it returns. *)
Lemma rag_attempt_some (location injuryType : value) (response : Response) :
  rag_attempt rag_locations random_suffix location injuryType = Normal (Some response) ->
  exists hospitals query_used,
    response = mkResponse 200 (FromRag hospitals query_used) /\
    hospitals <> [] /\ Forall located hospitals.
Proof.
  unfold rag_attempt. destruct (rag_locations _) as [|[] [ragData|]]; cbn [json bind];
    try discriminate.
  destruct (extractHospitalDataFromRAG random_suffix 0 ragData) as [[draws hospitals]|] eqn:He;
    cbn [lift bind snd]; [|discriminate].
  apply extract_located in He. cbn [snd] in He.
  destruct hospitals as [|h rest]; [discriminate|].
  destruct (get ragData "rag_query") as [q|]; cbn [lift bind]; [|discriminate].
  intros [= <-]. exists (h :: rest), q. repeat split; [discriminate|assumption].
Qed.

(** The callback leaves a hospital that has both coordinates as it
    is. *)
Lemma with_coordinates_located (location : value) (i : nat) (hospital h : value) :
  with_coordinates js geocode_service backend_random location i hospital = Normal h ->
  has_coordinates hospital = true -> h = hospital.
Proof.
  unfold with_coordinates, has_coordinates, rag_position.
  destruct hospital as [| |b|f|s|items|fields]; cbn [fst snd truthy andb]; try discriminate.
  cbn [get lift bind]. intros H [Hlat Hlng]%andb_true_iff.
  rewrite Hlat in H. cbn [bind] in H. rewrite Hlng in H. cbn [negb bind] in H. congruence.
Qed.

Lemma all_with_coordinates_located (location : value) (items : list value) :
  forall i hospitals,
    all_with_coordinates js geocode_service backend_random location i items = Normal hospitals ->
    Forall2 (fun item h => has_coordinates item = true -> h = item) items hospitals.
Proof.
  induction items as [|item rest IH]; intros i hospitals; cbn [all_with_coordinates].
  - intros [= <-]. constructor.
  - destruct (with_coordinates _ _ _ location i item) as [h|] eqn:Hh; cbn [bind]; [|discriminate].
    destruct (all_with_coordinates _ _ _ location (S i) rest) as [hs|] eqn:Hr; cbn [bind];
      [|discriminate].
    intros [= <-]. constructor; [|now apply (IH (S i))].
    now apply (with_coordinates_located location i).
Qed.

(** What the backend branch returns, when it returns. *)
Lemma backend_attempt_some (location injuryType radius : value) (response : Response) :
  backend_attempt js find_best_hospitals geocode_service backend_random
                  location injuryType radius = Normal (Some response) ->
  exists request_body backendData items hospitals,
    find_best_hospitals request_body = Resolves true (Some backendData) /\
    get backendData "hospitals" = Return (Arr items) /\
    items <> [] /\
    response = mkResponse 200 (FromBackend hospitals) /\
    Forall2 (fun item h => has_coordinates item = true -> h = item) items hospitals.
Proof.
  unfold backend_attempt.
  destruct (find_best_hospitals _) as [|[] [backendData|]] eqn:Hf; cbn [json bind];
    try discriminate.
  destruct (get backendData "hospitals") as [hospitals|] eqn:Hg; cbn [lift bind];
    [|discriminate].
  destruct (truthy_and_long js hospitals) as [[]|] eqn:Hc; cbn [bind]; try discriminate.
  destruct hospitals as [| |b|f|s|items|fields]; try discriminate.
  destruct (all_with_coordinates _ _ _ location 0 items) as [hs|] eqn:Ha; cbn [bind];
    [|discriminate].
  intros [= <-]. eexists _, backendData, items, hs.
  split; [exact Hf|]. split; [exact Hg|]. split.
  - intros ->. discriminate Hc.
  - split; [reflexivity|]. now apply (all_with_coordinates_located location items 0).
Qed.

(** How the handler got to its response. *)
Lemma route_cases (request_body : option value) :
  route request_body = failed \/ route request_body = required \/
  (exists location injuryType,
     rag_attempt rag_locations random_suffix location injuryType
     = Normal (Some (route request_body))) \/
  (exists location injuryType radius,
     backend_attempt js find_best_hospitals geocode_service backend_random
                     location injuryType radius
     = Normal (Some (route request_body))) \/
  (exists location hospitals,
     generateLocationAwareMockHospitals js geocode_service mock_random location
     = Normal hospitals /\
     route request_body = mkResponse 200 (FromMock hospitals mock_note)).
Proof.
  unfold POST, handle.
  destruct (json request_body) as [request|]; cbn [bind]; [|now left].
  destruct (get request "location") as [location|]; cbn [lift bind]; [|now left].
  destruct (get request "injuryType") as [injuryType|]; cbn [lift bind]; [|now left].
  destruct (get request "radius") as [radius|]; cbn [lift bind]; [|now left].
  destruct (negb (truthy location)); [right; now left|].
  unfold convert.
  destruct (printable location); cbn [bind]; [|now left].
  destruct (printable injuryType); cbn [bind]; [|now left].
  destruct (printable radius); cbn [bind]; [|now left].
  assert (Hmock :
    match mock_attempt js geocode_service mock_random location with
    | Normal response => response
    | Throw _ => failed
    end = failed \/
    exists hospitals,
      generateLocationAwareMockHospitals js geocode_service mock_random location
      = Normal hospitals /\
      match mock_attempt js geocode_service mock_random location with
      | Normal response => response
      | Throw _ => failed
      end = mkResponse 200 (FromMock hospitals mock_note)).
  { unfold mock_attempt.
    destruct (generateLocationAwareMockHospitals _ _ _ location) as [hs|]; cbn [bind];
      [right; eauto | now left]. }
  destruct (rag_attempt _ _ location injuryType) as [[r|]|e] eqn:Hr;
    [right; right; left; eauto | |];
    (destruct (backend_attempt _ _ _ _ location injuryType radius) as [[r|]|e'] eqn:Hb;
     [right; right; right; left; eauto | |]);
    (destruct Hmock as [H|(hs & Hg & H)];
     [left; exact H | right; right; right; right; eauto]).
Qed.

(** X17: the answer tells where its hospitals come from.  Hospitals
    passed on from the RAG system are at least one and all have truthy
    coordinates; hospitals passed on from the backend are as many as
    the backend listed, in its order, and those that came with both
    coordinates are passed on as they are; mock hospitals are eight,
    and come with the note that the other systems were unavailable. *)
Theorem response_matches_its_source (request_body : option value) :
  (forall hospitals query_used,
     body (route request_body) = FromRag hospitals query_used ->
     status (route request_body) = 200 /\
     hospitals <> [] /\ Forall located hospitals) /\
  (forall hospitals,
     body (route request_body) = FromBackend hospitals ->
     status (route request_body) = 200 /\
     exists backend_request backendData items,
       find_best_hospitals backend_request = Resolves true (Some backendData) /\
       get backendData "hospitals" = Return (Arr items) /\
       Forall2 (fun item h => has_coordinates item = true -> h = item) items hospitals) /\
  (forall hospitals note,
     body (route request_body) = FromMock hospitals note ->
     status (route request_body) = 200 /\
     List.length hospitals = 8 /\ note = mock_note).
Proof.
  destruct (route_cases request_body)
    as [H|[H|[(l & t & H)|[(l & t & r & H)|(l & hs & Hg & H)]]]].
  - rewrite H. repeat split; intros; discriminate.
  - rewrite H. repeat split; intros; discriminate.
  - apply rag_attempt_some in H as (hs & q & -> & Hne & Hloc).
    split; [|split; intros; discriminate].
    intros hospitals query_used [= <- <-]. auto.
  - apply backend_attempt_some in H as (rb & data & items & hs & Hf & Hg & _ & -> & Hall).
    split; [intros; discriminate|]. split; [|intros; discriminate].
    intros hospitals [= <-]. split; [reflexivity|]. exists rb, data, items. auto.
  - rewrite H. split; [intros; discriminate|]. split; [intros; discriminate|].
    intros hospitals note [= <- <-]. split; [reflexivity|]. split; [|reflexivity].
    unfold generateLocationAwareMockHospitals in Hg.
    destruct (geocodeAddress js geocode_service ForMock l) as [[base|]|e];
      cbn [bind] in Hg; try discriminate.
    destruct l as [| | | |location| |]; try discriminate.
    destruct (MockHospitalsFacts.mock_hospitals_from_shape js mock_random _ _ _ _ _ Hg)
      as [Hid _].
    rewrite <- (length_map id), Hid, length_map. reflexivity.
Qed.

(** A request without a usable body or location is turned away before
    any service is asked. *)
Lemma locations_requires_location :
  (forall fields,
     truthy (lookup "location" fields) = false ->
     route (Some (Obj fields)) = required) /\
  route None = failed /\
  route (Some Null) = failed.
Proof.
  repeat split. intros fields H. unfold POST, handle.
  cbn [json bind get lift]. now rewrite H.
Qed.

End WithServices.

Section Deployed.
Variable js route_js : Builtins.
Variable chat_completion : nat -> string -> Py.result (option string).
Variable json_loads : string -> Py.result Py.value.
Variable encode : Py.value -> option value.
Variable parse_request : value -> option HospitalRag.HospitalRagRequest.
Variable validation_detail : value -> value.
Variable call : nat.
Variable find_best_hospitals : value -> fetched.
Variable NEXT_PUBLIC_OPENCAGE_API_KEY : option string.
Variable OPENCAGE_API_KEY : option string.
Variable opencage : string -> string -> fetched.
Variable nominatim : string -> fetched.
Variable encode_body : GeocodeRoute.Body -> value.
Variable random_suffix : nat -> string.
Variable backend_random : nat -> nat -> float.
Variable mock_random : nat -> float.

Abbreviation backend :=
  (Deployment.rag_locations chat_completion json_loads encode parse_request
                            validation_detail call).
Abbreviation by_route :=
  (Deployment.geocode_service route_js NEXT_PUBLIC_OPENCAGE_API_KEY OPENCAGE_API_KEY
                              opencage nominatim encode_body).

(** The RAG branch gets nothing out of the backend. *)
Lemma rag_attempt_backend (location injuryType : value) :
  rag_attempt backend random_suffix location injuryType = Normal None.
Proof.
  unfold rag_attempt, Deployment.rag_locations.
  destruct (parse_request _) as [request|]; [|reflexivity].
  destruct (Wire.response_json encode _) as [data|] eqn:Hd; [|reflexivity].
  cbn [json bind]. now rewrite (WireFacts.extract_response_json _ _ _ _ _ Hd).
Qed.

(** X18: served by the repository's own backend, the handler never
    answers with hospitals from the RAG system, whatever the request
    and whatever the other services do: its first priority is dead. *)
Theorem rag_priority_is_dead
    (geocode_service : caller -> value -> fetched) (request_body : option value) :
  from_rag (body (POST js backend find_best_hospitals geocode_service
                       random_suffix backend_random mock_random request_body))
  = false.
Proof.
  destruct (route_cases js backend find_best_hospitals geocode_service
              random_suffix backend_random mock_random request_body)
    as [H|[H|[(l & t & H)|[(l & t & r & H)|(l & hs & _ & H)]]]].
  - now rewrite H.
  - now rewrite H.
  - rewrite rag_attempt_backend in H. discriminate.
  - apply backend_attempt_some in H as (rb & data & items & hs & _ & _ & _ & -> & _).
    reflexivity.
  - now rewrite H.
Qed.

(** X19: the whole chain as the repository deploys it (its backend for
    the RAG request, no usable find-best-hospitals endpoint, its own
    geocode route for geocoding), for a request whose location is a text
    that is not empty and whose [injuryType] and [radius] can be printed
    in the log line of the handler.  When the text is a coordinate pair
    in range, or its lowercased, trimmed form indexes something truthy
    in the table of [geocodeAddress], the answer has status 200 and
    carries mock data, eight hospitals around what was found; what the
    table gives is the coordinates of one of its twenty names or, for a
    name every object inherits ([constructor], [__proto__], ...), an
    object without [lat] and [lng], around which the eight hospitals are
    still produced.  The answer has status 500 only when the text is no
    such pair and the table gives nothing.  No geocoding service is ever
    reached. *)
Theorem deployed_route_mock_or_500
    (fields : list (string * value)) (location : string) :
  lookup "location" fields = Text location -> location <> "" ->
  printable (lookup "injuryType" fields) = true ->
  printable (lookup "radius" fields) = true ->
  (forall request_body, Deployment.unavailable (find_best_hospitals request_body)) ->
  let response :=
    POST js backend find_best_hospitals by_route random_suffix backend_random mock_random
         (Some (Obj fields)) in
  match match typed_coordinates js location with
        | Some coords => Some coords
        | None => table_entry (trim (Str.lower location))
        end with
  | Some baseCoords =>
      exists hospitals,
        mock_hospitals_from js mock_random location baseCoords 0 hospitalTemplates
        = Normal hospitals /\
        List.length hospitals = 8 /\
        response = mkResponse 200 (FromMock hospitals mock_note)
  | None => response = failed
  end.
Proof.
  intros Hl Hne Hi Hr Hdown. cbv zeta. unfold POST, handle. cbn [json bind get lift].
  rewrite Hl. cbn [truthy]. destruct location as [|c location]; [contradiction|].
  cbn [Str.is_empty negb]. unfold convert. rewrite Hi, Hr. cbn [printable bind].
  rewrite rag_attempt_backend.
  assert (Hb : forall injuryType radius,
             match backend_attempt js find_best_hospitals by_route backend_random
                     (Text (String c location)) injuryType radius with
             | Normal (Some response) => Some response
             | _ => None
             end = None).
  { intros injuryType radius. unfold backend_attempt.
    destruct (Hdown (Obj [ ("injury_description", or_else injuryType (Text "general medical care"));
                           ("location", Text (String c location));
                           ("max_distance", or_else radius (Num 25)) ]))
      as [-> | [b ->]]; reflexivity. }
  specialize (Hb (lookup "injuryType" fields) (lookup "radius" fields)).
  assert (Hmock :
    match match typed_coordinates js (String c location) with
          | Some coords => Some coords
          | None => table_entry (trim (Str.lower (String c location)))
          end with
    | Some baseCoords =>
        exists hospitals,
          mock_hospitals_from js mock_random (String c location) baseCoords 0 hospitalTemplates
          = Normal hospitals /\
          List.length hospitals = 8 /\
          match mock_attempt js by_route mock_random (Text (String c location)) with
          | Normal response => response
          | Throw _ => failed
          end = mkResponse 200 (FromMock hospitals mock_note)
    | None =>
        match mock_attempt js by_route mock_random (Text (String c location)) with
        | Normal response => response
        | Throw _ => failed
        end = failed
    end).
  { unfold mock_attempt, generateLocationAwareMockHospitals.
    rewrite (proj2 (GeocodingFacts.geocodeAddress_local js route_js
                      NEXT_PUBLIC_OPENCAGE_API_KEY OPENCAGE_API_KEY opencage nominatim
                      encode_body ForMock (String c location))).
    cbn [bind].
    destruct (match typed_coordinates js (String c location) with
              | Some coords => Some coords
              | None => table_entry (trim (Str.lower (String c location)))
              end) as [base|] eqn:Hlocal; [|reflexivity].
    destruct (GeocodingFacts.local_coordinates_printable js _ _ Hlocal) as [Hlat Hlng].
    destruct (MockHospitalsFacts.mock_hospitals_from_returns js mock_random
                (String c location) base hospitalTemplates Hlat Hlng 0) as [hs Hhs].
    exists hs. rewrite Hhs. cbn [bind]. repeat split.
    destruct (MockHospitalsFacts.mock_hospitals_from_shape js mock_random _ _ _ _ _ Hhs)
      as [Hid _].
    rewrite <- (length_map id), Hid, length_map. reflexivity. }
  destruct (backend_attempt _ _ _ _ _ _ _) as [[r|]|e]; [discriminate| |]; exact Hmock.
Qed.

End Deployed.

(** The theorem with a RAG system that answers [sample_response]: the
    one located record is passed on. *)
Lemma response_matches_its_source_example :
  exists hospitals query_used,
    body (POST Examples.engine (fun _ => Resolves true (Some sample_response))
               Examples.down Examples.geocode_down
               (fun _ => "k3x9") (fun _ _ => 0%float) (fun _ => 0%float)
               (Some (Obj [ ("location", Text "Los Angeles") ])))
    = FromRag hospitals query_used /\
    status (POST Examples.engine (fun _ => Resolves true (Some sample_response))
                 Examples.down Examples.geocode_down
                 (fun _ => "k3x9") (fun _ _ => 0%float) (fun _ => 0%float)
                 (Some (Obj [ ("location", Text "Los Angeles") ])))
    = 200 /\
    hospitals <> [] /\ Forall located hospitals.
Proof.
  eexists _, _. split; [reflexivity|].
  eapply (proj1 (response_matches_its_source
                  Examples.engine (fun _ => Resolves true (Some sample_response))
                  Examples.down Examples.geocode_down
                  (fun _ => "k3x9") (fun _ _ => 0%float) (fun _ => 0%float)
                  (Some (Obj [ ("location", Text "Los Angeles") ])))).
  reflexivity.
Defined.

(** The theorem at a place that is not in the table, with the example
    collaborators: status 500. *)
Lemma deployed_route_mock_or_500_example :
  POST Examples.engine
       (Deployment.rag_locations HospitalRag.example_chat HospitalRag.example_json_loads
                                 Examples.encode Examples.parse_request
                                 Examples.validation_detail 0)
       Examples.down
       (Deployment.geocode_service Examples.engine None None Examples.down2 Examples.down1
                                   Examples.encode_body)
       (fun _ => "k3x9") (fun _ _ => 0%float) (fun _ => 0%float)
       (Some (Obj [ ("location", Text "Springfield"); ("injuryType", Text "sprain") ]))
  = failed.
Proof.
  apply (deployed_route_mock_or_500 Examples.engine Examples.engine
           HospitalRag.example_chat HospitalRag.example_json_loads
           Examples.encode Examples.parse_request Examples.validation_detail 0 Examples.down
           None None Examples.down2 Examples.down1 Examples.encode_body
           (fun _ => "k3x9") (fun _ _ => 0%float) (fun _ => 0%float)
           [ ("location", Text "Springfield"); ("injuryType", Text "sprain") ]
           "Springfield").
  - reflexivity.
  - discriminate.
  - reflexivity.
  - reflexivity.
  - intros request_body. now left.
Defined.

(** A location that is no place at all, but a name the table inherits:
    status 200 and eight mock hospitals, none with a usable latitude or
    longitude. *)
Example deployed_route_for_constructor :
  let response :=
    POST Examples.engine
         (Deployment.rag_locations HospitalRag.example_chat HospitalRag.example_json_loads
                                   Examples.encode Examples.parse_request
                                   Examples.validation_detail 0)
         Examples.down
         (Deployment.geocode_service Examples.engine None None Examples.down2
                                     Examples.down1 Examples.encode_body)
         (fun _ => "k3x9") (fun _ _ => 0%float) (fun _ => 0%float)
         (Some (Obj [ ("location", Text "constructor") ])) in
  status response = 200 /\
  match body response with
  | FromMock hospitals _ =>
      List.length hospitals = 8 /\
      existsb (fun h => truthy (HospitalLocations.lat h) || truthy (HospitalLocations.lng h))
              hospitals = false
  | _ => False
  end.
Proof. split; [reflexivity|]. cbv zeta. vm_compute. split; reflexivity. Qed.

Example deployed_route_for_chicago :
  status (POST Examples.engine
            (Deployment.rag_locations HospitalRag.example_chat HospitalRag.example_json_loads
                                      Examples.encode Examples.parse_request
                                 Examples.validation_detail 0)
            Examples.down
            (Deployment.geocode_service Examples.engine None None Examples.down2
                                        Examples.down1 Examples.encode_body)
            (fun _ => "k3x9") (fun _ _ => 0%float) (fun _ => 0%float)
            (Some (Obj [ ("location", Text "Chicago") ])))
  = 200.
Proof. reflexivity. Qed.

End HospitalLocationsRouteFacts.
